(** * librus-google-task-sync: the collector, the normalizers and the notifier

    A shallow embedding of [src/main.py]: the two normalizers of [LibrusSync]
    (schedule events and homework), the submission loop
    [process_collected_tasks] with [GoogleTasksManager.add_task_if_not_exists],
    the truncation done by [send_discord_embed], and, of the start of a
    run, the choice of the task list and the handling of the token.

    Conventions of the model
    - A Python [str] is a [string]; one [ascii] stands for one code point
      below 256 (Latin-1), so [String.length] is Python's [len].
    - Python [int] is [Z].
    - A Python exception is a value of [exn]; a call either returns ([Ok]) or
      raises ([Raise]).
    - [datetime.now()] reads an explicit clock: the n-th reading of a run is
      [clock n], and the world counts the readings made so far.
    - The portal is a parameter: what [get_schedule], [get_homework] and
      [homework_detail] return or raise.  The Tasks service is the remote
      list of the world: it answers every [tasks().list] and
      [tasks().insert], and keeps what is inserted.
    - The start of a run is a parameter too: what the constructor of the
      Tasks manager, [new_client] and [get_token] return or raise.
    - [log_message] only prints, and is left out, as is the delivery of
      the webhook; of the OAuth exchange only the outcome is kept. *)

From Stdlib Require Import ZArith List String Ascii Bool Lia DecimalString.
From Stdlib Require Import Sorting.Sorted Sorting.Permutation.
Import ListNotations.

Local Open Scope string_scope.
Local Open Scope Z_scope.

(** ** Python strings *)

Module PyStr.

Definition code (c : ascii) : Z := Z.of_nat (nat_of_ascii c).

Definition chr (n : Z) : ascii := ascii_of_nat (Z.to_nat n).

Definition newline : string := String (chr 10) "".

(** [\d] of the [re] module, on code points below 256. *)
Definition is_digit (c : ascii) : bool := (48 <=? code c) && (code c <=? 57).

Definition digit_val (c : ascii) : Z := code c - 48.

Definition in_range (lo hi : Z) (c : ascii) : bool :=
  (48 + lo <=? code c) && (code c <=? 48 + hi).

(** [str.isspace] on code points below 256: the separators of [str.split()]. *)
Definition is_space (c : ascii) : bool :=
  ((9 <=? code c) && (code c <=? 13)) || ((28 <=? code c) && (code c <=? 32))
  || (code c =? 133) || (code c =? 160).

(** [str.lower] on code points below 256. *)
Definition lower_char (c : ascii) : ascii :=
  let n := code c in
  if ((65 <=? n) && (n <=? 90))
     || ((192 <=? n) && (n <=? 214)) || ((216 <=? n) && (n <=? 222))
  then chr (n + 32) else c.

Fixpoint lower (s : string) : string :=
  match s with
  | EmptyString => EmptyString
  | String c r => String (lower_char c) (lower r)
  end.

(** [needle in hay]. *)
Fixpoint contains (needle hay : string) : bool :=
  prefix needle hay ||
  match hay with
  | EmptyString => false
  | String _ r => contains needle r
  end.

(** [s.startswith(p)]. *)
Definition startswith (s p : string) : bool := prefix p s.

(** [s.split()]: the maximal runs of non-space characters. *)
Fixpoint split (s : string) : list string :=
  match s with
  | EmptyString => []
  | String c r =>
      if is_space c then split r
      else match r with
           | EmptyString => [String c ""]
           | String c' _ =>
               if is_space c' then String c "" :: split r
               else match split r with
                    | w :: ws => String c w :: ws
                    | [] => [String c ""]
                    end
           end
  end.

(** [str(n)] for an [int]. *)
Definition str (n : Z) : string := NilZero.string_of_int (Z.to_int n).

Fixpoint zeros (n : nat) : string :=
  match n with
  | O => ""
  | S k => String "0" (zeros k)
  end.

(** [s.zfill(width)]: zeros go after a leading sign. *)
Definition zfill (width : nat) (s : string) : string :=
  let fill := (width - String.length s)%nat in
  match s with
  | String c r =>
      if (Ascii.eqb c "+" || Ascii.eqb c "-")%bool
      then String c (zeros fill ++ r)
      else zeros fill ++ s
  | EmptyString => zeros fill
  end.

(** The decimal digit [k], for [0 <= k <= 9]. *)
Definition digit_char (k : Z) : ascii := chr (48 + k).

(** The last [width] decimal digits of [n], most significant first. *)
Fixpoint digits (width : nat) (n : Z) : string :=
  match width with
  | O => ""
  | S k => digits k (n / 10) ++ String (digit_char (n mod 10)) ""
  end.

(** ["%02d" % n], ["%04d" % n] and ["%06d" % n]: the decimal writing of
    [n] on at least [width] characters, with zeros on the left. *)
Definition pad (width : nat) (n : Z) : string :=
  if (0 <=? n) && (n <? 10 ^ Z.of_nat width) then digits width n
  else zfill width (str n).

(** [sep.join(items)]. *)
Definition join (sep : string) (items : list string) : string :=
  String.concat sep items.

(** [s[:n]]. *)
Definition take (n : nat) (s : string) : string := substring 0 n s.

End PyStr.

(** ** Exceptions *)

Inductive exn : Type :=
| ValueError
| IndexError
| KeyError
| OverflowError
| OtherError.

Inductive result (A : Type) : Type :=
| Ok (a : A)
| Raise (e : exn).

Arguments Ok {A} a.
Arguments Raise {A} e.

(** ** Calendar dates: [datetime.date] and [datetime.datetime] *)

Module Calendar.

Record date : Type := mkdate { year : Z; month : Z; day : Z }.

Record datetime : Type := mkdatetime {
  dt_date : date;
  hour : Z;
  minute : Z;
  second : Z;
  microsecond : Z
}.

Definition is_leap (y : Z) : bool :=
  (y mod 4 =? 0) && (negb (y mod 100 =? 0) || (y mod 400 =? 0)).

Definition days_in_month (y m : Z) : Z :=
  if m =? 2 then (if is_leap y then 29 else 28)
  else if (m =? 4) || (m =? 6) || (m =? 9) || (m =? 11) then 30
  else 31.

(** What the constructor [date(y, m, d)] accepts; it raises [ValueError]
    otherwise. *)
Definition valid_date (d : date) : bool :=
  (1 <=? year d) && (year d <=? 9999)
  && (1 <=? month d) && (month d <=? 12)
  && (1 <=? day d) && (day d <=? days_in_month (year d) (month d)).

Definition valid_time (t : datetime) : bool :=
  (0 <=? hour t) && (hour t <=? 23)
  && (0 <=? minute t) && (minute t <=? 59)
  && (0 <=? second t) && (second t <=? 59)
  && (0 <=? microsecond t) && (microsecond t <=? 999999).

Definition valid_datetime (t : datetime) : bool :=
  valid_date (dt_date t) && valid_time t.

(** [d1 == d2] and [d1 < d2] on dates. *)
Definition date_eqb (a b : date) : bool :=
  (year a =? year b) && (month a =? month b) && (day a =? day b).

Definition date_ltb (a b : date) : bool :=
  (year a <? year b)
  || ((year a =? year b)
      && ((month a <? month b)
          || ((month a =? month b) && (day a <? day b)))).

Definition date_leb (a b : date) : bool := negb (date_ltb b a).

(** The time of day in microseconds, for comparisons. *)
Definition time_of_day (t : datetime) : Z :=
  ((hour t * 60 + minute t) * 60 + second t) * 1000000 + microsecond t.

(** [t1 < t2] on naive datetimes. *)
Definition datetime_ltb (a b : datetime) : bool :=
  date_ltb (dt_date a) (dt_date b)
  || (date_eqb (dt_date a) (dt_date b) && (time_of_day a <? time_of_day b)).

(** [date.toordinal()]: days since 0001-01-01, counted from 1. *)
Definition days_before_year (y : Z) : Z :=
  let p := y - 1 in p * 365 + p / 4 - p / 100 + p / 400.

Fixpoint days_before_month_nat (y : Z) (m : nat) : Z :=
  match m with
  | O => 0
  | S k => days_before_month_nat y k + days_in_month y (Z.of_nat (S k))
  end.

Definition days_before_month (y m : Z) : Z :=
  days_before_month_nat y (Z.to_nat (m - 1)).

Definition toordinal (d : date) : Z :=
  days_before_year (year d) + days_before_month (year d) (month d) + day d.

(** The day before and the day after. *)
Definition pred_day (d : date) : date :=
  if 1 <? day d then mkdate (year d) (month d) (day d - 1)
  else if 1 <? month d
       then mkdate (year d) (month d - 1) (days_in_month (year d) (month d - 1))
       else mkdate (year d - 1) 12 31.

Definition succ_day (d : date) : date :=
  if day d <? days_in_month (year d) (month d)
  then mkdate (year d) (month d) (day d + 1)
  else if month d <? 12 then mkdate (year d) (month d + 1) 1
       else mkdate (year d + 1) 1 1.

Fixpoint shift_days (back : bool) (n : nat) (d : date) : date :=
  match n with
  | O => d
  | S k => shift_days back k (if back then pred_day d else succ_day d)
  end.

(** [d + timedelta(days=n)]; [OverflowError] outside years 1..9999. *)
Definition add_days (d : date) (n : Z) : result date :=
  let d' := shift_days (n <? 0) (Z.abs_nat n) d in
  if (1 <=? year d') && (year d' <=? 9999) then Ok d' else Raise OverflowError.

(** [t + timedelta(days=n)]: the time of day is kept. *)
Definition datetime_add_days (t : datetime) (n : Z) : result datetime :=
  match add_days (dt_date t) n with
  | Ok d => Ok (mkdatetime d (hour t) (minute t) (second t) (microsecond t))
  | Raise e => Raise e
  end.

(** [t.replace(day=n)]. *)
Definition replace_day (t : datetime) (n : Z) : result datetime :=
  let d := mkdate (year (dt_date t)) (month (dt_date t)) n in
  if valid_date d
  then Ok (mkdatetime d (hour t) (minute t) (second t) (microsecond t))
  else Raise ValueError.

Definition midnight (d : date) : datetime := mkdatetime d 0 0 0 0.

(** *** Formatting *)

(** [strftime("%Y")], [strftime("%m")] and [strftime("%Y-%m-%d")], as
    the C library of Linux does them: [%Y] writes the year without zeros
    on the left, so a year below 1000 has fewer than four digits (from
    1000 on, the four digits are the plain writing). *)
Definition format_Y (y : Z) : string :=
  if y <? 1000 then PyStr.str y else PyStr.pad 4 y.

Definition strftime_Y (t : datetime) : string := format_Y (year (dt_date t)).
Definition strftime_m (t : datetime) : string := PyStr.pad 2 (month (dt_date t)).

Definition format_Ymd (d : date) : string :=
  format_Y (year d) ++ "-" ++ PyStr.pad 2 (month d) ++ "-" ++ PyStr.pad 2 (day d).

Definition strftime_Ymd (t : datetime) : string := format_Ymd (dt_date t).

(** [date.isoformat()]: the year always on four digits. *)
Definition isoformat_date (d : date) : string :=
  PyStr.pad 4 (year d) ++ "-" ++ PyStr.pad 2 (month d) ++ "-" ++ PyStr.pad 2 (day d).

(** [datetime.isoformat()]: the fraction is printed only when not zero. *)
Definition isoformat (t : datetime) : string :=
  isoformat_date (dt_date t) ++ "T"
  ++ PyStr.pad 2 (hour t) ++ ":" ++ PyStr.pad 2 (minute t) ++ ":"
  ++ PyStr.pad 2 (second t)
  ++ (if microsecond t =? 0 then "" else "." ++ PyStr.pad 6 (microsecond t)).

(** *** Parsing: [datetime.strptime(s, "%Y-%m-%d")]

    [_strptime] compiles the format to the regular expression
    [(\d\d\d\d)-(1[0-2]|0[1-9]|[1-9])-(3[0-1]|[1-2]\d|0[1-9]|[1-9]| [1-9])],
    matches it at the start of the string (alternatives in order, with
    backtracking), refuses input left over, and builds the date. *)

Import PyStr.

Definition expect (ch : ascii) (s : string) : list string :=
  match s with
  | String c r => if Ascii.eqb c ch then [r] else []
  | EmptyString => []
  end.

(** [\d\d\d\d] *)
Definition re_Y (s : string) : list (Z * string) :=
  match s with
  | String a (String b (String c (String d r))) =>
      if is_digit a && is_digit b && is_digit c && is_digit d
      then [(1000 * digit_val a + 100 * digit_val b + 10 * digit_val c + digit_val d, r)]
      else []
  | _ => []
  end.

(** One two-character alternative [[a_lo-a_hi][b_lo-b_hi]], read as a number. *)
Definition two_chars (alo ahi blo bhi : Z) (s : string) : list (Z * string) :=
  match s with
  | String a (String b r) =>
      if in_range alo ahi a && in_range blo bhi b
      then [(10 * digit_val a + digit_val b, r)] else []
  | _ => []
  end.

Definition one_char (lo hi : Z) (s : string) : list (Z * string) :=
  match s with
  | String a r => if in_range lo hi a then [(digit_val a, r)] else []
  | EmptyString => []
  end.

(** [1[0-2]|0[1-9]|[1-9]] *)
Definition re_m (s : string) : list (Z * string) :=
  two_chars 1 1 0 2 s ++ two_chars 0 0 1 9 s ++ one_char 1 9 s.

(** [3[0-1]|[1-2]\d|0[1-9]|[1-9]| [1-9]] *)
Definition re_d (s : string) : list (Z * string) :=
  two_chars 3 3 0 1 s ++ two_chars 1 2 0 9 s ++ two_chars 0 0 1 9 s
  ++ one_char 1 9 s
  ++ match s with
     | String c r => if Ascii.eqb c " " then one_char 1 9 r else []
     | EmptyString => []
     end.

(** [-(month)-(day)]: all the ways it matches a prefix, first match first. *)
Definition re_md (s : string) : list (Z * Z * string) :=
  flat_map (fun r1 =>
    flat_map (fun '(m, r2) =>
      flat_map (fun r3 => map (fun '(d, r4) => (m, d, r4)) (re_d r3))
               (expect "-" r2))
      (re_m r1))
    (expect "-" s).

(** The whole expression. *)
Definition re_Ymd (s : string) : list (date * string) :=
  flat_map (fun '(y, r) =>
    map (fun '(m, d, rest) => (mkdate y m d, rest)) (re_md r))
    (re_Y s).

Definition strptime (s : string) : result datetime :=
  match re_Ymd s with
  | (d, rest) :: _ =>
      match rest with
      | EmptyString => if valid_date d then Ok (midnight d) else Raise ValueError
      | String _ _ => Raise ValueError
      end
  | [] => Raise ValueError
  end.

End Calendar.

(** ** The data of the program *)

(** An entry of [LibrusSync.all_tasks]: the dict with keys ['title'],
    ['date'] and ['notes']. *)
Module Task.
Record t : Type := mk { title : string; date : string; notes : string }.
End Task.

(** A task of the remote list.  The source reads ['title'] of every task
    it is given and ['due'] of those with the title it looks for, and sends
    ['title'], ['due'] and ['notes']; a task of the service need not have a
    due date, and then the dict has no ['due'] key.  [completed] is what
    [showCompleted=False] filters on. *)
Module RemoteTask.
Record t : Type :=
  mk { title : string; due : option string; notes : string; completed : bool }.
End RemoteTask.

(** An event of the schedule ([librus_apix.schedule.Event]). *)
Module Event.
Record t : Type :=
  mk { title : string; subject : string; hour : string;
       data : list (string * string) }.
End Event.

(** A homework row ([librus_apix.homework.Homework]). *)
Module Homework.
Record t : Type :=
  mk { lesson : string; completion_date : string; href : string }.
End Homework.

Definition TEST_KEYWORDS : list string :=
  ["sprawdzian"; "kartk" ++ String (PyStr.chr 243) "wka"].

(** ** The world: the collection, the remote list, and the clock *)

Inductive StoreCall : Type :=
| TasksList
| TasksInsert (body : RemoteTask.t).

(** [calls] is the journal of the calls that [add_task_if_not_exists]
    makes on the Tasks service ([tasks().list] and [tasks().insert]),
    oldest first; each is recorded with the [event_date] argument of the
    invocation that made it.  (The calls of the constructor of the manager
    belong to the start of the run: see [Setup].) *)
Record World : Type := mkWorld {
  all_tasks : list Task.t;
  remote : list RemoteTask.t;
  calls : list (string * StoreCall);
  ticks : nat
}.

Definition M (A : Type) : Type := World -> World * result A.

Definition ret {A} (a : A) : M A := fun w => (w, Ok a).

Definition raise {A} (e : exn) : M A := fun w => (w, Raise e).

Definition bind {A B} (m : M A) (k : A -> M B) : M B :=
  fun w =>
    match m w with
    | (w', Ok a) => k a w'
    | (w', Raise e) => (w', Raise e)
    end.

Notation "x <- m ;; k" := (bind m (fun x => k))
  (at level 61, m at next level, right associativity).
Notation "m ;;; k" := (bind m (fun _ => k))
  (at level 61, right associativity).

(** A pure call that may raise. *)
Definition lift {A} (r : result A) : M A := fun w => (w, r).

(** [try: m except ...: h]; [h e = None] when no clause catches [e]. *)
Definition try_except {A} (m : M A) (h : exn -> option (M A)) : M A :=
  fun w =>
    match m w with
    | (w', Ok a) => (w', Ok a)
    | (w', Raise e) =>
        match h e with
        | Some handler => handler w'
        | None => (w', Raise e)
        end
    end.

(** [for x in items: body(x)] *)
Fixpoint for_each {A} (items : list A) (body : A -> M unit) : M unit :=
  match items with
  | [] => ret tt
  | x :: rest => body x ;;; for_each rest body
  end.

(** [self.all_tasks.append(task)] *)
Definition append_task (task : Task.t) : M unit :=
  fun w => (mkWorld (all_tasks w ++ [task]) (remote w) (calls w) (ticks w), Ok tt).

(** [service.tasks().list(tasklist=..., showCompleted=False).execute().get('items', [])]:
    the request is answered, with the tasks of the list that are not
    completed. *)
Definition tasks_list (on_behalf : string) : M (list RemoteTask.t) :=
  fun w =>
    (mkWorld (all_tasks w) (remote w) (calls w ++ [(on_behalf, TasksList)]) (ticks w),
     Ok (filter (fun task => negb (RemoteTask.completed task)) (remote w))).

(** [service.tasks().insert(tasklist=..., body=task).execute()]: the
    request is answered, and the new task is kept by the list, first and
    not completed. *)
Definition tasks_insert (on_behalf : string) (body : RemoteTask.t) : M unit :=
  fun w =>
    (mkWorld (all_tasks w) (body :: remote w)
             (calls w ++ [(on_behalf, TasksInsert body)]) (ticks w),
     Ok tt).

(** [list.sort(key=lambda task: task['date'], reverse=True)]: stable, on
    the code points of the key. *)
Fixpoint insert_desc (x : Task.t) (l : list Task.t) : list Task.t :=
  match l with
  | [] => [x]
  | y :: r =>
      if String.ltb (Task.date x) (Task.date y) then y :: insert_desc x r
      else x :: l
  end.

Definition sort_desc (l : list Task.t) : list Task.t :=
  fold_right insert_desc [] l.

(** What the start of a run meets, before anything is collected:
    [GoogleTasksManager()], that is the credentials and the task list
    (modelled on their own, further down), as what the constructor returns
    or raises; the two variables of the login, [None] when unset;
    [new_client()]; and [client.get_token(username, password)]. *)
Record Setup : Type := mkSetup {
  tasks_manager : result unit;
  LIBRUS_LOGIN : option string;
  LIBRUS_PASSWORD : option string;
  new_client : result unit;
  get_token : string -> string -> result unit
}.

Section Program.

Import Calendar.

(** The n-th reading of [datetime.now()]. *)
Variable clock : nat -> datetime.

Variable setup : Setup.

(** The portal: [get_schedule(client, month, year, include_empty=True)]
    as the items of the dict it returns, [get_homework(client, date_from,
    date_to)] and [homework_detail(client, href)] as the items of its
    dict. *)
Variable get_schedule : string -> string -> result (list (Z * list Event.t)).
Variable get_homework : string -> string -> result (list Homework.t).
Variable homework_detail : string -> result (list (string * string)).

Definition now : M datetime :=
  fun w =>
    (mkWorld (all_tasks w) (remote w) (calls w) (S (ticks w)),
     Ok (clock (ticks w))).

(** *** [GoogleTasksManager] *)

(** The loop over [tasks] of [add_task_if_not_exists]:
    [task['title'] == event_title and task['due'].startswith(event_date)]
    looks up ['due'] only when the titles are equal, and raises
    [KeyError] when the task has none. *)
Fixpoint already_exists (tasks : list RemoteTask.t)
         (event_title event_date : string) : result bool :=
  match tasks with
  | [] => Ok false
  | task :: rest =>
      if String.eqb (RemoteTask.title task) event_title
      then match RemoteTask.due task with
           | Some due =>
               if PyStr.startswith due event_date then Ok true
               else already_exists rest event_title event_date
           | None => Raise KeyError
           end
      else already_exists rest event_title event_date
  end.

Definition add_task_if_not_exists
           (event_title event_date notes : string) : M bool :=
  event_datetime <- lift (strptime event_date) ;;
  t <- now ;;
  let today := dt_date t in
  if date_eqb (dt_date event_datetime) today then ret false
  else
    tasks <- tasks_list event_date ;;
    found <- lift (already_exists tasks event_title event_date) ;;
    if found : bool then ret false
    else
      let due_date := isoformat event_datetime ++ "Z" in
      let task := RemoteTask.mk event_title (Some due_date) notes false in
      tasks_insert event_date task ;;;
      ret true.

(** *** [LibrusSync] *)

Definition format_item (kv : string * string) : string :=
  fst kv ++ ": " ++ snd kv.

Definition truthy (s : string) : bool := negb (String.eqb s "").

Definition _process_single_homework (homework : Homework.t) : M unit :=
  completion_date <-
    lift (match PyStr.split (Homework.completion_date homework) with
          | w :: _ => Ok w
          | [] => Raise IndexError
          end) ;;
  keep <-
    try_except
      (homework_date <- lift (strptime completion_date) ;;
       t <- now ;;
       let today := dt_date t in
       if date_eqb (dt_date homework_date) today then ret false
       else if date_ltb (dt_date homework_date) today then ret false
       else ret true)
      (fun e => match e with
                | ValueError => Some (ret false)
                | _ => None
                end) ;;
  if keep : bool then
    details <- lift (homework_detail (Homework.href homework)) ;;
    let notes :=
      PyStr.join PyStr.newline
        (map format_item (filter (fun kv => truthy (snd kv)) details)) in
    let event_title := "zadanie - " ++ Homework.lesson homework in
    append_task (Task.mk event_title completion_date notes)
  else ret tt.

Definition process_homework : M unit :=
  today <- now ;;
  first_day <- lift (replace_day today 1) ;;
  let date_from := strftime_Ymd first_day in
  day28 <- lift (replace_day today 28) ;;
  next_month <- lift (datetime_add_days day28 4) ;;
  next_first <- lift (replace_day next_month 1) ;;
  last_day <- lift (datetime_add_days next_first (-1)) ;;
  let date_to := strftime_Ymd last_day in
  try_except
    (homework_assignments <- lift (get_homework date_from date_to) ;;
     for_each homework_assignments _process_single_homework)
    (fun _ => Some (ret tt)).

Definition _add_event_task (event : Event.t) (event_date : string) : M unit :=
  let notes :=
    match Event.data event with
    | [] => []
    | items =>
        map format_item
            (filter (fun kv => truthy (snd kv)
                               && negb (String.eqb (snd kv) "unknown")) items)
    end in
  let event_title :=
    if truthy (Event.subject event)
    then Event.title event ++ " - " ++ Event.subject event
    else Event.title event in
  let event_title :=
    if truthy (Event.hour event) && negb (String.eqb (Event.hour event) "unknown")
    then event_title ++ " (" ++ Event.hour event ++ ")"
    else event_title in
  append_task
    (Task.mk event_title event_date
             (match notes with
              | [] => "Brak dodatkowych informacji"
              | _ => PyStr.join PyStr.newline notes
              end)).

Definition is_test_title (title : string) : bool :=
  existsb (fun keyword => PyStr.contains keyword (PyStr.lower title))
          TEST_KEYWORDS.

Definition _process_day_events (events : list Event.t) (day : Z)
           (month year : string) : M unit :=
  for_each events (fun event =>
    if negb (truthy (Event.title event)) then ret tt
    else if negb (is_test_title (Event.title event)) then ret tt
    else
      let event_date :=
        year ++ "-" ++ month ++ "-" ++ PyStr.zfill 2 (PyStr.str day) in
      event_datetime <- lift (strptime event_date) ;;
      t <- now ;;
      limit <- lift (datetime_add_days t (-1)) ;;
      if datetime_ltb event_datetime limit then ret tt
      else _add_event_task event event_date).

Definition process_schedule : M unit :=
  current_date <- now ;;
  let month := strftime_m current_date in
  let year := strftime_Y current_date in
  schedule <- lift (get_schedule month year) ;;
  for_each schedule (fun '(day, events) =>
    match events with
    | [] => ret tt
    | _ => _process_day_events events day month year
    end).

(** The loop of [process_collected_tasks] over the sorted collection. *)
Fixpoint submit_loop (tasks : list Task.t) (added_count : Z) : M Z :=
  match tasks with
  | [] => ret added_count
  | task :: rest =>
      added <- add_task_if_not_exists
                 (Task.title task) (Task.date task) (Task.notes task) ;;
      submit_loop rest (if added : bool then added_count + 1 else added_count)
  end.

Definition sort_all_tasks : M unit :=
  fun w =>
    (mkWorld (sort_desc (all_tasks w)) (remote w) (calls w) (ticks w), Ok tt).

Definition process_collected_tasks : M Z :=
  sort_all_tasks ;;;
  fun w => submit_loop (all_tasks w) 0 w.

(** [self.all_tasks = []] *)
Definition reset_all_tasks : M unit :=
  fun w => (mkWorld [] (remote w) (calls w) (ticks w), Ok tt).

(** A new [LibrusSync] object: what an earlier attempt collected is out
    of reach, and the new object holds nothing yet. *)
Definition new_object : M unit := reset_all_tasks.

(** [LibrusSync()]: on the new object, the manager of the Tasks service
    is built first, the collection is set to the empty list, and the
    login is checked last; the username and the password are what the
    constructor keeps. *)
Definition new_sync : M (string * string) :=
  new_object ;;;
  lift (tasks_manager setup) ;;;
  reset_all_tasks ;;;
  match LIBRUS_LOGIN setup, LIBRUS_PASSWORD setup with
  | Some (String a username), Some (String b password) =>
      ret (String a username, String b password)
  | _, _ => raise ValueError
  end.

(** One attempt of [main]: the body under the [retry] decorator (the
    handler logs and raises again). *)
Definition main : M Z :=
  now ;;;
  sync <- new_sync ;;
  lift (new_client setup) ;;;
  lift (get_token setup (fst sync) (snd sync)) ;;;
  process_schedule ;;;
  process_homework ;;;
  process_collected_tasks.

End Program.

(** *** The notifier *)

Record Embed : Type := mkEmbed {
  embed_title : string;
  embed_description : string;
  embed_color : Z;
  embed_timestamp : string
}.

Definition max_desc_length : nat := 4096.

(** [send_discord_embed]: the embed posted to the webhook, if one is
    configured; [t] is the reading of the clock for the timestamp. *)
Definition send_discord_embed (webhook_url : option string) (t : Calendar.datetime)
           (title description : string) (color : Z) : option Embed :=
  match webhook_url with
  | None => None
  | Some EmptyString => None
  | Some _ =>
      let description :=
        if (max_desc_length <? String.length description)%nat
        then PyStr.take (max_desc_length - 3) description ++ "..."
        else description in
      Some (mkEmbed title description color (Calendar.isoformat t))
  end.

(** ** The rest of the program: the task list, the credentials, the report *)

(** *** [GoogleTasksManager._get_or_create_task_list] *)

(** A task list of the account: the dict with keys ['id'] and ['title']. *)
Module TaskList.
Record t : Type := mk { id : string; title : string }.
End TaskList.

Definition TASK_LIST_NAME : string := "Wydarzenia Librus".

(** The loop over [task_lists]: the id of the first list with the name. *)
Fixpoint find_task_list (task_lists : list TaskList.t) : option string :=
  match task_lists with
  | [] => None
  | task_list :: rest =>
      if String.eqb (TaskList.title task_list) TASK_LIST_NAME
      then Some (TaskList.id task_list)
      else find_task_list rest
  end.

(** [tasklists().insert(body={'title': ...})]: the account gains a list
    with the title, under the id [new_id] that the service chooses. *)
Definition tasklists_insert (new_id title : string) (task_lists : list TaskList.t) :
  list TaskList.t * TaskList.t :=
  ((task_lists ++ [TaskList.mk new_id title])%list, TaskList.mk new_id title).

(** The lists of the account after the call, and the id returned. *)
Definition _get_or_create_task_list (new_id : string) (task_lists : list TaskList.t) :
  list TaskList.t * string :=
  match find_task_list task_lists with
  | Some id => (task_lists, id)
  | None =>
      let '(task_lists', new_list) := tasklists_insert new_id TASK_LIST_NAME task_lists in
      (task_lists', TaskList.id new_list)
  end.

(** *** [GoogleTasksManager._get_google_tasks_service] *)

(** What the program looks at in a [Credentials] object, and what
    [to_json()] writes. *)
Module Credentials.
Record t : Type :=
  mk { valid : bool; expired : bool; refresh_token : string; to_json : string }.
End Credentials.

(** What happens to the token, in order. *)
Inductive AuthEvent : Type :=
| Refreshed
| TokenRemoved
| Prompted
| TokenWritten (json : string).

(** The token file, if there is one, and the journal of the events. *)
Record AuthWorld : Type := mkAuthWorld {
  token_file : option string;
  auth_events : list AuthEvent
}.

Definition Auth (A : Type) : Type := AuthWorld -> AuthWorld * result A.

Section Authentication.

(** The library: [Credentials.from_authorized_user_file] on the content of
    the token file, [creds.refresh(Request())] as the state of the object
    afterwards, and the interactive exchange of [InstalledAppFlow] (the
    link, the prompt for the code, [fetch_token]) as the credentials it
    ends with. *)
Variable from_authorized_user_file : string -> result Credentials.t.
Variable refresh : Credentials.t -> result Credentials.t.
Variable authorize : result Credentials.t.

Definition log_event (e : AuthEvent) (w : AuthWorld) : AuthWorld :=
  mkAuthWorld (token_file w) (auth_events w ++ [e]).

(** [os.remove(token_path)] *)
Definition remove_token : Auth unit :=
  fun w =>
    match token_file w with
    | Some _ => (mkAuthWorld None (auth_events w ++ [TokenRemoved]), Ok tt)
    | None => (w, Raise OtherError)
    end.

(** The interactive exchange. *)
Definition run_flow : Auth Credentials.t :=
  fun w => (log_event Prompted w, authorize).

(** [with open(token_path, 'w') as token: token.write(creds.to_json())] *)
Definition write_token (creds : Credentials.t) : Auth unit :=
  fun w =>
    (mkAuthWorld (Some (Credentials.to_json creds))
                 (auth_events w ++ [TokenWritten (Credentials.to_json creds)]),
     Ok tt).

(** The part of [_refresh_or_get_new_credentials] after the refresh: the
    flow when there are no credentials or they are not valid, then the
    token file. *)
Definition flow_and_write (creds : option Credentials.t) : Auth Credentials.t :=
  fun w =>
    let '(w1, creds1) :=
      match creds with
      | Some c => if Credentials.valid c then (w, Ok c) else run_flow w
      | None => run_flow w
      end in
    match creds1 with
    | Ok c =>
        match write_token c w1 with
        | (w2, Ok _) => (w2, Ok c)
        | (w2, Raise e) => (w2, Raise e)
        end
    | Raise e => (w1, Raise e)
    end.

Definition _refresh_or_get_new_credentials (creds : option Credentials.t) :
  Auth Credentials.t :=
  fun w =>
    match creds with
    | Some c =>
        if Credentials.expired c
           && negb (String.eqb (Credentials.refresh_token c) "")
        then
          (* try: creds.refresh(Request()) *)
          match refresh c with
          | Ok c' => flow_and_write (Some c') (log_event Refreshed w)
          | Raise _ =>
              (* except Exception: os.remove(token_path); creds = None *)
              match remove_token w with
              | (w', Ok _) => flow_and_write None w'
              | (w', Raise e) => (w', Raise e)
              end
          end
        else flow_and_write creds w
    | None => flow_and_write None w
    end.

(** [token_path] and [credentials_path] are the two variables of the
    environment, [None] when unset; the credentials returned are those the
    service is built with. *)
Definition _get_google_tasks_service (token_path credentials_path : option string) :
  Auth Credentials.t :=
  fun w =>
    match token_path, credentials_path with
    | Some (String _ _), Some (String _ _) =>
        match token_file w with
        | Some content =>
            match from_authorized_user_file content with
            | Ok c =>
                if Credentials.valid c then (w, Ok c)
                else _refresh_or_get_new_credentials (Some c) w
            | Raise e => (w, Raise e)
            end
        | None => _refresh_or_get_new_credentials None w
        end
    | _, _ => (w, Raise ValueError)
    end.

End Authentication.

(** *** The report of a failure, at the end of the script *)

(** [f"```\n{error_traceback[:1900]}\n```"] *)
Definition error_message (error_traceback : string) : string :=
  "```" ++ PyStr.newline ++ PyStr.take 1900 error_traceback ++ PyStr.newline ++ "```".

(** * The vocabulary of the properties

    What the statements below are written with, beside the program itself. *)

(** The world after one reading of the clock and nothing else. *)
Definition tick (w : World) : World :=
  mkWorld (all_tasks w) (remote w) (calls w) (S (ticks w)).

(** What [tasks().list(showCompleted=False)] returns in a world. *)
Definition listed (w : World) : list RemoteTask.t :=
  filter (fun task => negb (RemoteTask.completed task)) (remote w).

(** The test of [add_task_if_not_exists] on one task of the list: same
    title, and a due that starts with the date. *)
Definition same_task (event_title event_date : string) (task : RemoteTask.t) : bool :=
  String.eqb (RemoteTask.title task) event_title
  && match RemoteTask.due task with
     | Some due => PyStr.startswith due event_date
     | None => false
     end.

(** The task has the title and no due: the test cannot be made on it. *)
Definition lacks_due (event_title : string) (task : RemoteTask.t) : bool :=
  String.eqb (RemoteTask.title task) event_title
  && match RemoteTask.due task with
     | Some _ => false
     | None => true
     end.

(** The loop of [add_task_if_not_exists] stops at the task: it passes the
    test, or the test cannot be made on it. *)
Definition stops_at (event_title event_date : string) (task : RemoteTask.t) : bool :=
  same_task event_title event_date task || lacks_due event_title task.

(** The task that [add_task_if_not_exists] sends. *)
Definition new_task (event_title notes : string) (t : Calendar.datetime) : RemoteTask.t :=
  RemoteTask.mk event_title (Some (Calendar.isoformat t ++ "Z")) notes false.

(** One turn of the loop of [process_collected_tasks]: where the call of
    [add_task_if_not_exists] for candidate [c] leaves the world, and what it
    returns. *)
Inductive turn (clock : nat -> Calendar.datetime) (c : Task.t) (w : World) :
  World -> result bool -> Prop :=
| turn_unparsed e :
    Calendar.strptime (Task.date c) = Raise e ->
    turn clock c w w (Raise e)
| turn_today t :
    Calendar.strptime (Task.date c) = Ok t ->
    Calendar.date_eqb (Calendar.dt_date t) (Calendar.dt_date (clock (ticks w))) = true ->
    turn clock c w (tick w) (Ok false)
| turn_no_due t e :
    Calendar.strptime (Task.date c) = Ok t ->
    Calendar.date_eqb (Calendar.dt_date t) (Calendar.dt_date (clock (ticks w))) = false ->
    already_exists (listed w) (Task.title c) (Task.date c) = Raise e ->
    turn clock c w
         (mkWorld (all_tasks w) (remote w)
                  (calls w ++ [(Task.date c, TasksList)]) (S (ticks w)))
         (Raise e)
| turn_found t :
    Calendar.strptime (Task.date c) = Ok t ->
    Calendar.date_eqb (Calendar.dt_date t) (Calendar.dt_date (clock (ticks w))) = false ->
    already_exists (listed w) (Task.title c) (Task.date c) = Ok true ->
    turn clock c w
         (mkWorld (all_tasks w) (remote w)
                  (calls w ++ [(Task.date c, TasksList)]) (S (ticks w)))
         (Ok false)
| turn_inserted t :
    Calendar.strptime (Task.date c) = Ok t ->
    Calendar.date_eqb (Calendar.dt_date t) (Calendar.dt_date (clock (ticks w))) = false ->
    already_exists (listed w) (Task.title c) (Task.date c) = Ok false ->
    turn clock c w
         (mkWorld (all_tasks w)
                  (new_task (Task.title c) (Task.notes c) t :: remote w)
                  (calls w ++ [(Task.date c, TasksList);
                               (Task.date c,
                                TasksInsert (new_task (Task.title c) (Task.notes c) t))])
                  (S (ticks w)))
         (Ok true).

(** The date of the candidate parses. *)
Definition parses (c : Task.t) : Prop :=
  exists t, Calendar.strptime (Task.date c) = Ok t.

(** A date string is canonical when it is the padded writing of the date
    it reads as: four, two and two digits. *)
Definition canonical (s : string) : bool :=
  match Calendar.strptime s with
  | Ok t => String.eqb (Calendar.isoformat_date (Calendar.dt_date t)) s
  | Raise _ => false
  end.

Definition well_dated (c : Task.t) : Prop := canonical (Task.date c) = true.

(** The calendar date that a date string reads as. *)
Definition date_of (s : string) : option Calendar.date :=
  match Calendar.strptime s with
  | Ok t => Some (Calendar.dt_date t)
  | Raise _ => None
  end.

(** Rule A applies to the candidate on the day [today]. *)
Definition same_day (today : Calendar.date) (c : Task.t) : bool :=
  match Calendar.strptime (Task.date c) with
  | Ok t => Calendar.date_eqb (Calendar.dt_date t) today
  | Raise _ => false
  end.

(** Rule B applies to the candidate, the remote list being [R]: the loop
    of [add_task_if_not_exists] finds a task for it. *)
Definition known (R : list RemoteTask.t) (c : Task.t) : bool :=
  match already_exists (filter (fun task => negb (RemoteTask.completed task)) R)
                       (Task.title c) (Task.date c) with
  | Ok found => found
  | Raise _ => false
  end.

(** Every task has a due date. *)
Definition all_due (tasks : list RemoteTask.t) : Prop :=
  Forall (fun task => RemoteTask.due task <> None) tasks.

(** The candidates that rule B cannot tell apart. *)
Definition same_key (c c' : Task.t) : bool :=
  String.eqb (Task.title c') (Task.title c)
  && String.eqb (Task.date c') (Task.date c).

(** The inserts of a journal that rule B recognises for [c]. *)
Definition inserts_for (c : Task.t) (journal : list (string * StoreCall)) : nat :=
  List.length
    (filter (fun entry =>
               match snd entry with
               | TasksInsert body => same_task (Task.title c) (Task.date c) body
               | TasksList => false
               end)
            journal).

(** All the inserts of a journal. *)
Definition inserts (journal : list (string * StoreCall)) : list RemoteTask.t :=
  flat_map (fun entry =>
              match snd entry with
              | TasksInsert body => [body]
              | TasksList => []
              end)
           journal.

(** [a] comes no earlier than [b] in the order of the sort keys. *)
Definition key_ge (a b : string) : Prop := String.leb b a = true.

Definition date_ge (a b : Task.t) : Prop := key_ge (Task.date a) (Task.date b).

(** [a] is no earlier than [b] as a calendar date. *)
Definition calendar_ge (a b : string) : Prop :=
  exists da db,
    date_of a = Some da /\ date_of b = Some db /\ Calendar.date_leb db da = true.

(** The integers from [lo] to [hi]: properties of the fields of a date are
    checked on every value of their range. *)
Definition zrange (lo hi : Z) : list Z :=
  map (fun k => lo + Z.of_nat k) (seq 0 (Z.to_nat (hi - lo + 1))).

(** [str(n).zfill(2)] and ["%02d" % n] are the same two characters. *)
Definition zfill_is_pad (n : Z) : bool :=
  String.eqb (PyStr.zfill 2 (PyStr.str n)) (PyStr.pad 2 n).

(** The month and day printed on two digits each: the end of the
    expression of [strptime] reads them back and leaves nothing. *)
Definition month_day_read_back (m d : Z) : bool :=
  match Calendar.re_md ("-" ++ PyStr.pad 2 m ++ "-" ++ PyStr.pad 2 d) with
  | (m', d', EmptyString) :: _ => (m' =? m) && (d' =? d)
  | _ => false
  end
  && (String.length ("-" ++ PyStr.pad 2 m ++ "-" ++ PyStr.pad 2 d) =? 6)%nat.

(** The date of a candidate reads as a day that is not before the day
    before one of the readings [lo], ..., [hi - 1] of the clock. *)
Definition not_before_yesterday (clock : nat -> Calendar.datetime) (lo hi : nat)
           (c : Task.t) : Prop :=
  exists i t,
    (lo <= i < hi)%nat
    /\ Calendar.strptime (Task.date c) = Ok t
    /\ Calendar.date_ltb (Calendar.dt_date t)
                         (Calendar.pred_day (Calendar.dt_date (clock i))) = false.

(** The state of the collection during a run that started at reading [lo]. *)
Definition collecting (clock : nat -> Calendar.datetime) (lo : nat) (w : World) : Prop :=
  (lo <= ticks w)%nat
  /\ Forall (not_before_yesterday clock lo (ticks w)) (all_tasks w).

(** A computation keeps a property of the world, however it ends. *)
Definition preserves {A} (I : World -> Prop) (m : M A) : Prop :=
  forall w, I w -> I (fst (m w)).

(** The date string that [_process_day_events] builds. *)
Definition event_date_of (year month : string) (day : Z) : string :=
  year ++ "-" ++ month ++ "-" ++ PyStr.zfill 2 (PyStr.str day).

(** The world [w] comes from [w0] by collecting: candidates were added at
    the end of the collection, and the Tasks service was left alone. *)
Definition grows_from (w0 w : World) : Prop :=
  (exists added, all_tasks w = (all_tasks w0 ++ added)%list)
  /\ remote w = remote w0
  /\ calls w = calls w0.

(** The first and the last day of the month of [t], as [%Y-%m-%d]. *)
Definition month_window (t : Calendar.datetime) : string * string :=
  let y := Calendar.year (Calendar.dt_date t) in
  let m := Calendar.month (Calendar.dt_date t) in
  (Calendar.format_Ymd (Calendar.mkdate y m 1),
   Calendar.format_Ymd (Calendar.mkdate y m (Calendar.days_in_month y m))).

(** The event passes the two tests of [_process_day_events]: it has a title,
    and the title holds a keyword. *)
Definition is_test_event (event : Event.t) : bool :=
  truthy (Event.title event) && is_test_title (Event.title event).

(** The month and a day of at most two digits, printed on two digits
    each: when the end of the expression of [strptime] reads the whole of
    it, it reads that month and that day. *)
Definition month_day_strict (m d : Z) : bool :=
  match Calendar.re_md ("-" ++ PyStr.pad 2 m ++ "-" ++ PyStr.pad 2 d) with
  | (m', d', EmptyString) :: _ => (m' =? m) && (d' =? d)
  | _ => true
  end.

(** The candidate is dated, in the form [YYYY-MM-DD], on a day of the month
    of [t]. *)
Definition in_month_of (t : Calendar.datetime) (c : Task.t) : Prop :=
  exists d,
    Calendar.valid_date
      (Calendar.mkdate (Calendar.year (Calendar.dt_date t))
                       (Calendar.month (Calendar.dt_date t)) d) = true
    /\ Task.date c
       = Calendar.isoformat_date
           (Calendar.mkdate (Calendar.year (Calendar.dt_date t))
                            (Calendar.month (Calendar.dt_date t)) d).

(** The world [w] comes from [w0] by collecting candidates that all
    satisfy [P]. *)
Definition collects_only (P : Task.t -> Prop) (w0 w : World) : Prop :=
  exists added, all_tasks w = (all_tasks w0 ++ added)%list /\ Forall P added.

(** The first word of the completion date of a homework row, if there is
    one, is a date in the padded form. *)
Definition padded_row (homework : Homework.t) : Prop :=
  match PyStr.split (Homework.completion_date homework) with
  | word :: _ => canonical word = true
  | [] => True
  end.

(** Two worlds with the same collection. *)
Definition alike (w w' : World) : Prop := all_tasks w = all_tasks w'.

(** A computation that looks at the collection only: from worlds with the
    same collection it ends the same way, with the same collection. *)
Definition uniform {A} (m : M A) : Prop :=
  forall w w', alike w w' -> alike (fst (m w)) (fst (m w')) /\ snd (m w) = snd (m w').

(** The reading is after midnight, not on it. *)
Definition past_midnight (t : Calendar.datetime) : bool :=
  0 <? Calendar.time_of_day t.

(** Two readings that the program cannot tell apart: the same date, and
    both on midnight or both after it. *)
Definition same_reading (t t' : Calendar.datetime) : Prop :=
  Calendar.dt_date t = Calendar.dt_date t' /\ past_midnight t = past_midnight t'.

(** A task as [add_task_if_not_exists] sends them: with a due, and not
    completed. *)
Definition sent (task : RemoteTask.t) : Prop :=
  RemoteTask.due task <> None /\ RemoteTask.completed task = false.

(** The calls that the turn of a candidate may leave in the journal, all
    under its date: none, when the candidate is dated on the day of a
    reading of the clock; the query of the list; or the query and the
    insert of a task with its title. *)
Inductive calls_of_turn (clock : nat -> Calendar.datetime) (c : Task.t) :
  list (string * StoreCall) -> Prop :=
| calls_skipped i :
    same_day (Calendar.dt_date (clock i)) c = true ->
    calls_of_turn clock c []
| calls_listed :
    calls_of_turn clock c [(Task.date c, TasksList)]
| calls_inserted body :
    RemoteTask.title body = Task.title c ->
    RemoteTask.notes body = Task.notes c ->
    calls_of_turn clock c [(Task.date c, TasksList); (Task.date c, TasksInsert body)].

(** How the start of a run ends, before anything is collected: what
    [LibrusSync()], [new_client()] and [get_token] return or raise, in
    that order. *)
Definition start_up (setup : Setup) : result unit :=
  match tasks_manager setup with
  | Raise e => Raise e
  | Ok _ =>
      match LIBRUS_LOGIN setup, LIBRUS_PASSWORD setup with
      | Some (String a username), Some (String b password) =>
          match new_client setup with
          | Raise e => Raise e
          | Ok _ => get_token setup (String a username) (String b password)
          end
      | _, _ => Raise ValueError
      end
  end.

(** A year below 1000, written as it is, has fewer than four characters. *)
Definition short_year (y : Z) : bool :=
  (String.length (PyStr.str y) <=? 3)%nat.

(** * Sample data

    Clocks, worlds and records on which the statements are exercised. *)

Module Sample.

Import Calendar.

(** 5 January 2024 at 10:30 and at midnight, and the next day at 10:30. *)
Definition jan5 : datetime := mkdatetime (mkdate 2024 1 5) 10 30 0 0.
Definition jan5_midnight : datetime := mkdatetime (mkdate 2024 1 5) 0 0 0 0.
Definition jan6 : datetime := mkdatetime (mkdate 2024 1 6) 10 30 0 0.

(** A run within 5 January, a run at midnight sharp, and a clock that
    passes midnight after its first reading. *)
Definition clock_jan5 : nat -> datetime := fun _ => jan5.
Definition clock_midnight : nat -> datetime := fun _ => jan5_midnight.
Definition clock_overnight : nat -> datetime :=
  fun n => match n with O => jan5 | S _ => jan6 end.

(** A clock that moves on within 5 January: one microsecond a reading. *)
Definition clock_ticking : nat -> datetime :=
  fun n => mkdatetime (mkdate 2024 1 5) 10 30 0 (Z.of_nat n).

Definition no_notes : string := "Brak dodatkowych informacji".

(** Candidates due on 5, 6 and 7 January, and one whose date is written
    without padding. *)
Definition physics_jan5 : Task.t :=
  Task.mk "Sprawdzian - Fizyka (8:00)" "2024-01-05" no_notes.
Definition physics_jan6 : Task.t :=
  Task.mk "Sprawdzian - Fizyka (8:00)" "2024-01-06" no_notes.
Definition maths_jan7 : Task.t :=
  Task.mk "zadanie - Matematyka" "2024-01-07" "Opis: str. 12".
Definition maths_unpadded : Task.t :=
  Task.mk "zadanie - Matematyka" "2024-1-7" "Opis: str. 12".

(** A world with the given collection and remote list, before any call. *)
Definition world (collected : list Task.t) (R : list RemoteTask.t) : World :=
  mkWorld collected R [] 0.

(** The remote task of the physics test of 6 January, as the Tasks
    service returns it. *)
Definition remote_physics_jan6 : RemoteTask.t :=
  RemoteTask.mk "Sprawdzian - Fizyka (8:00)" (Some "2024-01-06T00:00:00.000Z") "" false.

(** A task of the same title that was given no due date. *)
Definition remote_physics_undated : RemoteTask.t :=
  RemoteTask.mk "Sprawdzian - Fizyka (8:00)" None "" false.

(** A start that goes well, and one without the password of the portal. *)
Definition setup_ok : Setup :=
  mkSetup (Ok tt) (Some "uczen") (Some "haslo") (Ok tt) (fun _ _ => Ok tt).
Definition setup_no_password : Setup :=
  mkSetup (Ok tt) (Some "uczen") None (Ok tt) (fun _ _ => Ok tt).

(** Schedule events: a test and a trip. *)
Definition test_event : Event.t := Event.mk "Sprawdzian" "Fizyka" "8:00" [].
Definition trip_event : Event.t := Event.mk "Wycieczka" "" "" [].

(** Homework rows: due in two days, due today, due in five days, with
    a date written without padding, with a date that does not parse,
    and with no date at all. *)
Definition homework_jan7 : Homework.t :=
  Homework.mk "Matematyka" "2024-01-07 08:00:00" "/homework/1".
Definition homework_jan5 : Homework.t :=
  Homework.mk "Historia" "2024-01-05 08:00:00" "/homework/2".
Definition homework_jan10 : Homework.t :=
  Homework.mk "Fizyka" "2024-01-10 08:00:00" "/homework/5".
Definition homework_unpadded : Homework.t :=
  Homework.mk "Matematyka" "2024-1-7 08:00:00" "/homework/6".
Definition homework_garbled : Homework.t :=
  Homework.mk "Biologia" "07.01.2024 08:00" "/homework/3".
Definition homework_blank : Homework.t :=
  Homework.mk "Chemia" "" "/homework/4".

(** A portal that answers every request. *)
Definition details : string -> result (list (string * string)) :=
  fun _ => Ok [("Opis", "str. 12"); ("Uwagi", "")].
Definition schedule_of (days : list (Z * list Event.t)) :
  string -> string -> result (list (Z * list Event.t)) :=
  fun _ _ => Ok days.
Definition homework_of (rows : list Homework.t) :
  string -> string -> result (list Homework.t) :=
  fun _ _ => Ok rows.

(** A portal whose schedule cannot be fetched. *)
Definition schedule_unavailable :
  string -> string -> result (list (Z * list Event.t)) :=
  fun _ _ => Raise OtherError.
Definition homework_unavailable :
  string -> string -> result (list Homework.t) :=
  fun _ _ => Raise OtherError.

(** Credentials that have expired, and their state once refreshed. *)
Definition stale_creds : Credentials.t :=
  Credentials.mk false true "1//refresh" "{stale}".
Definition fresh_creds : Credentials.t :=
  Credentials.mk true false "1//refresh" "{fresh}".

(** A token file that holds the expired credentials, a refresh that
    succeeds and one that is refused, and a user who logs in. *)
Definition stored_token : AuthWorld := mkAuthWorld (Some "{stale}") [].
Definition read_stale : string -> result Credentials.t := fun _ => Ok stale_creds.
Definition refresh_ok : Credentials.t -> result Credentials.t :=
  fun _ => Ok fresh_creds.
Definition refresh_refused : Credentials.t -> result Credentials.t :=
  fun _ => Raise OtherError.
Definition logs_in : result Credentials.t := Ok fresh_creds.
Definition login_fails : result Credentials.t := Raise OtherError.

End Sample.

(** * Properties *)

(** ** The calendar *)

Module CalendarFacts.

Import Calendar.

(** Boolean comparisons of integers, read as propositions. *)
Ltac zprop :=
  rewrite ?negb_true_iff, ?negb_false_iff in *;
  rewrite <- ?not_true_iff_false in *;
  rewrite ?orb_true_iff, ?andb_true_iff, ?Z.ltb_lt, ?Z.leb_le, ?Z.eqb_eq in *.

Ltac zcases :=
  repeat match goal with
         | |- context [Z.ltb ?a ?b] => destruct (Z.ltb_spec a b)
         | |- context [Z.leb ?a ?b] => destruct (Z.leb_spec a b)
         | |- context [Z.eqb ?a ?b] => destruct (Z.eqb_spec a b)
         end;
  simpl in *; try discriminate; try lia.

Ltac dates :=
  unfold date_leb, date_ltb, date_eqb in *;
  repeat match goal with d : date |- _ => destruct d end;
  simpl in *; zprop; try lia.

Lemma date_eqb_eq (a b : date) : date_eqb a b = true <-> a = b.
Proof.
  split.
  - intros H. dates. f_equal; lia.
  - intros ->. dates.
Qed.

Lemma date_eqb_refl (a : date) : date_eqb a a = true.
Proof. apply date_eqb_eq. reflexivity. Qed.

Lemma date_ltb_irrefl (a : date) : date_ltb a a = false.
Proof. dates. Qed.

Lemma date_ltb_trans (a b c : date) :
  date_ltb a b = true -> date_ltb b c = true -> date_ltb a c = true.
Proof. intros H1 H2. dates. Qed.

Lemma date_ltb_asym (a b : date) :
  date_ltb a b = true -> date_ltb b a = false.
Proof. intros H. dates. Qed.

(** Not equal and not before is after. *)
Lemma date_total (a b : date) :
  date_eqb a b = false -> date_ltb a b = false -> date_ltb b a = true.
Proof. intros H1 H2. dates. Qed.

Lemma date_leb_ltb_trans (a b c : date) :
  date_leb a b = true -> date_ltb b c = true -> date_ltb a c = true.
Proof. intros H1 H2. dates. Qed.

Lemma date_ltb_neq (a b : date) : date_ltb a b = true -> date_eqb a b = false.
Proof. intros H. dates. Qed.

(** The day before is before, whatever the date. *)
Lemma pred_day_lt (d : date) : date_ltb (pred_day d) d = true.
Proof.
  unfold pred_day. destruct d as [y m dd]; simpl.
  destruct (Z.ltb_spec 1 dd); [dates|].
  destruct (Z.ltb_spec 1 m); dates.
Qed.

Lemma succ_day_gt (d : date) : date_ltb d (succ_day d) = true.
Proof.
  unfold succ_day. destruct d as [y m dd]; simpl.
  destruct (Z.ltb_spec dd (days_in_month y m)); [dates|].
  destruct (Z.ltb_spec m 12); dates.
Qed.

Lemma valid_date_bounds (d : date) :
  valid_date d = true ->
  1 <= year d <= 9999 /\ 1 <= month d <= 12
  /\ 1 <= day d <= days_in_month (year d) (month d).
Proof.
  unfold valid_date. intros H.
  zprop. lia.
Qed.

Lemma days_in_month_bounds (y m : Z) : 28 <= days_in_month y m <= 31.
Proof. unfold days_in_month. destruct (is_leap y); zcases. Qed.

Lemma month_cases (m : Z) :
  1 <= m <= 12 ->
  m = 1 \/ m = 2 \/ m = 3 \/ m = 4 \/ m = 5 \/ m = 6
  \/ m = 7 \/ m = 8 \/ m = 9 \/ m = 10 \/ m = 11 \/ m = 12.
Proof. lia. Qed.

(** A year has 365 days, a leap year one more. *)
Lemma days_before_year_succ (y : Z) :
  days_before_year (y + 1) = days_before_year y + (if is_leap y then 366 else 365).
Proof.
  unfold days_before_year, is_leap. cbv zeta.
  replace (y + 1 - 1) with y by lia.
  destruct (Z.eqb_spec (y mod 4) 0), (Z.eqb_spec (y mod 100) 0),
           (Z.eqb_spec (y mod 400) 0); simpl;
    Z.div_mod_to_equations; lia.
Qed.

Lemma days_before_month_succ (y m : Z) :
  1 <= m ->
  days_before_month y (m + 1) = days_before_month y m + days_in_month y m.
Proof.
  intros Hm. unfold days_before_month.
  replace (Z.to_nat (m + 1 - 1)) with (S (Z.to_nat (m - 1))) by lia.
  cbn [days_before_month_nat].
  replace (Z.of_nat (S (Z.to_nat (m - 1)))) with m by lia.
  reflexivity.
Qed.

Lemma days_before_month_1 (y : Z) : days_before_month y 1 = 0.
Proof. reflexivity. Qed.

(** The twelve months make the year. *)
Lemma days_before_month_13 (y : Z) :
  days_before_month y 13 = if is_leap y then 366 else 365.
Proof.
  replace 13 with (1+1+1+1+1+1+1+1+1+1+1+1+1) by lia.
  repeat (rewrite days_before_month_succ by lia).
  rewrite days_before_month_1.
  unfold days_in_month. simpl. destruct (is_leap y); lia.
Qed.

(** [pred_day] is [- timedelta(days=1)]: it stays a date and loses one
    day of the ordinal. *)
Lemma pred_day_toordinal (d : date) :
  valid_date d = true -> d <> mkdate 1 1 1 ->
  valid_date (pred_day d) = true /\ toordinal (pred_day d) = toordinal d - 1.
Proof.
  intros Hv Hne. pose proof (valid_date_bounds d Hv) as (Hy & Hm & Hd).
  destruct d as [y m dd]; simpl in *.
  unfold pred_day; simpl.
  destruct (Z.ltb_spec 1 dd).
  - split.
    + unfold valid_date; simpl. zprop. lia.
    + unfold toordinal; simpl. lia.
  - assert (dd = 1) by lia. subst dd.
    destruct (Z.ltb_spec 1 m).
    + split.
      * unfold valid_date; simpl.
        pose proof (days_in_month_bounds y (m - 1)). zprop. lia.
      * unfold toordinal; simpl.
        pose proof (days_before_month_succ y (m - 1)) as E.
        replace (m - 1 + 1) with m in E by lia. lia.
    + assert (m = 1) by lia. subst m.
      assert (2 <= y) by (destruct (Z.eq_dec y 1); [subst; congruence | lia]).
      split.
      * unfold valid_date; simpl.
        change (days_in_month (y - 1) 12) with 31. zprop. lia.
      * unfold toordinal; simpl.
        pose proof (days_before_year_succ (y - 1)) as E.
        replace (y - 1 + 1) with y in E by lia.
        pose proof (days_before_month_13 (y - 1)) as E13.
        replace 13 with (12 + 1) in E13 by lia.
        rewrite days_before_month_succ in E13 by lia.
        rewrite days_before_month_1.
        change (days_in_month (y - 1) 12) with 31 in E13.
        destruct (is_leap (y - 1)); lia.
Qed.

End CalendarFacts.

(** ** Strings *)

Module StrFacts.

Import PyStr.

Lemma append_assoc (a b c : string) : ((a ++ b) ++ c = a ++ (b ++ c))%string.
Proof. induction a as [|x a IH]; simpl; [reflexivity | now rewrite IH]. Qed.

Lemma length_append (a b : string) :
  String.length (a ++ b) = (String.length a + String.length b)%nat.
Proof. induction a as [|x a IH]; simpl; [reflexivity | now rewrite IH]. Qed.

Lemma prefix_append (s t : string) : prefix s (s ++ t) = true.
Proof.
  induction s as [|x s IH]; simpl.
  - destruct t; reflexivity.
  - destruct (ascii_dec x x); [exact IH | congruence].
Qed.

(** A prefix as long as the head of a concatenation is that head. *)
Lemma prefix_same_length (s a r : string) :
  prefix s (a ++ r) = true -> String.length s = String.length a -> s = a.
Proof.
  revert a. induction s as [|x s IH]; intros [|y a] Hp Hl; simpl in *;
    try discriminate; try reflexivity.
  destruct (ascii_dec x y); [subst | discriminate].
  f_equal. apply IH; [assumption | congruence].
Qed.

(** The first [n] characters, when there are that many. *)
Lemma take_split (n : nat) (s : string) :
  (n <= String.length s)%nat ->
  String.length (take n s) = n /\ exists rest, s = (take n s ++ rest)%string.
Proof.
  unfold take. revert s. induction n as [|n IH]; intros s Hn.
  - split; [destruct s; reflexivity | exists s; destruct s; reflexivity].
  - destruct s as [|c s]; simpl in *; [lia|].
    destruct (IH s) as [Hl [rest Hr]]; [lia|].
    split; [now rewrite Hl | exists rest; now rewrite <- Hr].
Qed.

(** *** The order on strings: code point by code point *)

Lemma ascii_compare_code (a b : ascii) :
  Ascii.compare a b = (code a ?= code b).
Proof.
  unfold Ascii.compare, code, nat_of_ascii.
  rewrite !N_nat_Z. symmetry. apply N2Z.inj_compare.
Qed.

Lemma code_inj (a b : ascii) : code a = code b -> a = b.
Proof.
  unfold code. intros H. apply Nat2Z.inj in H.
  rewrite <- (ascii_nat_embedding a), <- (ascii_nat_embedding b).
  now rewrite H.
Qed.

Lemma compare_refl (s : string) : String.compare s s = Eq.
Proof.
  induction s as [|c s IH]; simpl; [reflexivity|].
  rewrite ascii_compare_code, Z.compare_refl. exact IH.
Qed.

Lemma compare_lt_trans (a b c : string) :
  String.compare a b = Lt -> String.compare b c = Lt -> String.compare a c = Lt.
Proof.
  revert b c. induction a as [|x a IH]; intros [|y b] [|z c]; simpl;
    try discriminate; try reflexivity.
  rewrite !ascii_compare_code.
  destruct (Z.compare_spec (code x) (code y)) as [E1|L1|G1]; try discriminate;
    destruct (Z.compare_spec (code y) (code z)) as [E2|L2|G2]; try discriminate;
    intros H1 H2.
  - rewrite E1, E2, Z.compare_refl. eapply IH; eassumption.
  - replace (code x ?= code z) with Lt; [reflexivity|].
    symmetry. apply Z.compare_lt_iff. lia.
  - replace (code x ?= code z) with Lt; [reflexivity|].
    symmetry. apply Z.compare_lt_iff. lia.
  - replace (code x ?= code z) with Lt; [reflexivity|].
    symmetry. apply Z.compare_lt_iff. lia.
Qed.

Lemma leb_refl (s : string) : String.leb s s = true.
Proof. unfold String.leb. now rewrite compare_refl. Qed.

Lemma leb_trans (a b c : string) :
  String.leb a b = true -> String.leb b c = true -> String.leb a c = true.
Proof.
  unfold String.leb.
  destruct (String.compare a b) eqn:E1; try discriminate;
    destruct (String.compare b c) eqn:E2; try discriminate; intros _ _.
  - apply String.compare_eq_iff in E1, E2. subst. now rewrite compare_refl.
  - apply String.compare_eq_iff in E1. subst. now rewrite E2.
  - apply String.compare_eq_iff in E2. subst. now rewrite E1.
  - now rewrite (compare_lt_trans a b c E1 E2).
Qed.

(** Not below is above or equal. *)
Lemma ltb_false_leb (a b : string) :
  String.ltb a b = false -> String.leb b a = true.
Proof.
  unfold String.ltb, String.leb. rewrite (String.compare_antisym b a).
  destruct (String.compare a b); simpl; congruence.
Qed.

Lemma ltb_leb (a b : string) : String.ltb a b = true -> String.leb a b = true.
Proof.
  unfold String.ltb, String.leb. destruct (String.compare a b); congruence.
Qed.

End StrFacts.

(** ** Formatting and parsing dates *)

Module FormatFacts.

Import PyStr Calendar.

Lemma zrange_forallb (P : Z -> bool) (lo hi : Z) :
  forallb P (zrange lo hi) = true ->
  forall z, lo <= z <= hi -> P z = true.
Proof.
  intros H z Hz. rewrite forallb_forall in H. apply H.
  unfold zrange. apply in_map_iff. exists (Z.to_nat (z - lo)).
  split; [lia|]. apply in_seq. lia.
Qed.

(** [strptime] only ever raises [ValueError], and what it returns is a
    valid date at midnight. *)
Lemma strptime_raises (s : string) (e : exn) :
  strptime s = Raise e -> e = ValueError.
Proof.
  unfold strptime. destruct (re_Ymd s) as [|[d [|c rest]] tl];
    try destruct (valid_date d); congruence.
Qed.

Lemma strptime_ok (s : string) (t : datetime) :
  strptime s = Ok t -> valid_date (dt_date t) = true /\ t = midnight (dt_date t).
Proof.
  unfold strptime. destruct (re_Ymd s) as [|[d [|c rest]] tl]; try discriminate.
  destruct (valid_date d) eqn:Hv; [|discriminate].
  intros H. injection H as <-. auto.
Qed.

(** *** Digits *)

Lemma code_chr (n : Z) : 0 <= n < 256 -> code (chr n) = n.
Proof.
  intros Hn. unfold code, chr. rewrite nat_ascii_embedding by lia. lia.
Qed.

Lemma digit_char_spec (k : Z) :
  0 <= k <= 9 -> is_digit (digit_char k) = true /\ digit_val (digit_char k) = k.
Proof.
  intros Hk. unfold is_digit, digit_val, digit_char.
  rewrite code_chr by lia. split; [|lia].
  apply andb_true_iff. split; apply Z.leb_le; lia.
Qed.

Lemma is_digit_bounds (c : ascii) : is_digit c = true -> 0 <= digit_val c <= 9.
Proof.
  unfold is_digit, digit_val. intros H. apply andb_true_iff in H.
  destruct H as [H1 H2]. apply Z.leb_le in H1, H2. lia.
Qed.

(** Years on four digits, months and days on two. *)
Lemma pad4_digits (y : Z) :
  0 <= y <= 9999 ->
  exists a b c d,
    pad 4 y = String a (String b (String c (String d "")))
    /\ is_digit a = true /\ is_digit b = true
    /\ is_digit c = true /\ is_digit d = true
    /\ y = 1000 * digit_val a + 100 * digit_val b + 10 * digit_val c + digit_val d.
Proof.
  intros Hy. unfold pad. change (10 ^ Z.of_nat 4) with 10000.
  replace ((0 <=? y) && (y <? 10000)) with true
    by (symmetry; apply andb_true_iff; split; [apply Z.leb_le | apply Z.ltb_lt]; lia).
  cbn [digits append].
  destruct (digit_char_spec (y / 10 / 10 / 10 mod 10)) as [Da Va];
    [pose proof (Z.mod_pos_bound (y / 10 / 10 / 10) 10); lia|].
  destruct (digit_char_spec (y / 10 / 10 mod 10)) as [Db Vb];
    [pose proof (Z.mod_pos_bound (y / 10 / 10) 10); lia|].
  destruct (digit_char_spec (y / 10 mod 10)) as [Dc Vc];
    [pose proof (Z.mod_pos_bound (y / 10) 10); lia|].
  destruct (digit_char_spec (y mod 10)) as [Dd Vd];
    [pose proof (Z.mod_pos_bound y 10); lia|].
  do 4 eexists. split; [reflexivity|]. repeat split; try assumption.
  rewrite Va, Vb, Vc, Vd. Z.div_mod_to_equations. lia.
Qed.

Lemma pad2_digits (n : Z) :
  0 <= n <= 99 ->
  exists a b,
    pad 2 n = String a (String b "")
    /\ is_digit a = true /\ is_digit b = true
    /\ n = 10 * digit_val a + digit_val b.
Proof.
  intros Hn. unfold pad. change (10 ^ Z.of_nat 2) with 100.
  replace ((0 <=? n) && (n <? 100)) with true
    by (symmetry; apply andb_true_iff; split; [apply Z.leb_le | apply Z.ltb_lt]; lia).
  cbn [digits append].
  destruct (digit_char_spec (n / 10 mod 10)) as [Da Va];
    [pose proof (Z.mod_pos_bound (n / 10) 10); lia|].
  destruct (digit_char_spec (n mod 10)) as [Db Vb];
    [pose proof (Z.mod_pos_bound n 10); lia|].
  do 2 eexists. split; [reflexivity|]. repeat split; try assumption.
  rewrite Va, Vb. Z.div_mod_to_equations. lia.
Qed.

Lemma re_Y_pad (y : Z) (r : string) :
  0 <= y <= 9999 -> re_Y (pad 4 y ++ r) = [(y, r)].
Proof.
  intros Hy.
  destruct (pad4_digits y Hy) as (a & b & c & d & -> & Da & Db & Dc & Dd & Hval).
  cbn [append]. unfold re_Y. rewrite Da, Db, Dc, Dd, <- Hval. reflexivity.
Qed.

Lemma pad4_length (y : Z) : 0 <= y <= 9999 -> String.length (pad 4 y) = 4%nat.
Proof.
  intros Hy. destruct (pad4_digits y Hy) as (a & b & c & d & -> & _). reflexivity.
Qed.

(** The day of the schedule, written by [str(day).zfill(2)]. *)
Lemma zfill_is_pad_all : forallb zfill_is_pad (zrange 0 99) = true.
Proof. vm_compute. reflexivity. Qed.

Lemma zfill_str_pad (n : Z) :
  0 <= n <= 99 -> zfill 2 (str n) = pad 2 n.
Proof.
  intros Hn. apply String.eqb_eq.
  exact (zrange_forallb _ _ _ zfill_is_pad_all n Hn).
Qed.

(** Months and days on two digits: the rest of the expression reads them
    back, and leaves nothing. *)
Lemma month_day_read_back_all :
  forallb (fun m => forallb (month_day_read_back m) (zrange 1 31)) (zrange 1 12)
  = true.
Proof. vm_compute. reflexivity. Qed.

Lemma month_day_ok (m d : Z) :
  1 <= m <= 12 -> 1 <= d <= 31 -> month_day_read_back m d = true.
Proof.
  intros Hm Hd.
  pose proof (zrange_forallb _ _ _ month_day_read_back_all m ltac:(lia)) as H.
  cbv beta in H.
  exact (zrange_forallb _ _ _ H d ltac:(lia)).
Qed.

(** Round trip: a date printed as [%Y-%m-%d] is read back by [strptime]. *)
Lemma strptime_isoformat_date (d : date) :
  valid_date d = true -> strptime (isoformat_date d) = Ok (midnight d).
Proof.
  intros Hv. pose proof (CalendarFacts.valid_date_bounds d Hv) as (Hy & Hm & Hd).
  pose proof (CalendarFacts.days_in_month_bounds (year d) (month d)) as Hdim.
  pose proof (month_day_ok (month d) (day d) Hm ltac:(lia)) as H.
  unfold month_day_read_back in H. apply andb_true_iff in H. destruct H as [H _].
  unfold strptime, re_Ymd, isoformat_date.
  rewrite re_Y_pad by lia. cbn [flat_map].
  destruct (re_md ("-" ++ pad 2 (month d) ++ "-" ++ pad 2 (day d)))
    as [|[[m' d'] [|? ?]] tl]; try discriminate.
  apply andb_true_iff in H. destruct H as [H1 H2].
  apply Z.eqb_eq in H1, H2. subst m' d'. cbn [map app].
  destruct d as [y m dd]; simpl in *. rewrite Hv. reflexivity.
Qed.

Lemma isoformat_date_length (d : date) :
  valid_date d = true -> String.length (isoformat_date d) = 10%nat.
Proof.
  intros Hv. pose proof (CalendarFacts.valid_date_bounds d Hv) as (Hy & Hm & Hd).
  pose proof (CalendarFacts.days_in_month_bounds (year d) (month d)) as Hdim.
  pose proof (month_day_ok (month d) (day d) Hm ltac:(lia)) as H.
  unfold month_day_read_back in H. apply andb_true_iff in H. destruct H as [_ H].
  apply Nat.eqb_eq in H.
  unfold isoformat_date. rewrite StrFacts.length_append, pad4_length by lia.
  rewrite H. reflexivity.
Qed.

(** Midnight prints as the date followed by [T00:00:00]. *)
Lemma isoformat_midnight (d : date) :
  isoformat (midnight d) = (isoformat_date d ++ "T00:00:00")%string.
Proof. reflexivity. Qed.

Lemma canonical_spec (s : string) :
  canonical s = true <->
  exists d, valid_date d = true /\ s = isoformat_date d.
Proof.
  unfold canonical. split.
  - destruct (strptime s) as [t|e] eqn:E; [|discriminate].
    intros H. apply String.eqb_eq in H.
    apply strptime_ok in E. destruct E as [Hv _].
    exists (dt_date t). auto.
  - intros (d & Hv & ->). rewrite strptime_isoformat_date by assumption.
    simpl. apply String.eqb_refl.
Qed.

Lemma canonical_inv (s : string) :
  canonical s = true ->
  exists t, strptime s = Ok t /\ isoformat_date (dt_date t) = s
            /\ String.length s = 10%nat.
Proof.
  intros H. pose proof H as H'. apply canonical_spec in H'.
  destruct H' as (d & Hv & Hs).
  unfold canonical in H. destruct (strptime s) as [t|e] eqn:E; [|discriminate].
  apply String.eqb_eq in H. exists t. repeat split; auto.
  rewrite Hs. now apply isoformat_date_length.
Qed.

End FormatFacts.

(** ** The order of canonical dates *)

Module OrderFacts.

Import PyStr Calendar FormatFacts.

Lemma digit_compare (a b : ascii) :
  Ascii.compare a b = (digit_val a ?= digit_val b).
Proof.
  rewrite StrFacts.ascii_compare_code. unfold digit_val.
  destruct (Z.compare_spec (code a) (code b));
    symmetry; [apply Z.compare_eq_iff | apply Z.compare_lt_iff | apply Z.compare_gt_iff];
    lia.
Qed.

(** On what [%Y-%m-%d] prints, the order of the strings is the order of
    the dates. *)
Lemma isoformat_date_leb (d1 d2 : date) :
  valid_date d1 = true -> valid_date d2 = true ->
  String.leb (isoformat_date d1) (isoformat_date d2) = date_leb d1 d2.
Proof.
  intros V1 V2.
  pose proof (CalendarFacts.valid_date_bounds d1 V1) as (Hy1 & Hm1 & Hd1).
  pose proof (CalendarFacts.valid_date_bounds d2 V2) as (Hy2 & Hm2 & Hd2).
  pose proof (CalendarFacts.days_in_month_bounds (year d1) (month d1)).
  pose proof (CalendarFacts.days_in_month_bounds (year d2) (month d2)).
  destruct d1 as [y1 m1 dd1], d2 as [y2 m2 dd2]. cbn [year month day] in *.
  destruct (pad4_digits y1 ltac:(lia)) as (a1 & b1 & c1 & e1 & Py1 & ? & ? & ? & ? & Ey1).
  destruct (pad4_digits y2 ltac:(lia)) as (a2 & b2 & c2 & e2 & Py2 & ? & ? & ? & ? & Ey2).
  destruct (pad2_digits m1 ltac:(lia)) as (f1 & g1 & Pm1 & ? & ? & Em1).
  destruct (pad2_digits m2 ltac:(lia)) as (f2 & g2 & Pm2 & ? & ? & Em2).
  destruct (pad2_digits dd1 ltac:(lia)) as (h1 & i1 & Pd1 & ? & ? & Ed1).
  destruct (pad2_digits dd2 ltac:(lia)) as (h2 & i2 & Pd2 & ? & ? & Ed2).
  repeat match goal with
         | Hd : is_digit _ = true |- _ => apply is_digit_bounds in Hd
         end.
  unfold isoformat_date, String.leb. cbn [year month day].
  rewrite Py1, Py2, Pm1, Pm2, Pd1, Pd2.
  cbn [append String.compare].
  rewrite !digit_compare.
  change (Ascii.compare "-" "-") with Eq. cbv iota.
  unfold date_leb, date_ltb. cbn [year month day].
  repeat match goal with
         | |- context [Z.compare (digit_val ?a) (digit_val ?b)] =>
             destruct (Z.compare_spec (digit_val a) (digit_val b))
         end;
    symmetry; CalendarFacts.zprop; lia.
Qed.

End OrderFacts.

(** ** The sort of the collection *)

Module SortFacts.

Lemma key_ge_refl (a : string) : key_ge a a.
Proof. apply StrFacts.leb_refl. Qed.

Lemma key_ge_trans (a b c : string) : key_ge a b -> key_ge b c -> key_ge a c.
Proof. unfold key_ge. intros H1 H2. eapply StrFacts.leb_trans; eassumption. Qed.

Lemma insert_desc_perm (x : Task.t) (l : list Task.t) :
  Permutation (insert_desc x l) (x :: l).
Proof.
  induction l as [|y r IH]; simpl; [reflexivity|].
  destruct (String.ltb (Task.date x) (Task.date y)); [|reflexivity].
  rewrite IH. apply perm_swap.
Qed.

Lemma sort_desc_perm (l : list Task.t) : Permutation (sort_desc l) l.
Proof.
  induction l as [|x l IH]; simpl; [reflexivity|].
  rewrite insert_desc_perm. now constructor.
Qed.

Lemma sort_desc_In (x : Task.t) (l : list Task.t) : In x (sort_desc l) <-> In x l.
Proof.
  split; apply Permutation_in; [|symmetry]; apply sort_desc_perm.
Qed.

Lemma sort_desc_Forall (P : Task.t -> Prop) (l : list Task.t) :
  Forall P l -> Forall P (sort_desc l).
Proof.
  rewrite !Forall_forall. intros H x Hx. apply H. now apply sort_desc_In.
Qed.

Lemma insert_desc_sorted (x : Task.t) (l : list Task.t) :
  StronglySorted date_ge l -> StronglySorted date_ge (insert_desc x l).
Proof.
  induction l as [|y r IH]; intros Hs; simpl.
  - repeat constructor.
  - inversion Hs as [|? ? Hr Hy]; subst.
    destruct (String.ltb (Task.date x) (Task.date y)) eqn:E.
    + constructor; [now apply IH|].
      eapply Permutation_Forall; [symmetry; apply insert_desc_perm|].
      constructor; [|assumption]. now apply StrFacts.ltb_leb.
    + assert (date_ge x y) as Hxy by now apply StrFacts.ltb_false_leb.
      constructor; [assumption|]. constructor; [assumption|].
      eapply Forall_impl; [|exact Hy].
      intros z Hz. eapply key_ge_trans; eassumption.
Qed.

(** The collection after [sort(..., reverse=True)]: keys never increase. *)
Lemma sort_desc_sorted (l : list Task.t) : StronglySorted date_ge (sort_desc l).
Proof.
  induction l as [|x l IH]; simpl; [constructor | now apply insert_desc_sorted].
Qed.

Lemma key_ge_not_ltb (a b : string) : key_ge a b -> String.ltb a b = false.
Proof.
  unfold key_ge, String.leb, String.ltb.
  rewrite (String.compare_antisym a b).
  destruct (String.compare b a); simpl; congruence.
Qed.

Lemma insert_desc_front (x : Task.t) (l : list Task.t) :
  Forall (date_ge x) l -> insert_desc x l = x :: l.
Proof.
  intros H. destruct l as [|y r]; [reflexivity|]. simpl.
  inversion H; subst. now rewrite key_ge_not_ltb.
Qed.

(** The sort is stable, so it commutes with a selection. *)
Lemma insert_desc_filter (p : Task.t -> bool) (x : Task.t) (l : list Task.t) :
  StronglySorted date_ge l ->
  filter p (insert_desc x l)
  = if p x then insert_desc x (filter p l) else filter p l.
Proof.
  induction l as [|y r IH]; intros Hs; simpl.
  - destruct (p x); reflexivity.
  - inversion Hs as [|? ? Hr Hy]; subst.
    destruct (String.ltb (Task.date x) (Task.date y)) eqn:E; simpl.
    + rewrite (IH Hr). destruct (p x), (p y); simpl; rewrite ?E; reflexivity.
    + destruct (p x) eqn:Px; simpl; rewrite ?Px; [|reflexivity].
      destruct (p y) eqn:Py; simpl; rewrite ?E; [reflexivity|].
      symmetry. apply insert_desc_front.
      apply Forall_forall. intros z Hz. apply filter_In in Hz. destruct Hz as [Hz _].
      rewrite Forall_forall in Hy.
      apply key_ge_trans with (Task.date y);
        [apply StrFacts.ltb_false_leb; exact E | apply Hy; exact Hz].
Qed.

Lemma sort_desc_filter (p : Task.t -> bool) (l : list Task.t) :
  filter p (sort_desc l) = sort_desc (filter p l).
Proof.
  induction l as [|x l IH]; simpl; [reflexivity|].
  rewrite insert_desc_filter by apply sort_desc_sorted.
  rewrite IH. destruct (p x); reflexivity.
Qed.

End SortFacts.

(** ** The Tasks manager *)

Section Submission.

Import Calendar FormatFacts.

Variable clock : nat -> datetime.

(** *** The loop over the tasks of the list *)

Lemma stops_at_false (event_title event_date : string) (task : RemoteTask.t) :
  stops_at event_title event_date task = false ->
  String.eqb (RemoteTask.title task) event_title = false
  \/ exists due, RemoteTask.due task = Some due
                 /\ PyStr.startswith due event_date = false.
Proof.
  unfold stops_at, same_task, lacks_due.
  destruct (String.eqb (RemoteTask.title task) event_title); [|now left].
  destruct (RemoteTask.due task) as [due|]; cbn; [|discriminate].
  rewrite orb_false_r. intros H. right. now exists due.
Qed.

(** The tasks at which the loop does not stop are passed over. *)
Lemma already_exists_skip (before rest : list RemoteTask.t)
      (event_title event_date : string) :
  Forall (fun task => stops_at event_title event_date task = false) before ->
  already_exists (before ++ rest) event_title event_date
  = already_exists rest event_title event_date.
Proof.
  induction 1 as [|task before Htask _ IH]; [reflexivity|].
  cbn [app already_exists].
  destruct (stops_at_false _ _ _ Htask) as [-> | (due & -> & ->)];
    [exact IH | now destruct (String.eqb _ _)].
Qed.

Lemma already_exists_found (task : RemoteTask.t) (rest : list RemoteTask.t)
      (event_title event_date : string) :
  same_task event_title event_date task = true ->
  already_exists (task :: rest) event_title event_date = Ok true.
Proof.
  unfold same_task. intros H. apply andb_true_iff in H. destruct H as [H1 H2].
  cbn [already_exists]. rewrite H1.
  destruct (RemoteTask.due task) as [due|]; [now rewrite H2 | discriminate].
Qed.

Lemma already_exists_no_due (task : RemoteTask.t) (rest : list RemoteTask.t)
      (event_title event_date : string) :
  lacks_due event_title task = true ->
  already_exists (task :: rest) event_title event_date = Raise KeyError.
Proof.
  unfold lacks_due. intros H. apply andb_true_iff in H. destruct H as [H1 H2].
  cbn [already_exists]. rewrite H1.
  destruct (RemoteTask.due task) as [due|]; [discriminate | reflexivity].
Qed.

(** What the loop returns tells where it stopped. *)
Lemma already_exists_inv (tasks : list RemoteTask.t) (event_title event_date : string) :
  match already_exists tasks event_title event_date with
  | Ok false => Forall (fun task => stops_at event_title event_date task = false) tasks
  | Ok true =>
      exists before task after,
        tasks = (before ++ task :: after)%list
        /\ Forall (fun task => stops_at event_title event_date task = false) before
        /\ same_task event_title event_date task = true
  | Raise e =>
      e = KeyError
      /\ exists before task after,
           tasks = (before ++ task :: after)%list
           /\ Forall (fun task => stops_at event_title event_date task = false) before
           /\ lacks_due event_title task = true
  end.
Proof.
  induction tasks as [|task rest IH]; cbn [already_exists]; [constructor|].
  assert (stops_at event_title event_date task = false ->
          match already_exists rest event_title event_date with
          | Ok false =>
              Forall (fun task => stops_at event_title event_date task = false)
                     (task :: rest)
          | Ok true =>
              exists before task' after,
                (task :: rest) = (before ++ task' :: after)%list
                /\ Forall (fun task => stops_at event_title event_date task = false)
                          before
                /\ same_task event_title event_date task' = true
          | Raise e =>
              e = KeyError
              /\ exists before task' after,
                   (task :: rest) = (before ++ task' :: after)%list
                   /\ Forall (fun task => stops_at event_title event_date task = false)
                             before
                   /\ lacks_due event_title task' = true
          end) as Hpass.
  { intros Hs. destruct (already_exists rest event_title event_date) as [[|]|e].
    - destruct IH as (before & task' & after & -> & Hb & Ht).
      exists (task :: before), task', after. repeat split; auto.
    - now constructor.
    - destruct IH as (-> & before & task' & after & -> & Hb & Ht).
      split; [reflexivity|].
      exists (task :: before), task', after. repeat split; auto. }
  destruct (String.eqb (RemoteTask.title task) event_title) eqn:E.
  - destruct (RemoteTask.due task) as [due|] eqn:D.
    + destruct (PyStr.startswith due event_date) eqn:S.
      * exists [], task, rest. repeat split; auto.
        unfold same_task. now rewrite E, D, S.
      * apply Hpass. unfold stops_at, same_task, lacks_due. now rewrite E, D, S.
    + split; [reflexivity|]. exists [], task, rest. repeat split; auto.
      unfold lacks_due. now rewrite E, D.
  - apply Hpass. unfold stops_at, same_task, lacks_due. now rewrite E.
Qed.

(** When every task has a due, the loop returns, and tells whether one
    of them passes the test. *)
Lemma already_exists_all_due (tasks : list RemoteTask.t)
      (event_title event_date : string) :
  all_due tasks ->
  already_exists tasks event_title event_date
  = Ok (existsb (same_task event_title event_date) tasks).
Proof.
  induction 1 as [|task rest Htask _ IH]; [reflexivity|].
  cbn [already_exists existsb]. unfold same_task at 1.
  destruct (RemoteTask.due task) as [due|]; [|congruence].
  destruct (String.eqb (RemoteTask.title task) event_title); [|exact IH].
  cbn [andb]. destruct (PyStr.startswith due event_date); [reflexivity | exact IH].
Qed.

(** [add_task_if_not_exists], path by path. *)
Lemma add_task_unparsed (event_title event_date notes : string) (w : World) (e : exn) :
  strptime event_date = Raise e ->
  add_task_if_not_exists clock event_title event_date notes w = (w, Raise e).
Proof.
  intros H. unfold add_task_if_not_exists, bind, lift. rewrite H. reflexivity.
Qed.

Lemma add_task_today (event_title event_date notes : string) (w : World) (t : datetime) :
  strptime event_date = Ok t ->
  date_eqb (dt_date t) (dt_date (clock (ticks w))) = true ->
  add_task_if_not_exists clock event_title event_date notes w = (tick w, Ok false).
Proof.
  intros H E. unfold add_task_if_not_exists, bind, lift, now. rewrite H.
  cbn. rewrite E. reflexivity.
Qed.

Lemma add_task_no_due (event_title event_date notes : string) (w : World)
      (t : datetime) (e : exn) :
  strptime event_date = Ok t ->
  date_eqb (dt_date t) (dt_date (clock (ticks w))) = false ->
  already_exists (listed w) event_title event_date = Raise e ->
  add_task_if_not_exists clock event_title event_date notes w
  = (mkWorld (all_tasks w) (remote w) (calls w ++ [(event_date, TasksList)])
             (S (ticks w)),
     Raise e).
Proof.
  intros H E X. unfold add_task_if_not_exists, bind, lift, now. rewrite H.
  cbn. rewrite E. cbn.
  unfold listed in X. cbn in X |- *. rewrite X. reflexivity.
Qed.

Lemma add_task_found (event_title event_date notes : string) (w : World) (t : datetime) :
  strptime event_date = Ok t ->
  date_eqb (dt_date t) (dt_date (clock (ticks w))) = false ->
  already_exists (listed w) event_title event_date = Ok true ->
  add_task_if_not_exists clock event_title event_date notes w
  = (mkWorld (all_tasks w) (remote w) (calls w ++ [(event_date, TasksList)])
             (S (ticks w)),
     Ok false).
Proof.
  intros H E X. unfold add_task_if_not_exists, bind, lift, now. rewrite H.
  cbn. rewrite E. cbn.
  unfold listed in X. cbn in X |- *. rewrite X. reflexivity.
Qed.

Lemma add_task_inserted (event_title event_date notes : string) (w : World) (t : datetime) :
  strptime event_date = Ok t ->
  date_eqb (dt_date t) (dt_date (clock (ticks w))) = false ->
  already_exists (listed w) event_title event_date = Ok false ->
  add_task_if_not_exists clock event_title event_date notes w
  = (mkWorld (all_tasks w) (new_task event_title notes t :: remote w)
             (calls w ++ [(event_date, TasksList);
                          (event_date, TasksInsert (new_task event_title notes t))])
             (S (ticks w)),
     Ok true).
Proof.
  intros H E X. unfold add_task_if_not_exists, bind, lift, now. rewrite H.
  cbn. rewrite E. cbn.
  unfold listed in X. cbn in X |- *. rewrite X. cbn.
  rewrite <- app_assoc. reflexivity.
Qed.


Lemma add_task_turn (c : Task.t) (w : World) :
  turn clock c w
       (fst (add_task_if_not_exists clock (Task.title c) (Task.date c) (Task.notes c) w))
       (snd (add_task_if_not_exists clock (Task.title c) (Task.date c) (Task.notes c) w)).
Proof.
  destruct (strptime (Task.date c)) as [t|e] eqn:P.
  - destruct (date_eqb (dt_date t) (dt_date (clock (ticks w)))) eqn:E.
    + rewrite (add_task_today _ _ _ _ _ P E). now apply turn_today with t.
    + destruct (already_exists (listed w) (Task.title c) (Task.date c))
        as [[|]|e] eqn:X.
      * rewrite (add_task_found _ _ _ _ _ P E X). now apply turn_found with t.
      * rewrite (add_task_inserted _ _ _ _ _ P E X). now apply turn_inserted.
      * rewrite (add_task_no_due _ _ _ _ _ _ P E X). now apply turn_no_due with t.
  - rewrite (add_task_unparsed _ _ _ _ _ P). now apply turn_unparsed.
Qed.

Lemma submit_loop_cons (c : Task.t) (rest : list Task.t) (k : Z) (w : World) :
  submit_loop clock (c :: rest) k w
  = match add_task_if_not_exists clock (Task.title c) (Task.date c) (Task.notes c) w with
    | (w', Ok added) => submit_loop clock rest (if added then k + 1 else k) w'
    | (w', Raise e) => (w', Raise e)
    end.
Proof. reflexivity. Qed.

End Submission.

(** ** Rules A and B *)

Section Rules.

Import Calendar FormatFacts.

Variable clock : nat -> datetime.

Lemma passed_over_all (event_title event_date : string) (tasks : list RemoteTask.t) :
  Forall (fun task => stops_at event_title event_date task = false) tasks ->
  already_exists tasks event_title event_date = Ok false.
Proof.
  intros H. rewrite <- (app_nil_r tasks). now rewrite already_exists_skip.
Qed.

(** C1, as amended: rule B, after rule A.  For a candidate whose date
    parses: when the date is the current date, [add_task_if_not_exists]
    returns [False] having only read the clock (rule A comes first).
    Otherwise it queries the list of non-completed tasks, once, and goes
    through it up to the first task that has the candidate's title and
    either a due that starts with the candidate's date string, or no due
    at all.  If there is no such task, exactly one task is inserted,
    [True] is returned and the count of the loop grows by one.  If the
    first such task has a due, nothing is inserted, [False] is returned
    and the count is unchanged.  If it has no due, the test raises
    [KeyError]: nothing is inserted and the loop of
    [process_collected_tasks] ends there. *)
Theorem rule_B_already_exists
        (event_title event_date notes : string) (w : World) (t : datetime)
        (rest : list Task.t) (added_count : Z) :
  strptime event_date = Ok t ->
  let run := add_task_if_not_exists clock event_title event_date notes w in
  let candidate := Task.mk event_title event_date notes in
  let asked := (calls w ++ [(event_date, TasksList)])%list in
  let passed_over :=
    Forall (fun task => stops_at event_title event_date task = false) in
  (dt_date t = dt_date (clock (ticks w)) ->
     run = (tick w, Ok false))
  /\ (dt_date t <> dt_date (clock (ticks w)) ->
      (passed_over (listed w) ->
         snd run = Ok true
         /\ remote (fst run) = new_task event_title notes t :: remote w
         /\ calls (fst run)
            = (asked ++ [(event_date, TasksInsert (new_task event_title notes t))])%list
         /\ submit_loop clock (candidate :: rest) added_count w
            = submit_loop clock rest (added_count + 1) (fst run))
      /\ (forall before task after,
            listed w = (before ++ task :: after)%list ->
            passed_over before ->
            (same_task event_title event_date task = true ->
               snd run = Ok false
               /\ remote (fst run) = remote w
               /\ calls (fst run) = asked
               /\ submit_loop clock (candidate :: rest) added_count w
                  = submit_loop clock rest added_count (fst run))
            /\ (lacks_due event_title task = true ->
                  snd run = Raise KeyError
                  /\ remote (fst run) = remote w
                  /\ calls (fst run) = asked
                  /\ submit_loop clock (candidate :: rest) added_count w
                     = (fst run, Raise KeyError)))).
Proof.
  intros P run candidate asked passed_over. split.
  - intros E. apply CalendarFacts.date_eqb_eq in E.
    exact (add_task_today clock _ _ _ _ _ P E).
  - intros Hne.
    assert (date_eqb (dt_date t) (dt_date (clock (ticks w))) = false) as E.
    { apply not_true_iff_false. intros E. apply CalendarFacts.date_eqb_eq in E.
      contradiction. }
    split.
    + intros Hnone. apply passed_over_all in Hnone.
      subst run asked. rewrite submit_loop_cons.
      simpl Task.title; simpl Task.date; simpl Task.notes.
      rewrite (add_task_inserted clock _ _ _ _ _ P E Hnone). cbn [fst snd remote calls].
      rewrite <- app_assoc. auto.
    + intros before task after Hlist Hbefore.
      assert (already_exists (listed w) event_title event_date
              = already_exists (task :: after) event_title event_date) as Hscan.
      { rewrite Hlist. now apply already_exists_skip. }
      split; intros Htask.
      * rewrite (already_exists_found _ _ _ _ Htask) in Hscan.
        subst run asked. rewrite submit_loop_cons.
        simpl Task.title; simpl Task.date; simpl Task.notes.
        rewrite (add_task_found clock _ _ _ _ _ P E Hscan). cbn [fst snd remote calls].
        auto.
      * rewrite (already_exists_no_due _ _ _ _ Htask) in Hscan.
        subst run asked. rewrite submit_loop_cons.
        simpl Task.title; simpl Task.date; simpl Task.notes.
        rewrite (add_task_no_due clock _ _ _ _ _ _ P E Hscan).
        cbn [fst snd remote calls]. auto.
Qed.

(** C2: rule A.  When the date of a candidate is the current date at the
    time of its turn, [add_task_if_not_exists] returns [False] having
    read the clock and nothing else: the Tasks service is not called, the
    remote list is as it was whatever it holds, and the loop of
    [process_collected_tasks] goes on with the same count. *)
Theorem rule_A_same_day
        (event_title event_date notes : string) (w : World) (t : datetime)
        (rest : list Task.t) (added_count : Z) :
  strptime event_date = Ok t ->
  dt_date t = dt_date (clock (ticks w)) ->
  add_task_if_not_exists clock event_title event_date notes w = (tick w, Ok false)
  /\ submit_loop clock (Task.mk event_title event_date notes :: rest) added_count w
     = submit_loop clock rest added_count (tick w).
Proof.
  intros P E. apply CalendarFacts.date_eqb_eq in E.
  rewrite submit_loop_cons. simpl Task.title; simpl Task.date; simpl Task.notes.
  rewrite (add_task_today clock _ _ _ _ _ P E). auto.
Qed.

End Rules.

Lemma rule_B_already_exists_witness :
  let known_world := Sample.world [] [Sample.remote_physics_jan6] in
  let new_world := Sample.world [] [] in
  let undated_world :=
    Sample.world [] [Sample.remote_physics_undated; Sample.remote_physics_jan6] in
  let submit :=
    add_task_if_not_exists Sample.clock_jan5 "Sprawdzian - Fizyka (8:00)"
                           "2024-01-06" Sample.no_notes in
  Calendar.strptime "2024-01-06" = Ok (Calendar.midnight (Calendar.mkdate 2024 1 6))
  /\ snd (submit known_world) = Ok false
  /\ snd (submit new_world) = Ok true
  /\ snd (submit undated_world) = Raise KeyError.
Proof.
  intros known_world new_world undated_world submit.
  assert (Calendar.strptime "2024-01-06" = Ok (Calendar.midnight (Calendar.mkdate 2024 1 6)))
    as P by reflexivity.
  assert (Calendar.dt_date (Calendar.midnight (Calendar.mkdate 2024 1 6))
          <> Calendar.dt_date (Sample.clock_jan5 0)) as Hne by discriminate.
  split; [exact P|]. split; [|split].
  - destruct (rule_B_already_exists Sample.clock_jan5 "Sprawdzian - Fizyka (8:00)"
                "2024-01-06" Sample.no_notes known_world _ [] 0 P) as [_ Hrule].
    destruct (Hrule Hne) as [_ Hstop].
    destruct (Hstop [] Sample.remote_physics_jan6 [] eq_refl (Forall_nil _))
      as [Hfound _].
    apply Hfound. reflexivity.
  - destruct (rule_B_already_exists Sample.clock_jan5 "Sprawdzian - Fizyka (8:00)"
                "2024-01-06" Sample.no_notes new_world _ [] 0 P) as [_ Hrule].
    destruct (Hrule Hne) as [Hnew _].
    apply Hnew. constructor.
  - destruct (rule_B_already_exists Sample.clock_jan5 "Sprawdzian - Fizyka (8:00)"
                "2024-01-06" Sample.no_notes undated_world _ [] 0 P) as [_ Hrule].
    destruct (Hrule Hne) as [_ Hstop].
    destruct (Hstop [] Sample.remote_physics_undated [Sample.remote_physics_jan6]
                eq_refl (Forall_nil _)) as [_ Hundated].
    apply Hundated. reflexivity.
Defined.

(** C1, as stated, fails on a candidate due today: no task of the remote
    list has its title, and yet nothing is inserted, and the list is not
    even queried, because rule A comes first. *)
Lemma rule_B_not_reached_on_same_day :
  let w := Sample.world [] [] in
  let run := add_task_if_not_exists Sample.clock_jan5 "Sprawdzian - Fizyka (8:00)"
                                    "2024-01-05" Sample.no_notes w in
  existsb (same_task "Sprawdzian - Fizyka (8:00)" "2024-01-05") (listed w) = false
  /\ snd run = Ok false
  /\ calls (fst run) = []
  /\ List.length (inserts (calls (fst run))) <> 1%nat.
Proof.
  vm_compute. repeat split; try reflexivity. discriminate.
Qed.

Lemma rule_A_same_day_witness :
  let w := Sample.world [] [Sample.remote_physics_jan6] in
  (exists t, Calendar.strptime "2024-01-05" = Ok t
             /\ Calendar.dt_date t = Calendar.dt_date (Sample.clock_jan5 (ticks w)))
  /\ add_task_if_not_exists Sample.clock_jan5 "Sprawdzian - Fizyka (8:00)"
                            "2024-01-05" Sample.no_notes w
     = (tick w, Ok false).
Proof.
  intros w.
  assert (Calendar.strptime "2024-01-05" = Ok (Calendar.midnight (Calendar.mkdate 2024 1 5)))
    as P by reflexivity.
  split; [eexists; split; [exact P | reflexivity]|].
  exact (proj1 (rule_A_same_day Sample.clock_jan5 "Sprawdzian - Fizyka (8:00)"
                  "2024-01-05" Sample.no_notes w _ [] 0 P eq_refl)).
Defined.

(** ** The loop of [process_collected_tasks] *)

Section Loop.

Import Calendar FormatFacts SortFacts.

Variable clock : nat -> datetime.

Lemma process_collected_tasks_unfold (w : World) :
  process_collected_tasks clock w
  = submit_loop clock (sort_desc (all_tasks w)) 0
                (mkWorld (sort_desc (all_tasks w)) (remote w) (calls w) (ticks w)).
Proof. reflexivity. Qed.

(** Case analysis on the turn of the first candidate. *)
Ltac turn_cases c w :=
  rewrite submit_loop_cons;
  let T := fresh "T" in
  pose proof (add_task_turn clock c w) as T;
  destruct (add_task_if_not_exists clock (Task.title c) (Task.date c) (Task.notes c) w)
    as [?w ?r];
  cbn [fst snd] in T; inversion T; subst; clear T.

Lemma StronglySorted_map {A B} (R : B -> B -> Prop) (f : A -> B) (l : list A) :
  StronglySorted (fun a b => R (f a) (f b)) l -> StronglySorted R (map f l).
Proof.
  induction 1 as [|a l Hs IH Ha]; simpl; constructor; auto.
  apply Forall_map. exact Ha.
Qed.

(** The loop, turn by turn: the candidates are handled in the order of
    the list, each leaving its calls in the journal, up to the one at
    which the loop raises, if it does. *)
Lemma submit_loop_segments (l : list Task.t) :
  forall (k : Z) (w : World),
  exists handled rest segments,
    l = (handled ++ rest)%list
    /\ Forall2 (calls_of_turn clock) handled segments
    /\ calls (fst (submit_loop clock l k w)) = (calls w ++ List.concat segments)%list
    /\ (forall n, snd (submit_loop clock l k w) = Ok n -> rest = []).
Proof.
  induction l as [|c rest IH]; intros k w.
  - exists [], [], []. cbn. rewrite app_nil_r. repeat split; constructor.
  - turn_cases c w.
    + exists [], (c :: rest), []. cbn. rewrite app_nil_r.
      repeat split; [constructor | discriminate].
    + destruct (IH k (tick w)) as (handled & rest' & segments & -> & H2 & Hc & Hr).
      exists (c :: handled), rest', ([] :: segments).
      split; [reflexivity|]. split; [|split; [exact Hc | exact Hr]].
      constructor; [|exact H2].
      apply calls_skipped with (i := ticks w). unfold same_day.
      match goal with H : strptime _ = Ok _ |- _ => now rewrite H end.
    + exists [c], rest, [[(Task.date c, TasksList)]]. cbn [fst snd calls List.concat app].
      split; [reflexivity|]. split; [|split; [reflexivity | discriminate]].
      constructor; [apply calls_listed | constructor].
    + match goal with
      | |- context [submit_loop clock rest k ?w1] =>
          destruct (IH k w1) as (handled & rest' & segments & -> & H2 & Hc & Hr)
      end.
      exists (c :: handled), rest', ([(Task.date c, TasksList)] :: segments).
      split; [reflexivity|]. split; [|split; [|exact Hr]].
      * constructor; [apply calls_listed | exact H2].
      * rewrite Hc. cbn [calls List.concat]. now rewrite <- app_assoc.
    + match goal with
      | |- context [submit_loop clock rest (k + 1) ?w1] =>
          destruct (IH (k + 1) w1) as (handled & rest' & segments & -> & H2 & Hc & Hr)
      end.
      exists (c :: handled), rest',
        ([(Task.date c, TasksList);
          (Task.date c, TasksInsert (new_task (Task.title c) (Task.notes c) t))]
           :: segments).
      split; [reflexivity|]. split; [|split; [|exact Hr]].
      * constructor; [now apply calls_inserted | exact H2].
      * rewrite Hc. cbn [calls List.concat]. now rewrite <- app_assoc.
Qed.

(** The calls of the turns of a sorted list come under sorted dates. *)
Lemma segments_sorted (handled : list Task.t)
      (segments : list (list (string * StoreCall))) :
  Forall2 (calls_of_turn clock) handled segments ->
  StronglySorted key_ge (map Task.date handled) ->
  Forall (fun tag => In tag (map Task.date handled)) (map fst (List.concat segments))
  /\ StronglySorted key_ge (map fst (List.concat segments)).
Proof.
  induction 1 as [|c segment handled segments Hturn _ IH]; intros Hs.
  - cbn. split; constructor.
  - cbn [map] in Hs. inversion Hs as [|? ? Hrest Hall]; subst.
    destruct (IH Hrest) as [Hin Hsorted].
    assert (Forall (fun tag => In tag (map Task.date (c :: handled)))
                   (map fst (List.concat segments))) as Hweak.
    { eapply Forall_impl; [|exact Hin]. intros tag Htag. now right. }
    assert (Forall (key_ge (Task.date c)) (map fst (List.concat segments))) as Hbelow.
    { rewrite Forall_forall in *. intros tag Htag. apply Hall. now apply Hin. }
    cbn [List.concat]. rewrite map_app.
    inversion Hturn; subst; cbn [map fst app].
    + split; assumption.
    + split; [constructor; [now left | exact Hweak]|].
      constructor; assumption.
    + split; [constructor; [now left|]; constructor; [now left | exact Hweak]|].
      constructor.
      * constructor; assumption.
      * constructor; [apply key_ge_refl | exact Hbelow].
Qed.

(** *** When the loop returns *)

Lemma listed_insert (body : RemoteTask.t) (w : World) (more : list (string * StoreCall))
      (n : nat) :
  RemoteTask.completed body = false ->
  listed (mkWorld (all_tasks w) (body :: remote w) more n) = body :: listed w.
Proof. intros H. unfold listed. cbn [remote filter]. now rewrite H. Qed.

(** The loop raises nothing but [KeyError] when every date of the list
    parses, and returns when, besides, every task listed has a due; what
    it returns is no less than the count it started from. *)
Lemma submit_loop_outcome (l : list Task.t) :
  Forall parses l ->
  forall (k : Z) (w : World),
    match snd (submit_loop clock l k w) with
    | Ok k' => k <= k'
    | Raise e => e = KeyError
    end
    /\ all_tasks (fst (submit_loop clock l k w)) = all_tasks w.
Proof.
  induction l as [|c rest IH]; intros Hp k w.
  - cbn. split; [lia | reflexivity].
  - inversion Hp as [|? ? [t0 Hc] Hrest]; subst.
    turn_cases c w; try congruence.
    + apply (IH Hrest k (tick w)).
    + cbn [fst snd all_tasks]. split; [|reflexivity].
      match goal with
      | H : already_exists _ _ _ = Raise _ |- _ =>
          pose proof (already_exists_inv (listed w) (Task.title c) (Task.date c)) as Hi;
          rewrite H in Hi; exact (proj1 Hi)
      end.
    + match goal with
      | |- context [submit_loop clock rest k ?w1] => apply (IH Hrest k w1)
      end.
    + match goal with
      | |- context [submit_loop clock rest (k + 1) ?w1] =>
          destruct (IH Hrest (k + 1) w1) as [Ho Ha]
      end.
      split; [|exact Ha].
      destruct (snd (submit_loop clock rest (k + 1) _)); [lia | exact Ho].
Qed.

Lemma submit_loop_returns (l : list Task.t) :
  Forall parses l ->
  forall (k : Z) (w : World),
  all_due (listed w) ->
  exists w' k',
    submit_loop clock l k w = (w', Ok k') /\ k <= k'
    /\ all_tasks w' = all_tasks w.
Proof.
  induction l as [|c rest IH]; intros Hp k w Hdue.
  - exists w, k. simpl. unfold ret. repeat split; lia.
  - inversion Hp as [|? ? [t0 Hc] Hrest]; subst.
    turn_cases c w; try congruence.
    + destruct (IH Hrest k (tick w) Hdue) as (w' & k' & Hrun & Hle & Hcoll).
      exists w', k'. auto.
    + exfalso.
      match goal with
      | H : already_exists _ _ _ = Raise _ |- _ =>
          rewrite (already_exists_all_due _ _ _ Hdue) in H; discriminate H
      end.
    + match goal with
      | |- context [submit_loop clock rest k ?w1] =>
          destruct (IH Hrest k w1 Hdue) as (w' & k' & Hrun & Hle & Hcoll)
      end.
      exists w', k'. auto.
    + match goal with
      | |- context [submit_loop clock rest (k + 1) ?w1] =>
          destruct (IH Hrest (k + 1) w1) as (w' & k' & Hrun & Hle & Hcoll)
      end.
      { rewrite listed_insert by reflexivity. constructor; [discriminate | exact Hdue]. }
      exists w', k'. repeat split; auto. lia.
Qed.


(** *** A run within one calendar day *)

Variable today : date.
Hypothesis clock_today : forall i, dt_date (clock i) = today.

Lemma well_dated_parses (c : Task.t) : well_dated c -> parses c.
Proof.
  intros H. apply canonical_inv in H. destruct H as (t & H & _). now exists t.
Qed.

Lemma filter_sent (ins R : list RemoteTask.t) :
  Forall sent ins ->
  filter (fun task => negb (RemoteTask.completed task)) (ins ++ R)
  = (ins ++ filter (fun task => negb (RemoteTask.completed task)) R)%list.
Proof.
  induction 1 as [|task ins [_ Hopen] _ IH]; [reflexivity|].
  cbn [app filter]. now rewrite Hopen, IH.
Qed.

(** Tasks with a due, put in front of a list on which the loop finds a
    task, do not make it miss it. *)
Lemma already_exists_front (ins tasks : list RemoteTask.t)
      (event_title event_date : string) :
  Forall sent ins ->
  already_exists tasks event_title event_date = Ok true ->
  already_exists (ins ++ tasks) event_title event_date = Ok true.
Proof.
  intros Hins Hfound. induction Hins as [|task ins [Hdue _] _ IH]; [exact Hfound|].
  cbn [app already_exists].
  destruct (String.eqb (RemoteTask.title task) event_title); [|exact IH].
  destruct (RemoteTask.due task) as [due|]; [|congruence].
  now destruct (PyStr.startswith due event_date).
Qed.

Lemma known_app (ins R : list RemoteTask.t) (c : Task.t) :
  Forall sent ins -> known R c = true -> known (ins ++ R) c = true.
Proof.
  unfold known. intros Hins. rewrite (filter_sent _ _ Hins).
  destruct (already_exists (filter _ R) _ _) as [[|]|e] eqn:E; try discriminate.
  intros _. now rewrite (already_exists_front _ _ _ _ Hins E).
Qed.

(** The task sent for a candidate with a canonical date is one that rule B
    recognises for that candidate. *)
Lemma new_task_same_task (c : Task.t) (t : datetime) :
  well_dated c -> strptime (Task.date c) = Ok t ->
  same_task (Task.title c) (Task.date c)
            (new_task (Task.title c) (Task.notes c) t) = true.
Proof.
  intros Hc P. apply canonical_inv in Hc. destruct Hc as (t' & P' & Hiso & _).
  rewrite P in P'. injection P' as <-.
  apply strptime_ok in P. destruct P as [_ Hmid].
  unfold same_task, new_task. cbn [RemoteTask.title RemoteTask.due].
  rewrite String.eqb_refl. cbn [andb]. unfold PyStr.startswith.
  rewrite Hmid, isoformat_midnight. cbn [dt_date midnight]. rewrite Hiso.
  rewrite StrFacts.append_assoc. apply StrFacts.prefix_append.
Qed.

Lemma new_task_sent (event_title notes : string) (t : datetime) :
  sent (new_task event_title notes t).
Proof. split; [discriminate | reflexivity]. Qed.

Lemma known_cons (R : list RemoteTask.t) (c c' : Task.t) (t : datetime) :
  known (new_task (Task.title c') (Task.notes c') t :: R) c
  = same_task (Task.title c) (Task.date c)
              (new_task (Task.title c') (Task.notes c') t)
    || known R c.
Proof.
  unfold known, same_task.
  cbn [filter new_task RemoteTask.completed negb already_exists
       RemoteTask.title RemoteTask.due].
  destruct (String.eqb (Task.title c') (Task.title c)); [|reflexivity].
  cbn [andb]. now destruct (PyStr.startswith _ _).
Qed.

Lemma known_new_task (R : list RemoteTask.t) (c : Task.t) (t : datetime) :
  well_dated c -> strptime (Task.date c) = Ok t ->
  known (new_task (Task.title c) (Task.notes c) t :: R) c = true.
Proof.
  intros Hc P. rewrite known_cons, new_task_same_task by assumption. reflexivity.
Qed.

Lemma known_found (w : World) (c : Task.t) :
  already_exists (listed w) (Task.title c) (Task.date c) = Ok true ->
  known (remote w) c = true.
Proof. unfold known, listed. now intros ->. Qed.

Lemma known_not_found (w : World) (c : Task.t) (r : result bool) :
  already_exists (listed w) (Task.title c) (Task.date c) = r ->
  r <> Ok true -> known (remote w) c = false.
Proof.
  unfold known, listed. intros -> Hr.
  destruct r as [[|]|e]; congruence.
Qed.

(** The first pass: when the loop returns, every candidate is under rule
    A or rule B. *)
Lemma first_pass (l : list Task.t) :
  Forall well_dated l ->
  forall (k k' : Z) (w w' : World),
    submit_loop clock l k w = (w', Ok k') ->
    k <= k'
    /\ all_tasks w' = all_tasks w
    /\ (exists ins, remote w' = (ins ++ remote w)%list /\ Forall sent ins)
    /\ Forall (fun c => same_day today c = true \/ known (remote w') c = true) l.
Proof.
  induction l as [|c rest IH]; intros Hp k k' w w'.
  - cbn. unfold ret. intros H. injection H as <- <-.
    repeat split; try lia; auto. now exists [].
  - inversion Hp as [|? ? Hc Hrest]; subst.
    destruct (well_dated_parses c Hc) as [t0 P0].
    turn_cases c w; try congruence; intros Hrun.
    + destruct (IH Hrest _ _ _ _ Hrun) as (Hle & Hcoll & Hins & Hall).
      repeat split; auto. constructor; [|assumption].
      left. unfold same_day. rewrite P0.
      match goal with H : date_eqb _ _ = true |- _ => rewrite clock_today in H end.
      congruence.
    + destruct (IH Hrest _ _ _ _ Hrun) as (Hle & Hcoll & Hins & Hall).
      repeat split; auto. constructor; [|assumption].
      right. destruct Hins as (ins & Hr & Hsent). rewrite Hr. cbn [remote].
      apply known_app; [exact Hsent|].
      match goal with H : already_exists _ _ _ = Ok true |- _ =>
        exact (known_found w c H) end.
    + destruct (IH Hrest _ _ _ _ Hrun) as (Hle & Hcoll & Hins & Hall).
      repeat split; auto; try lia.
      * destruct Hins as (ins & Hr & Hsent). cbn [remote] in Hr.
        exists (ins ++ [new_task (Task.title c) (Task.notes c) t])%list.
        split; [now rewrite Hr, <- app_assoc|].
        apply Forall_app. split; [exact Hsent|].
        constructor; [apply new_task_sent | constructor].
      * constructor; [|assumption].
        right. destruct Hins as (ins & Hr & Hsent). rewrite Hr. cbn [remote].
        apply known_app; [exact Hsent|]. now apply known_new_task.
Qed.

(** The second pass: a list whose candidates are all under rule A or
    rule B adds nothing. *)
Lemma second_pass (l : list Task.t) :
  Forall parses l ->
  forall (k : Z) (w : World),
    Forall (fun c => same_day today c = true \/ known (remote w) c = true) l ->
    exists w',
      submit_loop clock l k w = (w', Ok k)
      /\ remote w' = remote w /\ all_tasks w' = all_tasks w.
Proof.
  induction l as [|c rest IH]; intros Hp k w Hall.
  - exists w. simpl. unfold ret. auto.
  - inversion Hp as [|? ? [t0 P0] Hrest]; subst.
    inversion Hall as [|? ? Hc Hall']; subst.
    assert (same_day today c = true ->
            date_eqb (dt_date t0) (dt_date (clock (ticks w))) = true) as Hsame.
    { unfold same_day. rewrite P0, clock_today. auto. }
    turn_cases c w; try congruence.
    + destruct (IH Hrest k (tick w) Hall') as (w' & Hrun & Hrem & Hcoll).
      exists w'. auto.
    + exfalso. destruct Hc as [Hc|Hc]; [specialize (Hsame Hc); congruence|].
      match goal with H : already_exists _ _ _ = Raise _ |- _ =>
        rewrite (known_not_found w c _ H) in Hc; [discriminate | discriminate] end.
    + match goal with
      | |- context [submit_loop clock rest k ?w1] =>
          destruct (IH Hrest k w1 Hall') as (w' & Hrun & Hrem & Hcoll)
      end.
      exists w'. auto.
    + exfalso. destruct Hc as [Hc|Hc]; [specialize (Hsame Hc); congruence|].
      match goal with H : already_exists _ _ _ = Ok false |- _ =>
        rewrite (known_not_found w c _ H) in Hc; [discriminate | discriminate] end.
Qed.


(** *** Candidates with the same title and date *)

Lemma same_key_refl (c : Task.t) : same_key c c = true.
Proof. unfold same_key. now rewrite !String.eqb_refl. Qed.

Lemma same_key_eq (c c' : Task.t) :
  same_key c c' = true ->
  Task.title c' = Task.title c /\ Task.date c' = Task.date c.
Proof.
  unfold same_key. intros H. apply andb_true_iff in H. destruct H as [H1 H2].
  apply String.eqb_eq in H1, H2. auto.
Qed.

Lemma known_same_key (R : list RemoteTask.t) (c c' : Task.t) :
  same_key c c' = true -> known R c = known R c'.
Proof.
  intros H. apply same_key_eq in H. destruct H as [H1 H2].
  unfold known. now rewrite H1, H2.
Qed.

Lemma same_day_same_key (c c' : Task.t) :
  same_key c c' = true -> same_day today c = same_day today c'.
Proof.
  intros H. apply same_key_eq in H. destruct H as [_ H2].
  unfold same_day. now rewrite H2.
Qed.

(** With canonical dates, the task sent for one candidate is recognised
    for another exactly when they have the same title and date. *)
Lemma new_task_same_key (c c' : Task.t) (t : datetime) :
  well_dated c -> well_dated c' -> strptime (Task.date c') = Ok t ->
  same_task (Task.title c) (Task.date c)
            (new_task (Task.title c') (Task.notes c') t)
  = same_key c c'.
Proof.
  intros Hc Hc' P.
  apply canonical_inv in Hc. destruct Hc as (_ & _ & _ & Hlen).
  apply canonical_inv in Hc'. destruct Hc' as (t' & P' & Hiso & Hlen').
  rewrite P in P'. injection P' as <-.
  apply strptime_ok in P. destruct P as [_ Hmid].
  unfold same_task, same_key, new_task. cbn [RemoteTask.title RemoteTask.due].
  f_equal. unfold PyStr.startswith.
  rewrite Hmid, isoformat_midnight. cbn [dt_date midnight]. rewrite Hiso.
  rewrite StrFacts.append_assoc.
  destruct (String.eqb_spec (Task.date c') (Task.date c)) as [E|E].
  - rewrite E. apply StrFacts.prefix_append.
  - apply not_true_iff_false. intros Hp. apply E. symmetry.
    eapply StrFacts.prefix_same_length; [exact Hp | congruence].
Qed.

Lemma inserts_for_list (c : Task.t) (d : string) (journal : list (string * StoreCall)) :
  inserts_for c ((d, TasksList) :: journal) = inserts_for c journal.
Proof. reflexivity. Qed.

Lemma inserts_for_insert (c : Task.t) (d : string) (body : RemoteTask.t)
      (journal : list (string * StoreCall)) :
  inserts_for c ((d, TasksInsert body) :: journal)
  = ((if same_task (Task.title c) (Task.date c) body then 1 else 0)
     + inserts_for c journal)%nat.
Proof.
  unfold inserts_for. cbn [filter snd].
  destruct (same_task (Task.title c) (Task.date c) body); reflexivity.
Qed.

(** How many inserts the loop makes for a candidate, when it returns:
    none if rule B knew it from the start, otherwise one if it is in the
    list, however many times. *)
Lemma loop_inserts (l : list Task.t) :
  Forall well_dated l ->
  forall (k k' : Z) (w w' : World),
    submit_loop clock l k w = (w', Ok k') ->
    exists issued,
      calls w' = (calls w ++ issued)%list
      /\ forall c, well_dated c -> same_day today c = false ->
           inserts_for c issued
           = if known (remote w) c then 0%nat
             else if existsb (same_key c) l then 1%nat else 0%nat.
Proof.
  induction l as [|c0 rest IH]; intros Hp k k' w w'.
  - cbn. unfold ret. intros H. injection H as <- <-.
    exists []. rewrite app_nil_r.
    split; [reflexivity|]. intros c _ _. now destruct (known (remote w) c).
  - inversion Hp as [|? ? Hc0 Hrest]; subst.
    destruct (well_dated_parses c0 Hc0) as [t0 P0].
    turn_cases c0 w; try congruence; intros Hrun.
    + destruct (IH Hrest _ _ _ _ Hrun) as (issued & Hcalls & Hcount).
      exists issued. split; [exact Hcalls|].
      intros c Hc Hday. rewrite (Hcount c Hc Hday). cbn [remote tick existsb].
      destruct (same_key c c0) eqn:K; [|reflexivity].
      apply same_day_same_key in K. unfold same_day in K at 2. rewrite P0 in K.
      rewrite clock_today in *. congruence.
    + destruct (IH Hrest _ _ _ _ Hrun) as (issued & Hcalls & Hcount).
      exists ((Task.date c0, TasksList) :: issued).
      split; [rewrite Hcalls; cbn [calls]; now rewrite <- app_assoc|].
      intros c Hc Hday. rewrite inserts_for_list, (Hcount c Hc Hday).
      cbn [remote existsb].
      destruct (known (remote w) c) eqn:Kn; [reflexivity|].
      destruct (same_key c c0) eqn:K; [|reflexivity].
      apply (known_same_key (remote w)) in K.
      match goal with H : already_exists _ _ _ = Ok true |- _ =>
        pose proof (known_found w c0 H) end.
      congruence.
    + destruct (IH Hrest _ _ _ _ Hrun) as (issued & Hcalls & Hcount).
      exists ((Task.date c0, TasksList)
                :: (Task.date c0, TasksInsert (new_task (Task.title c0) (Task.notes c0) t))
                :: issued).
      split; [rewrite Hcalls; cbn [calls]; now rewrite <- app_assoc|].
      intros c Hc Hday.
      rewrite inserts_for_list, inserts_for_insert, (Hcount c Hc Hday).
      cbn [remote existsb]. rewrite known_cons.
      match goal with H : strptime _ = Ok t |- _ =>
        rewrite (new_task_same_key c c0 t Hc Hc0 H) end.
      destruct (same_key c c0) eqn:K; destruct (known (remote w) c) eqn:Kn;
        cbn [orb]; try reflexivity.
      apply (known_same_key (remote w)) in K.
      match goal with H : already_exists _ _ _ = Ok false |- _ =>
        pose proof (known_not_found w c0 _ H ltac:(discriminate)) end.
      congruence.
Qed.

End Loop.

(** ** Submission as a whole *)

Section Batch.

Import Calendar FormatFacts SortFacts.

Lemma StronglySorted_on {A} (P : A -> Prop) (R R' : A -> A -> Prop) (l : list A) :
  (forall a b, P a -> P b -> R a b -> R' a b) ->
  Forall P l -> StronglySorted R l -> StronglySorted R' l.
Proof.
  intros HR HP Hs. induction Hs as [|a l Hs IH Ha]; constructor.
  - apply IH. now inversion HP.
  - inversion HP as [|? ? Pa Pl]; subst.
    rewrite Forall_forall in *. intros b Hb. apply HR; auto.
Qed.

Lemma canonical_date_of (s : string) :
  canonical s = true ->
  exists d, valid_date d = true /\ s = isoformat_date d /\ date_of s = Some d.
Proof.
  intros H. apply canonical_spec in H. destruct H as (d & Hv & ->).
  exists d. repeat split; auto.
  unfold date_of. now rewrite strptime_isoformat_date.
Qed.

(** Between canonical dates, the order of the keys is the order of the
    calendar. *)
Lemma key_ge_calendar_ge (a b : string) :
  canonical a = true -> canonical b = true -> key_ge a b -> calendar_ge a b.
Proof.
  intros Ha Hb Hge.
  destruct (canonical_date_of a Ha) as (da & Va & Ea & Da).
  destruct (canonical_date_of b Hb) as (db & Vb & Eb & Db).
  exists da, db. repeat split; auto.
  unfold key_ge in Hge. subst a b.
  now rewrite OrderFacts.isoformat_date_leb in Hge.
Qed.





(** C3, as amended: submitting twice.  [process_collected_tasks] is run
    twice in a row within one calendar day, on a collection whose dates
    are written in the canonical [YYYY-MM-DD] form and against a remote
    list that keeps what is inserted.  When the first run returns, its
    count is not negative, and the second run returns 0 and leaves the
    remote list as the first run left it.  The first run does return
    when every task listed has a due date (a task with the title of a
    candidate and no due can make it raise [KeyError]). *)
Theorem resubmission_adds_nothing
        (clock : nat -> datetime) (today : date) (w : World) :
  (forall i, dt_date (clock i) = today) ->
  Forall well_dated (all_tasks w) ->
  (all_due (listed w) ->
     exists w1 added_count, process_collected_tasks clock w = (w1, Ok added_count))
  /\ (forall w1 added_count,
        process_collected_tasks clock w = (w1, Ok added_count) ->
        0 <= added_count
        /\ exists w2,
             process_collected_tasks clock w1 = (w2, Ok 0)
             /\ remote w2 = remote w1).
Proof.
  intros Hclock Hwd.
  rewrite process_collected_tasks_unfold.
  pose proof (sort_desc_Forall _ _ Hwd) as Hsorted.
  assert (Forall parses (sort_desc (all_tasks w))) as Hparses.
  { eapply Forall_impl; [|exact Hsorted]. apply well_dated_parses. }
  split.
  - intros Hdue.
    destruct (submit_loop_returns clock _ Hparses 0
                (mkWorld (sort_desc (all_tasks w)) (remote w) (calls w) (ticks w))
                Hdue)
      as (w1 & n & Hrun & _).
    now exists w1, n.
  - intros w1 n Hrun.
    destruct (first_pass clock today Hclock _ Hsorted _ _ _ _ Hrun)
      as (Hle & Hcoll & _ & Hall).
    split; [exact Hle|].
    cbn [all_tasks] in Hcoll.
    assert (Forall parses (sort_desc (all_tasks w1))) as Hp.
    { apply sort_desc_Forall. now rewrite Hcoll. }
    assert (Forall (fun c => same_day today c = true \/ known (remote w1) c = true)
                   (sort_desc (all_tasks w1))) as Hall'.
    { apply sort_desc_Forall. now rewrite Hcoll. }
    destruct (second_pass clock today Hclock _ Hp 0
                (mkWorld (sort_desc (all_tasks w1)) (remote w1) (calls w1) (ticks w1))
                Hall')
      as (w2 & Hrun2 & Hrem & _).
    exists w2. rewrite process_collected_tasks_unfold, Hrun2. auto.
Qed.

Lemma resubmission_adds_nothing_witness :
  let w := Sample.world [Sample.physics_jan5; Sample.maths_jan7; Sample.physics_jan6]
                        [Sample.remote_physics_jan6] in
  (forall i, dt_date (Sample.clock_jan5 i) = mkdate 2024 1 5)
  /\ Forall well_dated (all_tasks w)
  /\ all_due (listed w)
  /\ exists w1 w2,
       process_collected_tasks Sample.clock_jan5 w = (w1, Ok 1)
       /\ process_collected_tasks Sample.clock_jan5 w1 = (w2, Ok 0)
       /\ remote w2 = remote w1.
Proof.
  intros w.
  assert (forall i, dt_date (Sample.clock_jan5 i) = mkdate 2024 1 5) as Hclock
      by (intros i; reflexivity).
  assert (Forall well_dated (all_tasks w)) as Hwd
      by (repeat constructor; vm_compute; reflexivity).
  assert (all_due (listed w)) as Hdue by (repeat constructor; discriminate).
  split; [exact Hclock|]. split; [exact Hwd|]. split; [exact Hdue|].
  destruct (resubmission_adds_nothing Sample.clock_jan5 (mkdate 2024 1 5) w Hclock Hwd)
    as [Hreturns Hsecond].
  destruct (Hreturns Hdue) as (w1 & n & Hrun).
  assert (n = 1) as ->.
  { assert (snd (process_collected_tasks Sample.clock_jan5 w) = Ok 1) as H1
        by (vm_compute; reflexivity).
    rewrite Hrun in H1. now injection H1. }
  destruct (Hsecond w1 1 Hrun) as (_ & w2 & Hrun2 & Hrem).
  now exists w1, w2.
Defined.

(** C3, as stated, fails when midnight passes between the two runs: a
    candidate due on the day of the first run is skipped by rule A, and
    inserted by the second run, which returns 1. *)
Lemma resubmission_after_midnight :
  let first := process_collected_tasks Sample.clock_overnight
                                       (Sample.world [Sample.physics_jan5] []) in
  let second := process_collected_tasks Sample.clock_overnight (fst first) in
  snd first = Ok 0 /\ snd second = Ok 1.
Proof.
  vm_compute. split; reflexivity.
Qed.

(** Outside the canonical form: a date written without padding, which
    [strptime] reads, is sent under a due that does not start with it,
    and is inserted again by a second run. *)
Lemma unpadded_date_inserted_twice :
  let first := process_collected_tasks Sample.clock_jan5
                                       (Sample.world [Sample.maths_unpadded] []) in
  let second := process_collected_tasks Sample.clock_jan5 (fst first) in
  canonical (Task.date Sample.maths_unpadded) = false
  /\ snd first = Ok 1 /\ snd second = Ok 1.
Proof.
  vm_compute. repeat split; reflexivity.
Qed.

(** C5, as amended: duplicates within one batch.  In a run within one
    calendar day, on a collection with canonical dates, take a candidate
    that is not due today and for which rule B finds no task in the
    remote list.  When the run returns, it has inserted exactly one task
    for it, however many candidates of the collection have its title and
    date: the list is queried again at every turn, and the second of two
    such candidates finds the task inserted for the first.  The run does
    return when every task listed has a due date. *)
Theorem duplicates_inserted_once
        (clock : nat -> datetime) (today : date) (w : World) (c : Task.t) :
  (forall i, dt_date (clock i) = today) ->
  Forall well_dated (all_tasks w) ->
  In c (all_tasks w) ->
  same_day today c = false ->
  known (remote w) c = false ->
  (all_due (listed w) ->
     exists w' added_count, process_collected_tasks clock w = (w', Ok added_count))
  /\ (forall w' added_count,
        process_collected_tasks clock w = (w', Ok added_count) ->
        exists issued,
          calls w' = (calls w ++ issued)%list
          /\ inserts_for c issued = 1%nat).
Proof.
  intros Hclock Hwd Hin Hday Hknown.
  rewrite process_collected_tasks_unfold.
  pose proof (sort_desc_Forall _ _ Hwd) as Hsorted.
  split.
  - intros Hdue.
    assert (Forall parses (sort_desc (all_tasks w))) as Hparses.
    { eapply Forall_impl; [|exact Hsorted]. apply well_dated_parses. }
    destruct (submit_loop_returns clock _ Hparses 0
                (mkWorld (sort_desc (all_tasks w)) (remote w) (calls w) (ticks w))
                Hdue)
      as (w' & n & Hrun & _).
    now exists w', n.
  - intros w' n Hrun.
    destruct (loop_inserts clock today Hclock _ Hsorted _ _ _ _ Hrun)
      as (issued & Hcalls & Hcount).
    exists issued. split; [exact Hcalls|].
    rewrite Forall_forall in Hwd.
    rewrite (Hcount c (Hwd c Hin) Hday). cbn [remote]. rewrite Hknown.
    replace (existsb (same_key c) (sort_desc (all_tasks w))) with true; [reflexivity|].
    symmetry. apply existsb_exists. exists c. split.
    + now apply sort_desc_In.
    + apply same_key_refl.
Qed.

Lemma duplicates_inserted_once_witness :
  let w := Sample.world [Sample.maths_jan7; Sample.physics_jan6; Sample.maths_jan7] [] in
  exists w' issued,
    process_collected_tasks Sample.clock_jan5 w = (w', Ok 2)
    /\ calls w' = (calls w ++ issued)%list
    /\ inserts_for Sample.maths_jan7 issued = 1%nat.
Proof.
  intros w.
  destruct (duplicates_inserted_once Sample.clock_jan5 (mkdate 2024 1 5) w
              Sample.maths_jan7) as [Hreturns Hone].
  - intros i. reflexivity.
  - repeat constructor; vm_compute; reflexivity.
  - simpl. now left.
  - vm_compute. reflexivity.
  - vm_compute. reflexivity.
  - destruct (Hreturns (Forall_nil _)) as (w' & n & Hrun).
    assert (n = 2) as ->.
    { assert (snd (process_collected_tasks Sample.clock_jan5 w) = Ok 2) as H2
          by (vm_compute; reflexivity).
      rewrite Hrun in H2. now injection H2. }
    destruct (Hone w' 2 Hrun) as (issued & Hcalls & Hcount).
    now exists w', issued.
Defined.

(** C5, as stated, fails: with two candidates of the same title and date
    and an empty remote list, one task is inserted, not two. *)
Lemma duplicate_candidates_one_insert :
  let w := Sample.world [Sample.maths_jan7; Sample.maths_jan7] [] in
  known (remote w) Sample.maths_jan7 = false
  /\ snd (process_collected_tasks Sample.clock_jan5 w) = Ok 1
  /\ List.length (inserts (calls (fst (process_collected_tasks Sample.clock_jan5 w))))
     = 1%nat
  /\ List.length (inserts (calls (fst (process_collected_tasks Sample.clock_jan5 w))))
     <> 2%nat.
Proof.
  vm_compute. repeat split; try reflexivity. discriminate.
Qed.


(** *** Rule A on a whole batch *)

(** Within one calendar day, the candidates due that day could as well
    not be in the collection: the run returns the same count, makes the
    same calls and leaves the same remote list. *)
Lemma submit_loop_without_same_day
      (clock : nat -> datetime) (today : date)
      (Hclock : forall i, dt_date (clock i) = today) (l : list Task.t) :
  forall (k : Z) (w v : World),
    remote w = remote v -> calls w = calls v ->
    let full := submit_loop clock l k w in
    let rest := submit_loop clock
                            (filter (fun c => negb (same_day today c)) l) k v in
    snd full = snd rest
    /\ remote (fst full) = remote (fst rest)
    /\ calls (fst full) = calls (fst rest).
Proof.
  induction l as [|c l IH]; intros k w v Hr Hc; cbn zeta.
  - simpl. auto.
  - cbn [filter]. destruct (same_day today c) eqn:D; cbn [negb];
      unfold same_day in D; destruct (strptime (Task.date c)) as [t|e] eqn:P;
      try discriminate.
    + rewrite submit_loop_cons.
      rewrite (add_task_today clock _ _ (Task.notes c) w t P)
        by now rewrite Hclock.
      apply IH; assumption.
    + rewrite !submit_loop_cons.
      assert (listed w = listed v) as Hl by (unfold listed; now rewrite Hr).
      destruct (already_exists (listed w) (Task.title c) (Task.date c))
        as [[|]|e] eqn:X.
      * rewrite (add_task_found clock _ _ (Task.notes c) w t P)
          by (rewrite ?Hclock; assumption).
        rewrite (add_task_found clock _ _ (Task.notes c) v t P)
          by (rewrite ?Hclock, <- ?Hl; assumption).
        apply IH; cbn [remote calls]; congruence.
      * rewrite (add_task_inserted clock _ _ (Task.notes c) w t P)
          by (rewrite ?Hclock; assumption).
        rewrite (add_task_inserted clock _ _ (Task.notes c) v t P)
          by (rewrite ?Hclock, <- ?Hl; assumption).
        apply IH; cbn [remote calls]; congruence.
      * rewrite (add_task_no_due clock _ _ (Task.notes c) w t e P)
          by (rewrite ?Hclock; assumption).
        rewrite (add_task_no_due clock _ _ (Task.notes c) v t e P)
          by (rewrite ?Hclock, <- ?Hl; assumption).
        cbn [fst snd remote calls]. repeat split; congruence.
    + rewrite !submit_loop_cons.
      rewrite !(add_task_unparsed clock _ _ _ _ _ P). cbn [fst snd]. auto.
Qed.

Lemma same_day_candidates_transparent
      (clock : nat -> datetime) (today : date) (w : World) :
  (forall i, dt_date (clock i) = today) ->
  let kept := filter (fun c => negb (same_day today c)) (all_tasks w) in
  let full := process_collected_tasks clock w in
  let rest := process_collected_tasks
                clock (mkWorld kept (remote w) (calls w) (ticks w)) in
  snd full = snd rest
  /\ remote (fst full) = remote (fst rest)
  /\ calls (fst full) = calls (fst rest).
Proof.
  intros Hclock. cbn zeta. rewrite !process_collected_tasks_unfold.
  cbn [all_tasks remote calls ticks].
  rewrite <- sort_desc_filter.
  apply (submit_loop_without_same_day clock today Hclock); reflexivity.
Qed.

End Batch.

(** ** The homework normalizer *)

Section HomeworkPath.

Import Calendar FormatFacts.

Variable clock : nat -> datetime.
Variable homework_detail : string -> result (list (string * string)).

(** [_process_single_homework], path by path. *)
Lemma homework_blank (homework : Homework.t) (w : World) :
  PyStr.split (Homework.completion_date homework) = [] ->
  _process_single_homework clock homework_detail homework w = (w, Raise IndexError).
Proof.
  intros S. unfold _process_single_homework, bind, lift. now rewrite S.
Qed.

Lemma homework_unparsed (homework : Homework.t) (w : World)
      (completion_date : string) (more : list string) (e : exn) :
  PyStr.split (Homework.completion_date homework) = completion_date :: more ->
  strptime completion_date = Raise e ->
  _process_single_homework clock homework_detail homework w = (w, Ok tt).
Proof.
  intros S P. pose proof (strptime_raises _ _ P) as ->.
  unfold _process_single_homework, bind, lift, try_except. now rewrite S, P.
Qed.

Lemma homework_not_later (homework : Homework.t) (w : World)
      (completion_date : string) (more : list string) (t : datetime) :
  PyStr.split (Homework.completion_date homework) = completion_date :: more ->
  strptime completion_date = Ok t ->
  date_ltb (dt_date (clock (ticks w))) (dt_date t) = false ->
  _process_single_homework clock homework_detail homework w = (tick w, Ok tt).
Proof.
  intros S P L.
  unfold _process_single_homework, bind, lift, try_except, now. rewrite S, P.
  cbn.
  destruct (date_eqb (dt_date t) (dt_date (clock (ticks w)))) eqn:E; [reflexivity|].
  destruct (date_ltb (dt_date t) (dt_date (clock (ticks w)))) eqn:L'; [reflexivity|].
  pose proof (CalendarFacts.date_total _ _ E L'). congruence.
Qed.

Lemma homework_later (homework : Homework.t) (w : World)
      (completion_date : string) (more : list string) (t : datetime) :
  PyStr.split (Homework.completion_date homework) = completion_date :: more ->
  strptime completion_date = Ok t ->
  date_ltb (dt_date (clock (ticks w))) (dt_date t) = true ->
  _process_single_homework clock homework_detail homework w
  = match homework_detail (Homework.href homework) with
    | Ok details =>
        (mkWorld
           (all_tasks w
            ++ [Task.mk ("zadanie - " ++ Homework.lesson homework)
                        completion_date
                        (PyStr.join PyStr.newline
                           (map format_item
                                (filter (fun kv => truthy (snd kv)) details)))])
           (remote w) (calls w) (S (ticks w)),
         Ok tt)
    | Raise e => (tick w, Raise e)
    end.
Proof.
  intros S P L.
  unfold _process_single_homework, bind, lift, try_except, now. rewrite S, P.
  cbn.
  rewrite (CalendarFacts.date_ltb_asym _ _ L).
  replace (date_eqb (dt_date t) (dt_date (clock (ticks w)))) with false.
  - cbn. destruct (homework_detail (Homework.href homework)); reflexivity.
  - symmetry. apply not_true_iff_false. intros E.
    apply CalendarFacts.date_eqb_eq in E. rewrite E in L.
    rewrite CalendarFacts.date_ltb_irrefl in L. discriminate.
Qed.

(** C6: the homework filter.  [_process_single_homework] appends a
    candidate only for a row whose completion date, the first word of the
    field, parses and is strictly later than the current date; a row
    dated today or earlier leaves the collection as it was. *)
Theorem homework_filter_strictly_future (homework : Homework.t) (w : World) :
  let today := dt_date (clock (ticks w)) in
  let w' := fst (_process_single_homework clock homework_detail homework w) in
  (forall c,
      all_tasks w' = (all_tasks w ++ [c])%list ->
      exists more t,
        PyStr.split (Homework.completion_date homework) = Task.date c :: more
        /\ strptime (Task.date c) = Ok t
        /\ date_ltb today (dt_date t) = true)
  /\ (all_tasks w' = all_tasks w \/ exists c, all_tasks w' = (all_tasks w ++ [c])%list)
  /\ (forall completion_date more t,
         PyStr.split (Homework.completion_date homework) = completion_date :: more ->
         strptime completion_date = Ok t ->
         date_leb (dt_date t) today = true ->
         _process_single_homework clock homework_detail homework w = (tick w, Ok tt)).
Proof.
  intros today w'.
  assert (forall l (c : Task.t), l = (l ++ [c])%list -> False) as Hgrow.
  { intros l c H. apply (f_equal (@List.length _)) in H.
    rewrite length_app in H. simpl in H. lia. }
  destruct (PyStr.split (Homework.completion_date homework))
    as [|completion_date more] eqn:S.
  { subst w'. rewrite (homework_blank _ _ S). cbn [fst].
    split; [|split].
    - intros c H. exfalso. eapply Hgrow; eassumption.
    - now left.
    - discriminate. }
  destruct (strptime completion_date) as [t|e] eqn:P.
  2:{ subst w'. rewrite (homework_unparsed _ _ _ _ _ S P). cbn [fst].
      split; [|split].
      - intros c H. exfalso. eapply Hgrow; eassumption.
      - now left.
      - intros cd more' t' H1 H2 _. injection H1 as <- <-. congruence. }
  destruct (date_ltb today (dt_date t)) eqn:L.
  - subst w'. rewrite (homework_later _ _ _ _ _ S P L).
    destruct (homework_detail (Homework.href homework)) as [details|e]; cbn [fst all_tasks tick].
    + split; [|split].
      * intros c H. apply app_inv_head in H. injection H as <-.
        exists more, t. auto.
      * right. eexists. reflexivity.
      * intros cd more' t' H1 H2 H3. injection H1 as <- <-.
        rewrite P in H2. injection H2 as <-.
        unfold date_leb in H3. fold today in H3. rewrite L in H3. discriminate.
    + split; [|split].
      * intros c H. exfalso. eapply Hgrow; eassumption.
      * now left.
      * intros cd more' t' H1 H2 H3. injection H1 as <- <-.
        rewrite P in H2. injection H2 as <-.
        unfold date_leb in H3. fold today in H3. rewrite L in H3. discriminate.
  - subst w'. rewrite (homework_not_later _ _ _ _ _ S P L). cbn [fst all_tasks tick].
    split; [|split].
    + intros c H. exfalso. eapply Hgrow; eassumption.
    + now left.
    + reflexivity.
Qed.

End HomeworkPath.

Lemma homework_filter_strictly_future_witness :
  let w := Sample.world [] [] in
  (exists more t,
      PyStr.split (Homework.completion_date Sample.homework_jan7)
      = "2024-01-07" :: more
      /\ Calendar.strptime "2024-01-07" = Ok t
      /\ Calendar.date_ltb (Calendar.dt_date Sample.jan5) (Calendar.dt_date t) = true)
  /\ _process_single_homework Sample.clock_jan5 Sample.details Sample.homework_jan5 w
     = (tick w, Ok tt).
Proof.
  intros w. split.
  - destruct (homework_filter_strictly_future
                Sample.clock_jan5 Sample.details Sample.homework_jan7 w)
      as (Hadded & _ & _).
    apply (Hadded Sample.maths_jan7). reflexivity.
  - destruct (homework_filter_strictly_future
                Sample.clock_jan5 Sample.details Sample.homework_jan5 w)
      as (_ & _ & Hdropped).
    apply (Hdropped "2024-01-05" ["08:00:00"]
                    (Calendar.midnight (Calendar.mkdate 2024 1 5)));
      reflexivity.
Defined.

(** ** Keeping a property along a computation *)

Section Preservation.

Context {A B : Type} (I : World -> Prop).

Lemma preserves_ret (a : A) : preserves I (ret a).
Proof. intros w Hw. exact Hw. Qed.

Lemma preserves_lift (r : result A) : preserves I (lift r).
Proof. intros w Hw. exact Hw. Qed.

Lemma preserves_bind (m : M A) (k : A -> M B) :
  preserves I m -> (forall a, preserves I (k a)) -> preserves I (bind m k).
Proof.
  intros Hm Hk w Hw. unfold bind. specialize (Hm w Hw).
  destruct (m w) as [w' [a|e]]; cbn [fst] in *; [now apply Hk | exact Hm].
Qed.

Lemma preserves_try_except (m : M A) (h : exn -> option (M A)) :
  preserves I m ->
  (forall e handler, h e = Some handler -> preserves I handler) ->
  preserves I (try_except m h).
Proof.
  intros Hm Hh w Hw. unfold try_except. specialize (Hm w Hw).
  destruct (m w) as [w' [a|e]]; cbn [fst] in *; [exact Hm|].
  destruct (h e) as [handler|] eqn:E; [|exact Hm].
  now apply (Hh e handler E).
Qed.

End Preservation.

Lemma preserves_for_each {A} (I : World -> Prop) (items : list A) (body : A -> M unit) :
  (forall x, preserves I (body x)) -> preserves I (for_each items body).
Proof.
  intros Hb. induction items as [|x rest IH]; cbn [for_each].
  - apply preserves_ret.
  - apply preserves_bind; [apply Hb | intros _; exact IH].
Qed.

Lemma for_each_cons {A} (x : A) (rest : list A) (body : A -> M unit) (w : World) :
  for_each (x :: rest) body w
  = match body x w with
    | (w', Ok _) => for_each rest body w'
    | (w', Raise e) => (w', Raise e)
    end.
Proof. reflexivity. Qed.

(** ** The collection during a run *)

Section Collecting.

Import Calendar FormatFacts.

Variable clock : nat -> datetime.
Variable get_schedule : string -> string -> result (list (Z * list Event.t)).
Variable get_homework : string -> string -> result (list Homework.t).
Variable homework_detail : string -> result (list (string * string)).
Variable setup : Setup.
Variable lo : nat.

Lemma not_before_yesterday_later (hi hi' : nat) (c : Task.t) :
  (hi <= hi')%nat ->
  not_before_yesterday clock lo hi c -> not_before_yesterday clock lo hi' c.
Proof.
  intros Hle (i & t & Hi & P & L). exists i, t. repeat split; auto; lia.
Qed.

Lemma collecting_later (w : World) (n : nat) :
  (ticks w <= n)%nat ->
  collecting clock lo w ->
  collecting clock lo (mkWorld (all_tasks w) (remote w) (calls w) n).
Proof.
  intros Hle [Hlo Hall]. split; cbn [ticks all_tasks]; [lia|].
  eapply Forall_impl; [|exact Hall].
  intros c. now apply not_before_yesterday_later.
Qed.

Lemma collecting_append (w : World) (c : Task.t) :
  collecting clock lo w ->
  not_before_yesterday clock lo (S (ticks w)) c ->
  collecting clock lo
             (mkWorld (all_tasks w ++ [c]) (remote w) (calls w) (S (ticks w))).
Proof.
  intros [Hlo Hall] Hc. split; cbn [ticks all_tasks]; [lia|].
  apply Forall_app. split; [|now constructor].
  eapply Forall_impl; [|exact Hall].
  intros c'. apply not_before_yesterday_later. lia.
Qed.

Lemma preserves_now : preserves (collecting clock lo) (now clock).
Proof. intros w Hw. unfold now. cbn [fst]. apply collecting_later; [lia | exact Hw]. Qed.

(** The day before, as [datetime_add_days] computes it. *)
Lemma datetime_add_days_yesterday (t limit : datetime) :
  datetime_add_days t (-1) = Ok limit ->
  dt_date limit = pred_day (dt_date t).
Proof.
  unfold datetime_add_days, add_days.
  change (shift_days (-1 <? 0) (Z.abs_nat (-1)) (dt_date t))
    with (pred_day (dt_date t)).
  destruct ((1 <=? year (pred_day (dt_date t)))
            && (year (pred_day (dt_date t)) <=? 9999)); [|discriminate].
  intros H. injection H as <-. reflexivity.
Qed.

Lemma datetime_ltb_false_date (a b : datetime) :
  datetime_ltb a b = false -> date_ltb (dt_date a) (dt_date b) = false.
Proof.
  unfold datetime_ltb. intros H. apply orb_false_iff in H. tauto.
Qed.

(** The homework normalizer keeps the collection in order. *)
Lemma homework_collecting (homework : Homework.t) :
  preserves (collecting clock lo)
            (_process_single_homework clock homework_detail homework).
Proof.
  intros w Hw.
  destruct (PyStr.split (Homework.completion_date homework))
    as [|completion_date more] eqn:S.
  { now rewrite (homework_blank _ _ _ _ S). }
  destruct (strptime completion_date) as [t|e] eqn:P.
  2:{ now rewrite (homework_unparsed _ _ _ _ _ _ _ S P). }
  destruct (date_ltb (dt_date (clock (ticks w))) (dt_date t)) eqn:L.
  - rewrite (homework_later _ _ _ _ _ _ _ S P L).
    destruct (homework_detail (Homework.href homework)) as [details|e]; cbn [fst].
    + apply collecting_append; [exact Hw|].
      exists (ticks w), t. destruct Hw as [Hlo _].
      repeat split; auto; try lia.
      apply not_true_iff_false. intros Hbefore.
      pose proof (CalendarFacts.pred_day_lt (dt_date (clock (ticks w)))) as Hy.
      pose proof (CalendarFacts.date_ltb_trans _ _ _ Hbefore Hy) as Hlt.
      rewrite (CalendarFacts.date_ltb_asym _ _ L) in Hlt. discriminate.
    + apply collecting_later; [cbn; lia | exact Hw].
  - rewrite (homework_not_later _ _ _ _ _ _ _ S P L). cbn [fst].
    apply collecting_later; [cbn; lia | exact Hw].
Qed.

Lemma process_homework_collecting :
  preserves (collecting clock lo)
            (process_homework clock get_homework homework_detail).
Proof.
  unfold process_homework.
  repeat (apply preserves_bind; [first [apply preserves_now | apply preserves_lift]|]; intros ?).
  apply preserves_try_except.
  - apply preserves_bind; [apply preserves_lift|]. intros rows.
    apply preserves_for_each. apply homework_collecting.
  - intros e handler H. injection H as <-. apply preserves_ret.
Qed.


(** *** The schedule normalizer *)

(** One event of a day, path by path. *)
Lemma day_event_ignored (event : Event.t) (day : Z) (month year : string) (w : World) :
  truthy (Event.title event) && is_test_title (Event.title event) = false ->
  _process_day_events clock [event] day month year w = (w, Ok tt).
Proof.
  intros H. unfold _process_day_events. cbn [for_each]. unfold bind.
  destruct (truthy (Event.title event)); cbn [negb andb] in *; [|reflexivity].
  rewrite H. reflexivity.
Qed.

Lemma day_event_unparsed (event : Event.t) (day : Z) (month year : string)
      (w : World) (e : exn) :
  truthy (Event.title event) && is_test_title (Event.title event) = true ->
  strptime (event_date_of year month day) = Raise e ->
  _process_day_events clock [event] day month year w = (w, Raise e).
Proof.
  intros H P. apply andb_true_iff in H. destruct H as [H1 H2].
  unfold _process_day_events. cbn [for_each]. unfold bind, lift.
  rewrite H1, H2. cbn [negb]. unfold event_date_of in P. now rewrite P.
Qed.

Lemma day_event_overflow (event : Event.t) (day : Z) (month year : string)
      (w : World) (t : datetime) (e : exn) :
  truthy (Event.title event) && is_test_title (Event.title event) = true ->
  strptime (event_date_of year month day) = Ok t ->
  datetime_add_days (clock (ticks w)) (-1) = Raise e ->
  _process_day_events clock [event] day month year w = (tick w, Raise e).
Proof.
  intros H P D. apply andb_true_iff in H. destruct H as [H1 H2].
  unfold _process_day_events. cbn [for_each]. unfold bind, lift, now.
  rewrite H1, H2. cbn [negb]. unfold event_date_of in P. rewrite P.
  cbn [ticks]. now rewrite D.
Qed.

Lemma day_event_old (event : Event.t) (day : Z) (month year : string)
      (w : World) (t limit : datetime) :
  truthy (Event.title event) && is_test_title (Event.title event) = true ->
  strptime (event_date_of year month day) = Ok t ->
  datetime_add_days (clock (ticks w)) (-1) = Ok limit ->
  datetime_ltb t limit = true ->
  _process_day_events clock [event] day month year w = (tick w, Ok tt).
Proof.
  intros H P D L. apply andb_true_iff in H. destruct H as [H1 H2].
  unfold _process_day_events. cbn [for_each]. unfold bind, lift, now.
  rewrite H1, H2. cbn [negb]. unfold event_date_of in P. rewrite P.
  cbn [ticks]. rewrite D, L. reflexivity.
Qed.

Lemma day_event_added (event : Event.t) (day : Z) (month year : string)
      (w : World) (t limit : datetime) :
  truthy (Event.title event) && is_test_title (Event.title event) = true ->
  strptime (event_date_of year month day) = Ok t ->
  datetime_add_days (clock (ticks w)) (-1) = Ok limit ->
  datetime_ltb t limit = false ->
  exists c,
    Task.date c = event_date_of year month day
    /\ _process_day_events clock [event] day month year w
       = (mkWorld (all_tasks w ++ [c]) (remote w) (calls w) (S (ticks w)), Ok tt).
Proof.
  intros H P D L. apply andb_true_iff in H. destruct H as [H1 H2].
  unfold _process_day_events. cbn [for_each]. unfold bind, lift, now.
  rewrite H1, H2. cbn [negb]. unfold event_date_of in *. rewrite P.
  cbn [ticks]. rewrite D, L.
  unfold _add_event_task, append_task. cbn [all_tasks remote calls ticks].
  eexists. split; [|reflexivity]. reflexivity.
Qed.

Lemma day_events_cons (event : Event.t) (rest : list Event.t) (day : Z)
      (month year : string) (w : World) :
  _process_day_events clock (event :: rest) day month year w
  = match _process_day_events clock [event] day month year w with
    | (w', Ok _) => _process_day_events clock rest day month year w'
    | (w', Raise e) => (w', Raise e)
    end.
Proof.
  unfold _process_day_events. rewrite !for_each_cons. cbn [for_each]. unfold ret.
  match goal with |- context [match ?b w with _ => _ end] => destruct (b w) as [w' [[]|e]] end;
    reflexivity.
Qed.

Lemma day_event_collecting (event : Event.t) (day : Z) (month year : string) :
  preserves (collecting clock lo)
            (_process_day_events clock [event] day month year).
Proof.
  intros w Hw.
  destruct (truthy (Event.title event) && is_test_title (Event.title event)) eqn:F.
  2:{ now rewrite (day_event_ignored _ _ _ _ _ F). }
  destruct (strptime (event_date_of year month day)) as [t|e] eqn:P.
  2:{ now rewrite (day_event_unparsed _ _ _ _ _ _ F P). }
  destruct (datetime_add_days (clock (ticks w)) (-1)) as [limit|e] eqn:D.
  2:{ rewrite (day_event_overflow _ _ _ _ _ _ _ F P D). cbn [fst].
      apply collecting_later; [cbn; lia | exact Hw]. }
  destruct (datetime_ltb t limit) eqn:L.
  - rewrite (day_event_old _ _ _ _ _ _ _ F P D L). cbn [fst].
    apply collecting_later; [cbn; lia | exact Hw].
  - destruct (day_event_added _ _ _ _ _ _ _ F P D L) as (c & Hc & ->). cbn [fst].
    apply collecting_append; [exact Hw|].
    exists (ticks w), t. destruct Hw as [Hlo _].
    repeat split; try lia.
    + now rewrite Hc.
    + rewrite <- (datetime_add_days_yesterday _ _ D).
      now apply datetime_ltb_false_date.
Qed.

Lemma day_events_collecting (events : list Event.t) (day : Z) (month year : string) :
  preserves (collecting clock lo)
            (_process_day_events clock events day month year).
Proof.
  induction events as [|event rest IH]; intros w Hw.
  - exact Hw.
  - rewrite day_events_cons.
    pose proof (day_event_collecting event day month year w Hw) as H1.
    destruct (_process_day_events clock [event] day month year w) as [w' [[]|e]];
      cbn [fst] in *; [now apply IH | exact H1].
Qed.

Lemma process_schedule_collecting :
  preserves (collecting clock lo) (process_schedule clock get_schedule).
Proof.
  unfold process_schedule.
  apply preserves_bind; [apply preserves_now|]. intros current_date.
  apply preserves_bind; [apply preserves_lift|]. intros schedule.
  apply preserves_for_each. intros [day events].
  destruct events as [|event rest]; [apply preserves_ret|].
  apply day_events_collecting.
Qed.

(** *** Submission leaves the collection alone *)

Lemma add_task_collecting (event_title event_date notes : string) :
  preserves (collecting clock lo)
            (add_task_if_not_exists clock event_title event_date notes).
Proof.
  intros w Hw.
  pose proof (add_task_turn clock (Task.mk event_title event_date notes) w) as T.
  cbn [Task.title Task.date Task.notes] in T.
  destruct (add_task_if_not_exists clock event_title event_date notes w) as [w' r].
  cbn [fst snd] in *.
  inversion T; subst; try exact Hw;
    (apply (collecting_later w (S (ticks w))); [lia | exact Hw])
    || (destruct Hw as [Hlo Hall]; split; cbn [ticks all_tasks]; [lia|];
        eapply Forall_impl; [|exact Hall];
        intros c'; apply not_before_yesterday_later; lia).
Qed.

Lemma submit_loop_collecting (l : list Task.t) :
  forall k, preserves (collecting clock lo) (submit_loop clock l k).
Proof.
  induction l as [|c rest IH]; intros k.
  - apply preserves_ret.
  - cbn [submit_loop]. apply preserves_bind; [apply add_task_collecting|].
    intros added. apply IH.
Qed.

Lemma process_collected_tasks_collecting :
  preserves (collecting clock lo) (process_collected_tasks clock).
Proof.
  intros w Hw. rewrite process_collected_tasks_unfold.
  assert (collecting clock lo
            (mkWorld (sort_desc (all_tasks w)) (remote w) (calls w) (ticks w)))
    as Hs.
  { destruct Hw as [Hlo Hall]. split; [exact Hlo|]. cbn [all_tasks ticks].
    now apply SortFacts.sort_desc_Forall. }
  pose proof (submit_loop_collecting (sort_desc (all_tasks w)) 0 _ Hs) as H.
  (* the loop runs on the sorted collection, whatever the world holds *)
  exact H.
Qed.

(** A run, after its first reading of the clock: the start, then the
    three phases on an empty collection. *)
Lemma main_unfold (w : World) :
  main clock setup get_schedule get_homework homework_detail w
  = match start_up setup with
    | Ok _ =>
        match process_schedule clock get_schedule
                               (mkWorld [] (remote w) (calls w) (S (ticks w))) with
        | (w1, Ok _) =>
            match process_homework clock get_homework homework_detail w1 with
            | (w2, Ok _) => process_collected_tasks clock w2
            | (w2, Raise e) => (w2, Raise e)
            end
        | (w1, Raise e) => (w1, Raise e)
        end
    | Raise e => (mkWorld [] (remote w) (calls w) (S (ticks w)), Raise e)
    end.
Proof.
  unfold main, new_sync, new_object, reset_all_tasks, start_up, bind, lift, now,
    raise, ret.
  cbn [all_tasks remote calls ticks fst snd].
  destruct (tasks_manager setup) as [[]|e]; [|reflexivity].
  destruct (LIBRUS_LOGIN setup) as [[|a username]|]; try reflexivity;
    destruct (LIBRUS_PASSWORD setup) as [[|b password]|]; try reflexivity.
  destruct (new_client setup) as [[]|e]; [|reflexivity].
  cbn [fst snd].
  destruct (get_token setup (String a username) (String b password)) as [[]|e];
    reflexivity.
Qed.

(** During a run of [main] started at reading [lo], the collection holds
    only candidates that are not before the day before. *)
Lemma main_collecting (w : World) :
  ticks w = lo ->
  collecting clock lo
             (fst (main clock setup get_schedule get_homework homework_detail w)).
Proof.
  intros Hlo. rewrite main_unfold.
  assert (collecting clock lo (mkWorld [] (remote w) (calls w) (S (ticks w)))) as H0.
  { split; cbn [ticks all_tasks]; [lia | constructor]. }
  destruct (start_up setup) as [[]|e]; [|exact H0].
  pose proof (process_schedule_collecting _ H0) as H1.
  destruct (process_schedule clock get_schedule _) as [w1 [[]|e]];
    cbn [fst] in *; [|exact H1].
  pose proof (process_homework_collecting _ H1) as H2.
  destruct (process_homework clock get_homework homework_detail w1) as [w2 [[]|e]];
    cbn [fst] in *; [|exact H2].
  now apply process_collected_tasks_collecting.
Qed.

End Collecting.

(** ** The normalizers and the dates they let through *)

Section Normalizers.

Import Calendar FormatFacts.

Lemma collecting_parses (clock : nat -> datetime) (lo : nat) (w : World) :
  collecting clock lo w -> Forall parses (all_tasks w).
Proof.
  intros [_ H]. eapply Forall_impl; [|exact H].
  intros c (i & t & _ & P & _). now exists t.
Qed.

(** C10: the dates of the collection always parse.  Starting from the
    empty collection of a new [LibrusSync], whatever the portal returns,
    every candidate that [process_schedule] and [process_homework] leave
    in the collection has a date that [strptime] reads; so every call of
    [add_task_if_not_exists] made by [process_collected_tasks] gets past
    its parse: [process_collected_tasks] raises nothing but the
    [KeyError] of a task without a due, and returns a count when every
    task listed has one. *)
Theorem collected_dates_always_parse
        (clock : nat -> datetime)
        (get_schedule : string -> string -> result (list (Z * list Event.t)))
        (get_homework : string -> string -> result (list Homework.t))
        (homework_detail : string -> result (list (string * string)))
        (w : World) :
  all_tasks w = [] ->
  let w1 := fst (process_schedule clock get_schedule w) in
  let w2 := fst (process_homework clock get_homework homework_detail w1) in
  Forall parses (all_tasks w1)
  /\ Forall parses (all_tasks w2)
  /\ (forall e, snd (process_collected_tasks clock w2) = Raise e -> e = KeyError)
  /\ (all_due (listed w2) ->
      exists w3 added_count,
        process_collected_tasks clock w2 = (w3, Ok added_count)).
Proof.
  intros Hempty w1 w2.
  assert (collecting clock (ticks w) w) as H0.
  { split; [lia|]. rewrite Hempty. constructor. }
  pose proof (process_schedule_collecting clock get_schedule (ticks w) w H0) as H1.
  pose proof (process_homework_collecting clock get_homework homework_detail
                (ticks w) _ H1) as H2.
  fold w1 in H1, H2. fold w2 in H2.
  apply collecting_parses in H1. pose proof (collecting_parses _ _ _ H2) as H2'.
  split; [exact H1|]. split; [exact H2'|].
  rewrite process_collected_tasks_unfold.
  pose proof (SortFacts.sort_desc_Forall _ _ H2') as Hsorted.
  split.
  - intros e He.
    destruct (submit_loop_outcome clock _ Hsorted 0
                (mkWorld (sort_desc (all_tasks w2)) (remote w2) (calls w2) (ticks w2)))
      as [Ho _].
    rewrite He in Ho. exact Ho.
  - intros Hdue.
    destruct (submit_loop_returns clock (sort_desc (all_tasks w2)) Hsorted 0
                (mkWorld (sort_desc (all_tasks w2)) (remote w2) (calls w2) (ticks w2))
                Hdue)
      as (w3 & n & Hrun & _).
    now exists w3, n.
Qed.

Lemma collected_dates_always_parse_witness :
  let w := Sample.world [] [] in
  let get_schedule := Sample.schedule_of [(5, [Sample.test_event; Sample.trip_event])] in
  let get_homework := Sample.homework_of [Sample.homework_garbled; Sample.homework_jan7] in
  let w1 := fst (process_schedule Sample.clock_jan5 get_schedule w) in
  let w2 := fst (process_homework Sample.clock_jan5 get_homework Sample.details w1) in
  all_tasks w = []
  /\ Forall parses (all_tasks w2)
  /\ exists w3 added_count,
       process_collected_tasks Sample.clock_jan5 w2 = (w3, Ok added_count).
Proof.
  intros w get_schedule get_homework w1 w2.
  split; [reflexivity|].
  destruct (collected_dates_always_parse
              Sample.clock_jan5 get_schedule get_homework Sample.details w eq_refl)
    as (_ & H2 & _ & H3).
  split; [exact H2|]. apply H3. vm_compute. constructor.
Defined.


(** *** Schedule events of today and of yesterday *)

Lemma format_Y_pad (y : Z) : 1000 <= y -> format_Y y = PyStr.pad 4 y.
Proof.
  intros Hy. unfold format_Y.
  now replace (y <? 1000) with false by (symmetry; apply Z.ltb_ge; lia).
Qed.

Lemma format_Ymd_iso (d : date) : 1000 <= year d -> format_Ymd d = isoformat_date d.
Proof. intros Hy. unfold format_Ymd, isoformat_date. now rewrite format_Y_pad. Qed.

Lemma event_date_of_month (t : datetime) (n : Z) :
  1000 <= year (dt_date t) ->
  0 <= n <= 99 ->
  event_date_of (strftime_Y t) (strftime_m t) n
  = isoformat_date (mkdate (year (dt_date t)) (month (dt_date t)) n).
Proof.
  intros Hy Hn. unfold event_date_of, isoformat_date, strftime_Y, strftime_m.
  cbn [year month day]. now rewrite zfill_str_pad, format_Y_pad.
Qed.

Lemma yesterday_of (t : datetime) :
  valid_date (dt_date t) = true -> 1000 <= year (dt_date t) ->
  datetime_add_days t (-1)
  = Ok (mkdatetime (pred_day (dt_date t)) (hour t) (minute t) (second t)
                   (microsecond t)).
Proof.
  intros Hv Hy. unfold datetime_add_days, add_days.
  change (shift_days (-1 <? 0) (Z.abs_nat (-1)) (dt_date t))
    with (pred_day (dt_date t)).
  pose proof (CalendarFacts.valid_date_bounds _ Hv) as (Hy' & Hm & Hd).
  replace ((1 <=? year (pred_day (dt_date t)))
           && (year (pred_day (dt_date t)) <=? 9999)) with true; [reflexivity|].
  symmetry. unfold pred_day.
  destruct (1 <? day (dt_date t)); [|destruct (1 <? month (dt_date t))];
    cbn [year]; CalendarFacts.zprop; lia.
Qed.

(** A test of today is collected: it is rule A that stops it, later. *)
Lemma today_event_collected (clock : nat -> datetime) (event : Event.t) (w : World) :
  let t := clock (ticks w) in
  valid_date (dt_date t) = true -> 1000 <= year (dt_date t) ->
  truthy (Event.title event) && is_test_title (Event.title event) = true ->
  exists c,
    Task.date c = isoformat_date (dt_date t)
    /\ _process_day_events clock [event] (day (dt_date t))
                           (strftime_m t) (strftime_Y t) w
       = (mkWorld (all_tasks w ++ [c]) (remote w) (calls w) (S (ticks w)), Ok tt).
Proof.
  intros t Hv Hy F.
  pose proof (CalendarFacts.valid_date_bounds _ Hv) as (_ & _ & Hday).
  pose proof (CalendarFacts.days_in_month_bounds (year (dt_date t)) (month (dt_date t)))
    as Hdim.
  assert (event_date_of (strftime_Y t) (strftime_m t) (day (dt_date t))
          = isoformat_date (dt_date t)) as Hd.
  { rewrite event_date_of_month by lia. now destruct (dt_date t). }
  assert (strptime (event_date_of (strftime_Y t) (strftime_m t) (day (dt_date t)))
          = Ok (midnight (dt_date t))) as P.
  { rewrite Hd. now apply strptime_isoformat_date. }
  destruct (day_event_added clock event (day (dt_date t)) (strftime_m t)
              (strftime_Y t) w _ _ F P (yesterday_of t Hv Hy)) as (c & Hc & Hrun).
  - unfold datetime_ltb. cbn [dt_date midnight].
    pose proof (CalendarFacts.pred_day_lt (dt_date t)) as Hlt.
    rewrite (CalendarFacts.date_ltb_asym _ _ Hlt). cbn [orb].
    replace (date_eqb (dt_date t) (pred_day (dt_date t))) with false; [reflexivity|].
    symmetry. apply not_true_iff_false. intros E.
    apply CalendarFacts.date_eqb_eq in E. rewrite <- E in Hlt.
    rewrite CalendarFacts.date_ltb_irrefl in Hlt. discriminate.
  - exists c. split; [congruence | exact Hrun].
Qed.

(** A test of yesterday is collected at midnight sharp, and dropped
    once the day has begun. *)
Lemma yesterday_event (clock : nat -> datetime) (event : Event.t) (w : World) :
  let t := clock (ticks w) in
  let yesterday := mkdate (year (dt_date t)) (month (dt_date t)) (day (dt_date t) - 1) in
  let run := _process_day_events clock [event] (day (dt_date t) - 1)
                                 (strftime_m t) (strftime_Y t) w in
  valid_date (dt_date t) = true -> 1000 <= year (dt_date t) ->
  1 < day (dt_date t) ->
  truthy (Event.title event) && is_test_title (Event.title event) = true ->
  (time_of_day t = 0 ->
   exists c,
     Task.date c = isoformat_date yesterday
     /\ run = (mkWorld (all_tasks w ++ [c]) (remote w) (calls w) (S (ticks w)), Ok tt))
  /\ (0 < time_of_day t -> run = (tick w, Ok tt)).
Proof.
  intros t yesterday run Hv Hy Hday F.
  pose proof (CalendarFacts.valid_date_bounds _ Hv) as (Hy' & Hm & Hd).
  assert (valid_date yesterday = true) as Hvy.
  { unfold valid_date, yesterday. cbn [year month day]. CalendarFacts.zprop. lia. }
  assert (pred_day (dt_date t) = yesterday) as Hpred.
  { unfold pred_day, yesterday. now apply Z.ltb_lt in Hday as ->. }
  assert (strptime (event_date_of (strftime_Y t) (strftime_m t) (day (dt_date t) - 1))
          = Ok (midnight yesterday)) as P.
  { rewrite event_date_of_month; [now apply strptime_isoformat_date | exact Hy|].
    pose proof (CalendarFacts.days_in_month_bounds (year (dt_date t))
                                                   (month (dt_date t))). lia. }
  pose proof (yesterday_of t Hv Hy) as D. rewrite Hpred in D.
  assert (datetime_ltb (midnight yesterday)
                       (mkdatetime yesterday (hour t) (minute t) (second t)
                                   (microsecond t))
          = (0 <? time_of_day t)) as L.
  { unfold datetime_ltb. cbn [dt_date midnight].
    now rewrite CalendarFacts.date_ltb_irrefl, CalendarFacts.date_eqb_refl. }
  split; intros Htime.
  - destruct (day_event_added clock event (day (dt_date t) - 1) (strftime_m t)
                (strftime_Y t) w _ _ F P D) as (c & Hc & Hrun).
    + rewrite L. apply Z.ltb_ge. lia.
    + exists c. split; [|exact Hrun].
      rewrite Hc, event_date_of_month; [reflexivity | exact Hy|].
      pose proof (CalendarFacts.days_in_month_bounds (year (dt_date t))
                                                     (month (dt_date t))). lia.
  - apply (day_event_old clock event (day (dt_date t) - 1) (strftime_m t)
             (strftime_Y t) w _ _ F P D).
    rewrite L. now apply Z.ltb_lt.
Qed.

(** C4, as amended: the dates of the candidates created during a run.
    Whatever the portal returns, a candidate is never added to the
    collection for a date strictly before yesterday.  A test of the
    schedule dated today is added to the collection (rule A stops it
    at submission); one dated yesterday is added when the clock reads
    midnight sharp, and dropped once the day has begun.  (Homework is
    added only when dated after today: that is C6.) *)
Theorem candidate_dates_during_run :
  (forall clock setup get_schedule get_homework homework_detail (w : World)
          (c : Task.t),
      let w' := fst (main clock setup get_schedule get_homework homework_detail w) in
      In c (all_tasks w') ->
      not_before_yesterday clock (ticks w) (ticks w') c)
  /\ (forall clock (event : Event.t) (w : World),
         let t := clock (ticks w) in
         valid_date (dt_date t) = true -> 1000 <= year (dt_date t) ->
         truthy (Event.title event) && is_test_title (Event.title event) = true ->
         exists c,
           Task.date c = isoformat_date (dt_date t)
           /\ _process_day_events clock [event] (day (dt_date t))
                                  (strftime_m t) (strftime_Y t) w
              = (mkWorld (all_tasks w ++ [c]) (remote w) (calls w) (S (ticks w)),
                 Ok tt))
  /\ (forall clock (event : Event.t) (w : World),
         let t := clock (ticks w) in
         let yesterday :=
           mkdate (year (dt_date t)) (month (dt_date t)) (day (dt_date t) - 1) in
         let run := _process_day_events clock [event] (day (dt_date t) - 1)
                                        (strftime_m t) (strftime_Y t) w in
         valid_date (dt_date t) = true -> 1000 <= year (dt_date t) ->
         1 < day (dt_date t) ->
         truthy (Event.title event) && is_test_title (Event.title event) = true ->
         (time_of_day t = 0 ->
          exists c,
            Task.date c = isoformat_date yesterday
            /\ run = (mkWorld (all_tasks w ++ [c]) (remote w) (calls w)
                              (S (ticks w)), Ok tt))
         /\ (0 < time_of_day t -> run = (tick w, Ok tt))).
Proof.
  split; [|split].
  - intros clock setup gs gh hd w c w' Hin.
    pose proof (main_collecting clock gs gh hd setup (ticks w) w eq_refl) as [_ Hall].
    rewrite Forall_forall in Hall. now apply Hall.
  - exact today_event_collected.
  - exact yesterday_event.
Qed.

Lemma candidate_dates_during_run_witness :
  let w := Sample.world [] [] in
  (exists c,
      Task.date c = "2024-01-05"
      /\ _process_day_events Sample.clock_jan5 [Sample.test_event] 5 "01" "2024" w
         = (mkWorld [c] [] [] 1, Ok tt))
  /\ (exists c,
         Task.date c = "2024-01-04"
         /\ _process_day_events Sample.clock_midnight [Sample.test_event] 4 "01" "2024" w
            = (mkWorld [c] [] [] 1, Ok tt))
  /\ _process_day_events Sample.clock_jan5 [Sample.test_event] 4 "01" "2024" w
     = (tick w, Ok tt).
Proof.
  intros w. destruct candidate_dates_during_run as (_ & Htoday & Hyesterday).
  split; [|split].
  - apply (Htoday Sample.clock_jan5 Sample.test_event w);
      [reflexivity | cbn; lia | reflexivity].
  - apply (Hyesterday Sample.clock_midnight Sample.test_event w);
      [reflexivity | cbn; lia | cbn; lia | reflexivity | reflexivity].
  - apply (Hyesterday Sample.clock_jan5 Sample.test_event w);
      [reflexivity | cbn; lia | cbn; lia | reflexivity | cbn; lia].
Defined.

(** C4, as stated, fails: a test of the schedule dated today is added to
    the collection, and is still there when the run ends, having been
    skipped by rule A. *)
Lemma same_day_event_is_collected :
  let get_schedule := Sample.schedule_of [(5, [Sample.test_event])] in
  let after_schedule :=
    fst (process_schedule Sample.clock_jan5 get_schedule (Sample.world [] [])) in
  let run := main Sample.clock_jan5 Sample.setup_ok get_schedule
                  (Sample.homework_of []) Sample.details (Sample.world [] []) in
  all_tasks after_schedule = [Sample.physics_jan5]
  /\ date_of (Task.date Sample.physics_jan5) = Some (dt_date Sample.jan5)
  /\ all_tasks (fst run) = [Sample.physics_jan5]
  /\ snd run = Ok 0.
Proof.
  vm_compute. repeat split; reflexivity.
Qed.

End Normalizers.

(** ** A batch of homework *)

Section HomeworkBatch.

Import Calendar FormatFacts.

Variable clock : nat -> datetime.
Variable homework_detail : string -> result (list (string * string)).

(** A row whose first word is not a date is skipped, and the loop of
    [process_homework] goes on with the next row. *)
Lemma unparsed_date_is_skipped
      (homework : Homework.t) (rows : list Homework.t) (w : World)
      (completion_date : string) (more : list string) (e : exn) :
  PyStr.split (Homework.completion_date homework) = completion_date :: more ->
  strptime completion_date = Raise e ->
  for_each (homework :: rows) (_process_single_homework clock homework_detail) w
  = for_each rows (_process_single_homework clock homework_detail) w.
Proof.
  intros S P. rewrite for_each_cons.
  now rewrite (homework_unparsed clock homework_detail _ _ _ _ _ S P).
Qed.

(** A row with no word at all in the field ends the loop. *)
Lemma blank_date_ends_loop
      (homework : Homework.t) (rows : list Homework.t) (w : World) :
  PyStr.split (Homework.completion_date homework) = [] ->
  for_each (homework :: rows) (_process_single_homework clock homework_detail) w
  = (w, Raise IndexError).
Proof.
  intros S. rewrite for_each_cons.
  now rewrite (homework_blank clock homework_detail _ _ S).
Qed.

End HomeworkBatch.

(** C8, where the code departs from it: a row whose completion date is
    empty.  With a garbled date first, the next row is processed and its
    candidate collected; with an empty date first, [split()[0]] raises
    outside the [try], the handler of [process_homework] ends the batch,
    and the next row is never looked at. *)
Theorem blank_date_aborts_batch :
  let run rows :=
    process_homework Sample.clock_jan5 (Sample.homework_of rows) Sample.details
                     (Sample.world [] []) in
  all_tasks (fst (run [Sample.homework_garbled; Sample.homework_jan7]))
  = [Sample.maths_jan7]
  /\ all_tasks (fst (run [Sample.homework_blank; Sample.homework_jan7])) = []
  /\ snd (run [Sample.homework_blank; Sample.homework_jan7]) = Ok tt.
Proof.
  vm_compute. repeat split; reflexivity.
Qed.

(** ** The notifier *)

(** C9: truncation.  When a webhook is configured, a description of more
    than 4096 characters is sent as its first 4093 characters followed by
    ["..."], which makes 4096; a description of 4096 characters or fewer is
    sent as it is. *)
Theorem description_truncation
        (webhook_url : string) (t : Calendar.datetime)
        (title description : string) (color : Z) :
  webhook_url <> "" ->
  exists embed,
    send_discord_embed (Some webhook_url) t title description color = Some embed
    /\ ((4096 < String.length description)%nat ->
        exists first rest,
          description = first ++ rest
          /\ String.length first = 4093%nat
          /\ embed_description embed = first ++ "..."
          /\ String.length (embed_description embed) = 4096%nat)
    /\ ((String.length description <= 4096)%nat ->
        embed_description embed = description).
Proof.
  intros Hurl. unfold send_discord_embed.
  destruct webhook_url as [|c url]; [congruence|].
  eexists. split; [reflexivity|]. cbn [embed_description].
  unfold max_desc_length.
  split; intros Hlen.
  - replace (4096 <? String.length description)%nat with true
      by (symmetry; apply Nat.ltb_lt; exact Hlen).
    destruct (StrFacts.take_split 4093 description) as [Hl [rest Hr]]; [lia|].
    change (4096 - 3)%nat with 4093%nat.
    exists (PyStr.take 4093 description), rest.
    repeat split; auto.
    rewrite StrFacts.length_append, Hl. reflexivity.
  - replace (4096 <? String.length description)%nat with false
      by (symmetry; apply Nat.ltb_ge; exact Hlen).
    reflexivity.
Qed.

Lemma description_truncation_witness :
  "https://discord.example/hook" <> ""
  /\ exists embed,
       send_discord_embed (Some "https://discord.example/hook") Sample.jan5
                          "Sukces" (PyStr.zeros 4100) 65280 = Some embed
       /\ String.length (embed_description embed) = 4096%nat.
Proof.
  assert ("https://discord.example/hook" <> "") as Hurl by discriminate.
  split; [exact Hurl|].
  destruct (description_truncation "https://discord.example/hook" Sample.jan5
              "Sukces" (PyStr.zeros 4100) 65280 Hurl)
    as (embed & Hsent & Hlong & _).
  exists embed. split; [exact Hsent|].
  destruct Hlong as (first & rest & _ & _ & _ & Hlen).
  - apply Nat.ltb_lt. vm_compute. reflexivity.
  - exact Hlen.
Defined.

(** ** What submission does to the remote list *)

Section Accounting.

Import Calendar FormatFacts SortFacts.

Variable clock : nat -> datetime.

Lemma inserts_app (a b : list (string * StoreCall)) :
  inserts (a ++ b) = (inserts a ++ inserts b)%list.
Proof. unfold inserts. apply flat_map_app. Qed.

(** The task sent for a candidate: the title and the notes of the
    candidate, not completed, due at midnight of its date. *)
Lemma new_task_due (event_title notes : string) (t : datetime) (s : string) :
  strptime s = Ok t ->
  RemoteTask.due (new_task event_title notes t)
  = Some (isoformat_date (dt_date t) ++ "T00:00:00Z").
Proof.
  intros P. apply strptime_ok in P. destruct P as [_ Hmid].
  unfold new_task. cbn [RemoteTask.due]. rewrite Hmid, isoformat_midnight.
  cbn [dt_date midnight]. now rewrite StrFacts.append_assoc.
Qed.

(** The loop, call by call: what is inserted is what the remote list
    gains, and what the count gains. *)
Lemma submit_loop_accounting (l : list Task.t) :
  forall (k : Z) (w : World),
  exists issued,
    calls (fst (submit_loop clock l k w)) = (calls w ++ issued)%list
    /\ remote (fst (submit_loop clock l k w)) = (rev (inserts issued) ++ remote w)%list
    /\ all_tasks (fst (submit_loop clock l k w)) = all_tasks w
    /\ match snd (submit_loop clock l k w) with
       | Ok k' => k' = k + Z.of_nat (List.length (inserts issued))
       | Raise _ => True
       end
    /\ Forall (fun entry =>
                 match snd entry with
                 | TasksList => True
                 | TasksInsert body =>
                     exists c t,
                       In c l /\ fst entry = Task.date c
                       /\ strptime (Task.date c) = Ok t
                       /\ body = new_task (Task.title c) (Task.notes c) t
                 end) issued.
Proof.
  induction l as [|c rest IH]; intros k w.
  - exists []. cbn. rewrite app_nil_r. repeat split; auto. lia.
  - rewrite submit_loop_cons.
    pose proof (add_task_turn clock c w) as T.
    destruct (add_task_if_not_exists clock (Task.title c) (Task.date c) (Task.notes c) w)
      as [w1 r1].
    cbn [fst snd] in T. inversion T; subst; clear T.
    + exists []. cbn. rewrite app_nil_r. repeat split; auto.
    + destruct (IH k (tick w)) as (issued & Hc & Hr & Ha & Hk & Hall).
      exists issued. repeat split; auto.
      eapply Forall_impl; [|exact Hall].
      intros [tag [|body]]; cbn [snd fst]; [trivial|].
      intros (c' & t' & Hin & H'). exists c', t'. split; [now right | exact H'].
    + exists [(Task.date c, TasksList)]. cbn [fst snd calls remote all_tasks].
      repeat split; auto. constructor; [exact I | constructor].
    + match goal with
      | |- context [submit_loop clock rest k ?w1] =>
          destruct (IH k w1) as (issued & Hc & Hr & Ha & Hk & Hall)
      end.
      exists ((Task.date c, TasksList) :: issued).
      rewrite Hc, Hr, Ha. cbn [calls remote all_tasks].
      rewrite <- app_assoc. cbn [app inserts flat_map snd].
      fold (inserts issued).
      repeat split; auto.
      constructor; [exact I|].
      eapply Forall_impl; [|exact Hall].
      intros [tag [|body]]; cbn [snd fst]; [trivial|].
      intros (c' & t' & Hin & H'). exists c', t'. split; [now right | exact H'].
    + match goal with
      | |- context [submit_loop clock rest (k + 1) ?w1] =>
          destruct (IH (k + 1) w1) as (issued & Hc & Hr & Ha & Hk & Hall)
      end.
      exists ((Task.date c, TasksList)
                :: (Task.date c, TasksInsert (new_task (Task.title c) (Task.notes c) t))
                :: issued).
      rewrite Hc, Hr, Ha. cbn [calls remote all_tasks].
      rewrite <- app_assoc. cbn [app inserts flat_map snd].
      fold (inserts issued).
      repeat split; auto.
      * cbn [rev]. now rewrite <- app_assoc.
      * destruct (snd (submit_loop clock rest (k + 1) _)); [|trivial].
        rewrite Hk. cbn [List.length]. lia.
      * constructor; [exact I|]. constructor.
        -- cbn [snd fst]. exists c, t. repeat split; auto. now left.
        -- eapply Forall_impl; [|exact Hall].
           intros [tag [|body]]; cbn [snd fst]; [trivial|].
           intros (c' & t' & Hin & H'). exists c', t'. split; [now right | exact H'].
Qed.

End Accounting.

Section SubmissionFacts.

Import Calendar FormatFacts SortFacts.

Variable clock : nat -> datetime.

(** X1: the count that [process_collected_tasks] returns is the number of
    tasks it inserted, and the remote list afterwards is the list before
    with those tasks put in front, last inserted first: nothing is removed
    or changed. *)
Theorem count_is_number_of_inserts (w : World) :
  let run := process_collected_tasks clock w in
  exists issued,
    calls (fst run) = (calls w ++ issued)%list
    /\ remote (fst run) = (rev (inserts issued) ++ remote w)%list
    /\ match snd run with
       | Ok added_count => added_count = Z.of_nat (List.length (inserts issued))
       | Raise _ => True
       end.
Proof.
  cbn zeta. rewrite process_collected_tasks_unfold.
  destruct (submit_loop_accounting clock (sort_desc (all_tasks w)) 0
              (mkWorld (sort_desc (all_tasks w)) (remote w) (calls w) (ticks w)))
    as (issued & Hc & Hr & _ & Hk & _).
  exists issued. repeat split; auto.
Qed.

(** X2: every task that [process_collected_tasks] inserts is made from a
    candidate of the collection: it has the candidate's title and notes,
    is not completed, and is due at midnight UTC of the date the candidate's
    string reads as, written [YYYY-MM-DDT00:00:00Z]; when the string is in
    canonical form, the due is the string itself followed by
    [T00:00:00Z]. *)
Theorem inserted_task_shape (w : World)
        (issued : list (string * StoreCall)) (tag : string) (body : RemoteTask.t) :
  calls (fst (process_collected_tasks clock w)) = (calls w ++ issued)%list ->
  In (tag, TasksInsert body) issued ->
  exists c d,
    In c (all_tasks w)
    /\ tag = Task.date c
    /\ date_of (Task.date c) = Some d
    /\ RemoteTask.title body = Task.title c
    /\ RemoteTask.notes body = Task.notes c
    /\ RemoteTask.completed body = false
    /\ RemoteTask.due body = Some (isoformat_date d ++ "T00:00:00Z")
    /\ (well_dated c -> RemoteTask.due body = Some (Task.date c ++ "T00:00:00Z")).
Proof.
  rewrite process_collected_tasks_unfold.
  destruct (submit_loop_accounting clock (sort_desc (all_tasks w)) 0
              (mkWorld (sort_desc (all_tasks w)) (remote w) (calls w) (ticks w)))
    as (issued' & Hc & _ & _ & _ & Hall).
  intros Hissued Hin. rewrite Hc in Hissued. cbn [calls] in Hissued.
  apply app_inv_head in Hissued. subst issued'.
  rewrite Forall_forall in Hall. specialize (Hall _ Hin). cbn [snd fst] in Hall.
  destruct Hall as (c & t & Hc' & Htag & P & ->).
  exists c, (dt_date t). apply (proj1 (sort_desc_In _ _)) in Hc'.
  split; [exact Hc'|]. split; [exact Htag|].
  split; [unfold date_of; now rewrite P|].
  split; [reflexivity|]. split; [reflexivity|]. split; [reflexivity|].
  split; [now apply new_task_due with (s := Task.date c)|].
  intros Hwd. rewrite (new_task_due _ _ _ _ P).
  apply canonical_inv in Hwd. destruct Hwd as (t' & P' & Hiso & _).
  rewrite P in P'. injection P' as <-. now rewrite Hiso.
Qed.

Lemma sort_desc_same_key (d : string) (l : list Task.t) :
  Forall (fun c => Task.date c = d) l -> sort_desc l = l.
Proof.
  induction 1 as [|x l Hx Hl IH]; [reflexivity|].
  cbn [sort_desc fold_right]. fold (sort_desc l). rewrite IH.
  apply insert_desc_front.
  eapply Forall_impl; [|exact Hl].
  intros c Hc. unfold date_ge. rewrite Hx, Hc. apply key_ge_refl.
Qed.

(** X3: [process_collected_tasks] only reorders the collection: afterwards
    it holds the same candidates, in non-increasing order of their date
    strings, and the candidates of one date are in the order in which they
    were collected (the sort is stable). *)
Theorem collection_is_only_reordered (w : World) :
  let after := all_tasks (fst (process_collected_tasks clock w)) in
  Permutation after (all_tasks w)
  /\ StronglySorted date_ge after
  /\ forall d,
       filter (fun c => String.eqb (Task.date c) d) after
       = filter (fun c => String.eqb (Task.date c) d) (all_tasks w).
Proof.
  cbn zeta. rewrite process_collected_tasks_unfold.
  destruct (submit_loop_accounting clock (sort_desc (all_tasks w)) 0
              (mkWorld (sort_desc (all_tasks w)) (remote w) (calls w) (ticks w)))
    as (_ & _ & _ & -> & _). cbn [all_tasks].
  split; [apply sort_desc_perm|]. split; [apply sort_desc_sorted|].
  intros d. rewrite sort_desc_filter.
  apply sort_desc_same_key with (d := d).
  apply Forall_forall. intros c Hc. apply filter_In in Hc.
  destruct Hc as [_ Hc]. now apply String.eqb_eq.
Qed.

End SubmissionFacts.

Lemma inserted_task_shape_witness :
  let w := Sample.world [Sample.maths_jan7] [] in
  let body := RemoteTask.mk "zadanie - Matematyka" (Some "2024-01-07T00:00:00Z")
                            "Opis: str. 12" false in
  calls (fst (process_collected_tasks Sample.clock_jan5 w))
  = (calls w ++ [("2024-01-07", TasksList); ("2024-01-07", TasksInsert body)])%list
  /\ exists c d,
       In c (all_tasks w)
       /\ "2024-01-07" = Task.date c
       /\ date_of (Task.date c) = Some d
       /\ RemoteTask.title body = Task.title c
       /\ RemoteTask.notes body = Task.notes c
       /\ RemoteTask.completed body = false
       /\ RemoteTask.due body = Some (Calendar.isoformat_date d ++ "T00:00:00Z")
       /\ (well_dated c -> RemoteTask.due body = Some (Task.date c ++ "T00:00:00Z")).
Proof.
  intros w body.
  assert (calls (fst (process_collected_tasks Sample.clock_jan5 w))
          = (calls w ++ [("2024-01-07", TasksList); ("2024-01-07", TasksInsert body)])%list)
    as Hcalls by reflexivity.
  split; [exact Hcalls|].
  apply (inserted_task_shape Sample.clock_jan5 w _ "2024-01-07" body Hcalls).
  right. now left.
Defined.

(** ** The collection phases as a whole *)

Section Phases.

Import Calendar FormatFacts CalendarFacts.

Variable clock : nat -> datetime.
Variable get_schedule : string -> string -> result (list (Z * list Event.t)).
Variable get_homework : string -> string -> result (list Homework.t).
Variable homework_detail : string -> result (list (string * string)).

Lemma grows_from_refl (w : World) : grows_from w w.
Proof. split; [exists []; now rewrite app_nil_r | auto]. Qed.

Lemma preserves_grows_now (w0 : World) : preserves (grows_from w0) (now clock).
Proof. intros w H. exact H. Qed.

Lemma preserves_grows_append (w0 : World) (task : Task.t) :
  preserves (grows_from w0) (append_task task).
Proof.
  intros w ((added & Ha) & Hr & Hc). unfold append_task. cbn [fst].
  split; [|split]; cbn [all_tasks remote calls]; auto.
  exists (added ++ [task])%list. now rewrite Ha, app_assoc.
Qed.

(** Every step of the two normalizers keeps [grows_from]. *)
Ltac grows :=
  repeat first
    [ apply preserves_ret
    | apply preserves_lift
    | apply preserves_grows_now
    | apply preserves_grows_append
    | apply preserves_for_each; intros ?
    | apply preserves_bind; [|intros ?]
    | apply preserves_try_except; [|intros ? ? ?]
    | match goal with
      | |- preserves _ (let _ := _ in _) => cbv zeta
      | |- preserves _ (if ?b then _ else _) => destruct b
      | |- preserves _ (match ?x with _ => _ end) => destruct x
      | H : match ?e with _ => _ end = Some _ |- _ => destruct e
      | H : Some _ = Some _ |- _ => injection H as <-
      | H : None = Some _ |- _ => discriminate H
      end ].

Lemma homework_grows (w0 : World) (homework : Homework.t) :
  preserves (grows_from w0) (_process_single_homework clock homework_detail homework).
Proof. unfold _process_single_homework. grows. Qed.

Lemma process_homework_grows (w0 : World) :
  preserves (grows_from w0) (process_homework clock get_homework homework_detail).
Proof. unfold process_homework. grows. Qed.

Lemma day_events_grows (w0 : World) (events : list Event.t) (day : Z)
      (month year : string) :
  preserves (grows_from w0) (_process_day_events clock events day month year).
Proof. unfold _process_day_events, _add_event_task. grows. Qed.

Lemma process_schedule_grows (w0 : World) :
  preserves (grows_from w0) (process_schedule clock get_schedule).
Proof.
  unfold process_schedule. grows.
Qed.

(** X5: collecting only appends.  Whatever the portal returns or raises,
    [process_schedule] and [process_homework] leave the candidates already
    collected in place, add theirs at the end, and make no call on the
    Tasks service: the remote list and the journal are as before. *)
Theorem normalizers_only_append (w : World) :
  grows_from w (fst (process_schedule clock get_schedule w))
  /\ grows_from w (fst (process_homework clock get_homework homework_detail w)).
Proof.
  split.
  - apply process_schedule_grows, grows_from_refl.
  - apply process_homework_grows, grows_from_refl.
Qed.


(** *** The window of [process_homework] *)

Lemma succ_day_within (y m d : Z) :
  d < days_in_month y m -> succ_day (mkdate y m d) = mkdate y m (d + 1).
Proof.
  intros H. unfold succ_day. cbn [year month day].
  now apply Z.ltb_lt in H as ->.
Qed.

Lemma succ_day_month_end (y m : Z) :
  succ_day (mkdate y m (days_in_month y m))
  = if m <? 12 then mkdate y (m + 1) 1 else mkdate (y + 1) 1 1.
Proof.
  unfold succ_day. cbn [year month day]. now rewrite Z.ltb_irrefl.
Qed.

(** Four days after the 28th is in the next month, whatever the month. *)
Lemma four_days_after_28 (y m : Z) :
  exists k,
    1 <= k <= 4
    /\ shift_days false 4 (mkdate y m 28)
       = if m <? 12 then mkdate y (m + 1) k else mkdate (y + 1) 1 k.
Proof.
  pose proof (days_in_month_bounds y m) as Hdim.
  assert (forall y' m' k, 1 <= k < 4 ->
             succ_day (mkdate y' m' k) = mkdate y' m' (k + 1)) as Hnext.
  { intros y' m' k Hk. apply succ_day_within.
    pose proof (days_in_month_bounds y' m'). lia. }
  assert (days_in_month y m = 28 \/ days_in_month y m = 29
          \/ days_in_month y m = 30 \/ days_in_month y m = 31) as Hcases by lia.
  cbn [shift_days].
  destruct Hcases as [E|[E|[E|E]]].
  - exists 4. split; [lia|].
    replace 28 with (days_in_month y m) at 1 by exact E.
    rewrite succ_day_month_end.
    destruct (m <? 12); rewrite !Hnext by lia; reflexivity.
  - exists 3. split; [lia|].
    rewrite succ_day_within by lia. cbn [Z.add Pos.add Pos.succ].
    replace 29 with (days_in_month y m) at 1 by exact E.
    rewrite succ_day_month_end.
    destruct (m <? 12); rewrite !Hnext by lia; reflexivity.
  - exists 2. split; [lia|].
    rewrite succ_day_within by lia. cbn [Z.add Pos.add Pos.succ].
    rewrite succ_day_within by lia. cbn [Z.add Pos.add Pos.succ].
    replace 30 with (days_in_month y m) at 1 by exact E.
    rewrite succ_day_month_end.
    destruct (m <? 12); rewrite !Hnext by lia; reflexivity.
  - exists 1. split; [lia|].
    rewrite succ_day_within by lia. cbn [Z.add Pos.add Pos.succ].
    rewrite succ_day_within by lia. cbn [Z.add Pos.add Pos.succ].
    rewrite succ_day_within by lia. cbn [Z.add Pos.add Pos.succ].
    replace 31 with (days_in_month y m) at 1 by exact E.
    rewrite succ_day_month_end.
    destruct (m <? 12); reflexivity.
Qed.

Lemma replace_day_ok (t : datetime) (n : Z) :
  valid_date (mkdate (year (dt_date t)) (month (dt_date t)) n) = true ->
  replace_day t n
  = Ok (mkdatetime (mkdate (year (dt_date t)) (month (dt_date t)) n)
                   (hour t) (minute t) (second t) (microsecond t)).
Proof. intros H. unfold replace_day. now rewrite H. Qed.

(** [process_homework] reads the clock once and asks the portal for the
    month of that reading, from its first to its last day. *)
Lemma process_homework_window (w : World) :
  let t := clock (ticks w) in
  valid_date (dt_date t) = true ->
  year (dt_date t) < 9999 \/ month (dt_date t) < 12 ->
  process_homework clock get_homework homework_detail w
  = try_except
      (rows <- lift (get_homework (fst (month_window t)) (snd (month_window t))) ;;
       for_each rows (_process_single_homework clock homework_detail))
      (fun _ => Some (ret tt))
      (tick w).
Proof.
  intros t Hv Hlast.
  pose proof (valid_date_bounds _ Hv) as (Hy & Hm & Hd).
  pose proof (days_in_month_bounds (year (dt_date t)) (month (dt_date t))) as Hdim.
  set (y := year (dt_date t)) in *. set (m := month (dt_date t)) in *.
  assert (valid_date (mkdate y m 1) = true) as V1
      by (unfold valid_date; cbn [year month day]; zprop; lia).
  assert (valid_date (mkdate y m 28) = true) as V28
      by (unfold valid_date; cbn [year month day]; zprop; lia).
  destruct (four_days_after_28 y m) as (k & Hk & H4).
  set (y' := if m <? 12 then y else y + 1).
  set (m' := if m <? 12 then m + 1 else 1).
  assert (shift_days false 4 (mkdate y m 28) = mkdate y' m' k) as H4'.
  { rewrite H4. unfold y', m'. now destruct (m <? 12). }
  assert (1 <= y' <= 9999 /\ 1 <= m' <= 12) as (Hy' & Hm').
  { unfold y', m'. destruct (Z.ltb_spec m 12); lia. }
  assert (valid_date (mkdate y' m' 1) = true) as V1'.
  { pose proof (days_in_month_bounds y' m').
    unfold valid_date; cbn [year month day]; zprop; lia. }
  assert (pred_day (mkdate y' m' 1) = mkdate y m (days_in_month y m)) as Hpred.
  { unfold pred_day, y', m'. cbn [year month day].
    destruct (Z.ltb_spec m 12).
    - replace (1 <? m + 1) with true by (symmetry; apply Z.ltb_lt; lia).
      cbn. now replace (m + 1 - 1) with m by lia.
    - cbn. assert (m = 12) as -> by lia.
      replace (y + 1 - 1) with y by lia. reflexivity. }
  unfold process_homework, bind at 1, now. cbn [ticks].
  fold t. unfold bind at 1, lift at 1.
  rewrite (replace_day_ok t 1 V1).
  unfold bind at 1, lift at 1. rewrite (replace_day_ok t 28 V28).
  unfold bind at 1, lift at 1.
  unfold datetime_add_days at 1, add_days at 1. cbn [dt_date hour minute second microsecond].
  fold y m. change (4 <? 0) with false. change (Z.abs_nat 4) with 4%nat.
  rewrite H4'. cbn [year].
  replace ((1 <=? y') && (y' <=? 9999)) with true by (symmetry; zprop; lia).
  unfold bind at 1, lift at 1.
  rewrite replace_day_ok by exact V1'. cbn [dt_date year month hour minute second microsecond].
  unfold bind at 1, lift at 1.
  unfold datetime_add_days, add_days. cbn [dt_date hour minute second microsecond].
  change (-1 <? 0) with true. change (Z.abs_nat (-1)) with 1%nat.
  cbn [shift_days]. rewrite Hpred. cbn [year].
  replace ((1 <=? y) && (y <=? 9999)) with true by (symmetry; zprop; lia).
  reflexivity.
Qed.

(** X6: the homework phase asks for the current month.
    [process_homework] reads the clock once and calls [get_homework] with
    the first and the last day of the month of that reading, as
    [YYYY-MM-DD] strings; what it does next is the loop over the rows under
    the catch-all handler.  (In December of the year 9999 the date
    arithmetic overflows before the call; before the year 1000 the year is
    written on fewer than four digits.) *)
Theorem homework_is_asked_for_the_month (w : World) :
  let t := clock (ticks w) in
  valid_date (dt_date t) = true ->
  1000 <= year (dt_date t) ->
  year (dt_date t) < 9999 \/ month (dt_date t) < 12 ->
  process_homework clock get_homework homework_detail w
  = try_except
      (rows <- lift (get_homework
                       (isoformat_date (mkdate (year (dt_date t)) (month (dt_date t)) 1))
                       (isoformat_date
                          (mkdate (year (dt_date t)) (month (dt_date t))
                                  (days_in_month (year (dt_date t)) (month (dt_date t)))))) ;;
       for_each rows (_process_single_homework clock homework_detail))
      (fun _ => Some (ret tt))
      (tick w).
Proof.
  intros t Hv Hy Hlast. rewrite (process_homework_window w Hv Hlast). fold t.
  unfold month_window. cbn [fst snd].
  now rewrite !format_Ymd_iso by exact Hy.
Qed.

(** X7: the homework phase never fails the run.  Whatever [get_homework]
    and [homework_detail] return or raise, and whatever the rows hold,
    [process_homework] returns normally; when [get_homework] itself raises,
    nothing changes but the reading of the clock. *)
Theorem homework_phase_never_raises (w : World) :
  let t := clock (ticks w) in
  valid_date (dt_date t) = true ->
  year (dt_date t) < 9999 \/ month (dt_date t) < 12 ->
  snd (process_homework clock get_homework homework_detail w) = Ok tt
  /\ (forall e,
         get_homework (fst (month_window t)) (snd (month_window t)) = Raise e ->
         fst (process_homework clock get_homework homework_detail w) = tick w).
Proof.
  intros t Hv Hlast. rewrite (process_homework_window w Hv Hlast). fold t.
  unfold try_except. split.
  - destruct (bind _ _ (tick w)) as [w' [[]|e]]; reflexivity.
  - intros e He. unfold bind, lift. rewrite He. reflexivity.
Qed.


End Phases.

Lemma homework_is_asked_for_the_month_witness :
  let get_homework := Sample.homework_of [Sample.homework_jan7] in
  let w := Sample.world [] [] in
  process_homework Sample.clock_jan5 get_homework Sample.details w
  = try_except
      (rows <- lift (get_homework "2024-01-01" "2024-01-31") ;;
       for_each rows (_process_single_homework Sample.clock_jan5 Sample.details))
      (fun _ => Some (ret tt))
      (tick w).
Proof.
  intros get_homework w.
  apply (homework_is_asked_for_the_month Sample.clock_jan5 get_homework
           Sample.details w).
  - reflexivity.
  - cbn. lia.
  - left. reflexivity.
Defined.

Lemma homework_phase_never_raises_witness :
  let w := Sample.world [Sample.physics_jan6] [] in
  snd (process_homework Sample.clock_jan5 Sample.homework_unavailable Sample.details w)
  = Ok tt
  /\ fst (process_homework Sample.clock_jan5 Sample.homework_unavailable
                           Sample.details w)
     = tick w.
Proof.
  intros w.
  destruct (homework_phase_never_raises Sample.clock_jan5 Sample.homework_unavailable
              Sample.details w) as [Hreturns Hnothing].
  - reflexivity.
  - left. reflexivity.
  - split; [exact Hreturns|]. apply (Hnothing OtherError). reflexivity.
Defined.



(** ** What the schedule normalizer collects *)

Section Schedule.

Import Calendar FormatFacts CalendarFacts.

Variable clock : nat -> datetime.
Variable get_schedule : string -> string -> result (list (Z * list Event.t)).
Variable get_homework : string -> string -> result (list Homework.t).
Variable homework_detail : string -> result (list (string * string)).

Lemma for_each_In {A} (I : World -> Prop) (items : list A) (body : A -> M unit) :
  (forall x, In x items -> preserves I (body x)) ->
  preserves I (for_each items body).
Proof.
  induction items as [|x rest IH]; intros Hbody w Hw.
  - exact Hw.
  - rewrite for_each_cons.
    pose proof (Hbody x (or_introl eq_refl) w Hw) as Hx.
    destruct (body x w) as [w' [[]|e]]; cbn [fst] in *; [|exact Hx].
    apply IH; [|exact Hx]. intros y Hy. apply Hbody. now right.
Qed.

(** *** Events that are not tests *)

Lemma day_events_ignored (events : list Event.t) (day : Z) (month year : string)
      (w : World) :
  Forall (fun event => is_test_event event = false) events ->
  _process_day_events clock events day month year w = (w, Ok tt).
Proof.
  induction 1 as [|event rest Hevent _ IH]; [reflexivity|].
  rewrite day_events_cons, (day_event_ignored clock event day month year w Hevent).
  exact IH.
Qed.

(** X9: a schedule without tests leaves no trace.  When no event of the
    schedule has a title that holds a keyword, [process_schedule] returns
    with nothing collected, whatever the days are: it has only read the
    clock, once, for the month and the year of its request. *)
Theorem plain_schedule_collects_nothing (w : World)
        (schedule : list (Z * list Event.t)) :
  get_schedule (strftime_m (clock (ticks w))) (strftime_Y (clock (ticks w)))
  = Ok schedule ->
  Forall (fun entry => Forall (fun event => is_test_event event = false) (snd entry))
         schedule ->
  process_schedule clock get_schedule w = (tick w, Ok tt).
Proof.
  intros Hs Hplain. unfold process_schedule, bind at 1, now. cbn [ticks].
  cbv zeta. unfold bind at 1, lift at 1. rewrite Hs. fold (tick w).
  generalize (tick w). clear Hs.
  induction Hplain as [|[day events] rest Hday _ IH]; intros w'; [reflexivity|].
  rewrite for_each_cons. cbn [snd] in Hday.
  destruct events as [|event events]; [exact (IH w')|].
  rewrite (day_events_ignored _ _ _ _ _ Hday). exact (IH w').
Qed.

(** X10: nothing is guarded before the homework phase.  When the start of
    the run fails (the constructor of [LibrusSync], [new_client] or
    [get_token] raises), the run raises the same exception with nothing
    collected; when the start goes well and the request for the schedule
    raises, the run raises that exception, the clock having been read
    twice.  In both cases [add_task_if_not_exists] was never called: the
    remote list and the journal of its calls are as before. *)
Theorem schedule_failure_fails_the_run (setup : Setup) (w : World) (e : exn) :
  (start_up setup = Raise e ->
   main clock setup get_schedule get_homework homework_detail w
   = (mkWorld [] (remote w) (calls w) (S (ticks w)), Raise e))
  /\ (start_up setup = Ok tt ->
      get_schedule (strftime_m (clock (S (ticks w)))) (strftime_Y (clock (S (ticks w))))
      = Raise e ->
      main clock setup get_schedule get_homework homework_detail w
      = (mkWorld [] (remote w) (calls w) (S (S (ticks w))), Raise e)).
Proof.
  rewrite main_unfold. split.
  - now intros ->.
  - intros -> Hs.
    unfold process_schedule, bind at 1, now at 1. cbn [all_tasks remote calls ticks].
    cbv zeta. unfold bind at 1, lift at 1. rewrite Hs. reflexivity.
Qed.

(** *** The candidate of an event *)

Lemma prefix_refl (s : string) : prefix s s = true.
Proof.
  induction s as [|c s IH]; simpl; [reflexivity|].
  destruct (ascii_dec c c); [exact IH | congruence].
Qed.

Lemma format_item_not_empty (kv : string * string) : format_item kv <> "".
Proof.
  unfold format_item. intros H. apply (f_equal String.length) in H.
  rewrite !StrFacts.length_append in H. cbn in H. lia.
Qed.

Lemma join_not_empty (sep x : string) (rest : list string) :
  x <> "" -> PyStr.join sep (x :: rest) <> "".
Proof.
  intros Hx. unfold PyStr.join. cbn [concat].
  destruct rest as [|y rest]; [exact Hx|].
  destruct x as [|c x]; [congruence | discriminate].
Qed.

Lemma add_event_task_appends (event : Event.t) (event_date : string) (w : World) :
  exists c,
    _add_event_task event event_date w
    = (mkWorld (all_tasks w ++ [c]) (remote w) (calls w) (ticks w), Ok tt)
    /\ Task.date c = event_date.
Proof.
  unfold _add_event_task, append_task. cbv zeta.
  eexists. split; reflexivity.
Qed.

(** X11: the candidate of a schedule event.  [_add_event_task] never
    raises and adds exactly one candidate, at the end: it bears the date
    given, its title begins with the title of the event, and its notes are
    never empty: they are ["Brak dodatkowych informacji"] when the event
    has no datum other than empty or ["unknown"] ones. *)
Theorem event_candidate_shape (event : Event.t) (event_date : string) (w : World) :
  exists c,
    _add_event_task event event_date w
    = (mkWorld (all_tasks w ++ [c]) (remote w) (calls w) (ticks w), Ok tt)
    /\ Task.date c = event_date
    /\ PyStr.startswith (Task.title c) (Event.title event) = true
    /\ Task.notes c <> ""
    /\ (Forall (fun kv => snd kv = "" \/ snd kv = "unknown") (Event.data event) ->
        Task.notes c = "Brak dodatkowych informacji").
Proof.
  unfold _add_event_task, append_task. cbv zeta.
  eexists. split; [reflexivity|]. cbn [Task.date Task.title Task.notes].
  split; [reflexivity|]. split; [|split].
  - unfold PyStr.startswith.
    destruct (truthy (Event.hour event)
              && negb (String.eqb (Event.hour event) "unknown"));
      destruct (truthy (Event.subject event));
      rewrite ?StrFacts.append_assoc; try apply StrFacts.prefix_append.
    apply prefix_refl.
  - destruct (Event.data event) as [|kv items]; [discriminate|].
    destruct (map format_item _) as [|x rest] eqn:E; [discriminate|].
    apply join_not_empty.
    destruct (filter _ _) as [|kv' items'] in E; [discriminate|].
    cbn [map] in E. injection E as <- _. apply format_item_not_empty.
  - intros Hall.
    destruct (Event.data event) as [|kv items]; [reflexivity|].
    replace (filter _ (kv :: items)) with (@nil (string * string)); [reflexivity|].
    symmetry. induction Hall as [|kv' items' [Hkv|Hkv] _ IH]; [reflexivity| |];
      cbn [filter]; rewrite Hkv; cbn; exact IH.
Qed.

(** *** The dates of the schedule candidates *)

Lemma month_day_strict_all :
  forallb (fun m => forallb (month_day_strict m) (zrange 0 99)) (zrange 1 12) = true.
Proof. vm_compute. reflexivity. Qed.

(** What [strptime] accepts, of the strings that [_process_day_events]
    builds, is the writing of a date. *)
Lemma strptime_isoformat_inv (y m d : Z) (t : datetime) :
  0 <= y <= 9999 -> 1 <= m <= 12 -> 0 <= d <= 99 ->
  strptime (isoformat_date (mkdate y m d)) = Ok t ->
  valid_date (mkdate y m d) = true.
Proof.
  intros Hy Hm Hd.
  pose proof (zrange_forallb _ _ _ month_day_strict_all m ltac:(lia)) as H.
  cbv beta in H. pose proof (zrange_forallb _ _ _ H d ltac:(lia)) as H'.
  unfold month_day_strict in H'.
  unfold strptime, re_Ymd, isoformat_date. cbn [year month day].
  rewrite re_Y_pad by lia. cbn [flat_map]. rewrite app_nil_r.
  destruct (re_md ("-" ++ PyStr.pad 2 m ++ "-" ++ PyStr.pad 2 d))
    as [|[[m' d'] [|? ?]] tl]; cbn [map]; try discriminate.
  apply andb_true_iff in H'. destruct H' as [H1 H2].
  apply Z.eqb_eq in H1, H2. subst m' d'.
  destruct (valid_date (mkdate y m d)); [reflexivity | discriminate].
Qed.

Lemma collects_only_same (P : Task.t -> Prop) (w0 w w' : World) :
  all_tasks w' = all_tasks w ->
  collects_only P w0 w -> collects_only P w0 w'.
Proof. intros E (added & Ha & Hp). exists added. now rewrite E. Qed.

Lemma collects_only_append (P : Task.t -> Prop) (w0 w w' : World) (c : Task.t) :
  all_tasks w' = (all_tasks w ++ [c])%list -> P c ->
  collects_only P w0 w -> collects_only P w0 w'.
Proof.
  intros E Hc (added & Ha & Hp). exists (added ++ [c])%list.
  split; [now rewrite E, Ha, app_assoc|].
  apply Forall_app. auto.
Qed.

Lemma short_year_all : forallb short_year (zrange 1 999) = true.
Proof. vm_compute. reflexivity. Qed.

(** [strptime] wants four digits for the year: it refuses the date that
    [_process_day_events] writes with a year below 1000. *)
Lemma strptime_short_year (y : Z) (rest : string) :
  1 <= y < 1000 -> strptime (format_Y y ++ "-" ++ rest) = Raise ValueError.
Proof.
  intros Hy. unfold format_Y.
  replace (y <? 1000) with true by (symmetry; apply Z.ltb_lt; lia).
  pose proof (zrange_forallb _ _ _ short_year_all y ltac:(lia)) as Hshort.
  unfold short_year in Hshort. apply Nat.leb_le in Hshort.
  unfold strptime, re_Ymd.
  replace (re_Y (PyStr.str y ++ "-" ++ rest)) with (@nil (Z * string)); [reflexivity|].
  symmetry. destruct (PyStr.str y) as [|a [|b [|c [|d s]]]]; cbn in Hshort; try lia;
    destruct rest as [|r1 [|r2 [|r3 rest]]]; cbn [append re_Y]; try reflexivity;
    change (PyStr.is_digit "-") with false;
    repeat (rewrite ?andb_false_r; cbn [andb]); reflexivity.
Qed.

Lemma day_events_in_month (t0 : datetime) (w0 : World) (events : list Event.t)
      (day : Z) :
  valid_date (dt_date t0) = true -> 0 <= day <= 99 ->
  preserves (collects_only (in_month_of t0) w0)
            (_process_day_events clock events day (strftime_m t0) (strftime_Y t0)).
Proof.
  intros Hv Hday. pose proof (valid_date_bounds _ Hv) as (Hy & Hm & _).
  unfold _process_day_events. apply preserves_for_each. intros event w Hw.
  destruct (negb (truthy (Event.title event))); [exact Hw|].
  destruct (negb (is_test_title (Event.title event))); [exact Hw|].
  cbv zeta.
  destruct (Z.ltb_spec (year (dt_date t0)) 1000) as [Hshort|Hlong].
  { unfold bind at 1, lift at 1, strftime_Y.
    now rewrite strptime_short_year by lia. }
  fold (event_date_of (strftime_Y t0) (strftime_m t0) day).
  rewrite (event_date_of_month t0 day Hlong Hday).
  unfold bind at 1, lift at 1.
  destruct (strptime _) as [et|e] eqn:P; [|exact Hw].
  apply strptime_isoformat_inv in P; [|lia|lia|lia].
  unfold bind at 1, now at 1. unfold bind at 1, lift at 1.
  destruct (datetime_add_days _ _) as [limit|e]; cbn [fst].
  2:{ eapply collects_only_same; [|exact Hw]. reflexivity. }
  destruct (datetime_ltb et limit).
  - eapply collects_only_same; [|exact Hw]. reflexivity.
  - destruct (add_event_task_appends event
                (isoformat_date (mkdate (year (dt_date t0)) (month (dt_date t0)) day))
                (mkWorld (all_tasks w) (remote w) (calls w) (S (ticks w))))
      as (c & -> & Hdate).
    cbn [fst]. eapply collects_only_append; [reflexivity| |exact Hw].
    exists day. split; [exact P | exact Hdate].
Qed.

Lemma process_schedule_in_month (w : World) :
  valid_date (dt_date (clock (ticks w))) = true ->
  (forall schedule,
      get_schedule (strftime_m (clock (ticks w))) (strftime_Y (clock (ticks w)))
      = Ok schedule ->
      Forall (fun entry => 0 <= fst entry <= 99) schedule) ->
  collects_only (in_month_of (clock (ticks w))) w
                (fst (process_schedule clock get_schedule w)).
Proof.
  intros Hv Hdays.
  assert (collects_only (in_month_of (clock (ticks w))) w (tick w)) as H0.
  { exists []. split; [cbn [tick all_tasks]; now rewrite app_nil_r | constructor]. }
  unfold process_schedule, bind at 1, now. cbn [ticks]. cbv zeta.
  fold (tick w). unfold bind at 1, lift at 1.
  destruct (get_schedule _ _) as [schedule|e] eqn:Hs; [|exact H0].
  specialize (Hdays schedule eq_refl). rewrite Forall_forall in Hdays.
  apply for_each_In; [|exact H0].
  intros [day events] Hin. specialize (Hdays _ Hin). cbn [fst] in Hdays.
  destruct events as [|event events]; [apply preserves_ret|].
  now apply day_events_in_month.
Qed.

(** X12: the schedule candidates are dated in the month of the run, in
    the padded form.  With days of at most two digits in the schedule,
    every candidate that [process_schedule] adds bears the date
    [YYYY-MM-DD] of a day of the month that the clock showed, and that
    string is what [%Y-%m-%d] prints for the date it reads as. *)
Theorem schedule_candidates_in_month (w : World) :
  valid_date (dt_date (clock (ticks w))) = true ->
  (forall schedule,
      get_schedule (strftime_m (clock (ticks w))) (strftime_Y (clock (ticks w)))
      = Ok schedule ->
      Forall (fun entry => 0 <= fst entry <= 99) schedule) ->
  collects_only (fun c => in_month_of (clock (ticks w)) c /\ well_dated c) w
                (fst (process_schedule clock get_schedule w)).
Proof.
  intros Hv Hdays.
  destruct (process_schedule_in_month w Hv Hdays) as (added & Ha & Hp).
  exists added. split; [exact Ha|].
  eapply Forall_impl; [|exact Hp].
  intros c Hc. split; [exact Hc|].
  destruct Hc as (d & Hd & Hdate).
  unfold well_dated. apply canonical_spec. eauto.
Qed.

End Schedule.

Lemma plain_schedule_collects_nothing_witness :
  let get_schedule := Sample.schedule_of [(5, [Sample.trip_event]); (6, [])] in
  let w := Sample.world [Sample.maths_jan7] [] in
  process_schedule Sample.clock_jan5 get_schedule w = (tick w, Ok tt).
Proof.
  intros get_schedule w.
  apply (plain_schedule_collects_nothing Sample.clock_jan5 get_schedule w
           [(5, [Sample.trip_event]); (6, [])]).
  - reflexivity.
  - repeat constructor.
Defined.

Lemma schedule_failure_fails_the_run_witness :
  main Sample.clock_jan5 Sample.setup_no_password Sample.schedule_unavailable
       (Sample.homework_of [Sample.homework_jan7]) Sample.details
       (Sample.world [Sample.maths_jan7] [Sample.remote_physics_jan6])
  = (mkWorld [] [Sample.remote_physics_jan6] [] 1, Raise ValueError)
  /\ main Sample.clock_jan5 Sample.setup_ok Sample.schedule_unavailable
          (Sample.homework_of [Sample.homework_jan7]) Sample.details
          (Sample.world [Sample.maths_jan7] [Sample.remote_physics_jan6])
     = (mkWorld [] [Sample.remote_physics_jan6] [] 2, Raise OtherError).
Proof.
  split.
  - apply (schedule_failure_fails_the_run Sample.clock_jan5 Sample.schedule_unavailable
             (Sample.homework_of [Sample.homework_jan7]) Sample.details
             Sample.setup_no_password
             (Sample.world [Sample.maths_jan7] [Sample.remote_physics_jan6])
             ValueError).
    reflexivity.
  - apply (schedule_failure_fails_the_run Sample.clock_jan5 Sample.schedule_unavailable
             (Sample.homework_of [Sample.homework_jan7]) Sample.details
             Sample.setup_ok
             (Sample.world [Sample.maths_jan7] [Sample.remote_physics_jan6])
             OtherError).
    + reflexivity.
    + reflexivity.
Defined.

Lemma schedule_candidates_in_month_witness :
  let get_schedule := Sample.schedule_of [(7, [Sample.test_event; Sample.trip_event])] in
  let w := Sample.world [] [] in
  collects_only (fun c => in_month_of Sample.jan5 c /\ well_dated c) w
                (fst (process_schedule Sample.clock_jan5 get_schedule w))
  /\ all_tasks (fst (process_schedule Sample.clock_jan5 get_schedule w))
     = [Task.mk "Sprawdzian - Fizyka (8:00)" "2024-01-07" Sample.no_notes].
Proof.
  intros get_schedule w. split; [|vm_compute; reflexivity].
  apply (schedule_candidates_in_month Sample.clock_jan5 get_schedule w).
  - reflexivity.
  - intros schedule H. injection H as <-.
    repeat constructor; cbn [fst]; lia.
Defined.

(** ** The task list of the account *)

Lemma find_task_list_named (task_lists : list TaskList.t) (id : string) :
  find_task_list task_lists = Some id ->
  In (TaskList.mk id TASK_LIST_NAME) task_lists.
Proof.
  induction task_lists as [|[i t] rest IH]; cbn [find_task_list TaskList.title TaskList.id];
    [discriminate|].
  destruct (String.eqb t TASK_LIST_NAME) eqn:E.
  - intros H. injection H as <-. apply String.eqb_eq in E. subst t. now left.
  - intros H. right. auto.
Qed.

Lemma find_task_list_none (task_lists : list TaskList.t) :
  find_task_list task_lists = None ->
  Forall (fun task_list => TaskList.title task_list <> TASK_LIST_NAME) task_lists.
Proof.
  induction task_lists as [|[i t] rest IH]; cbn [find_task_list TaskList.title TaskList.id];
    [constructor|].
  destruct (String.eqb t TASK_LIST_NAME) eqn:E; [discriminate|].
  intros H. constructor; [|auto].
  cbn [TaskList.title]. now apply String.eqb_neq.
Qed.

Lemma find_task_list_app (a b : list TaskList.t) :
  find_task_list (a ++ b)
  = match find_task_list a with
    | Some id => Some id
    | None => find_task_list b
    end.
Proof.
  induction a as [|x a IH]; cbn [find_task_list app]; [reflexivity|].
  now destruct (String.eqb (TaskList.title x) TASK_LIST_NAME).
Qed.

(** X13: the id returned is the id of a list of the account that bears the
    name, and a list is created only when none bears it: the lists of the
    account are left as they are, or gain one with the name, at the end. *)
Theorem task_list_found_or_created (new_id : string) (task_lists : list TaskList.t) :
  In (TaskList.mk (snd (_get_or_create_task_list new_id task_lists)) TASK_LIST_NAME)
     (fst (_get_or_create_task_list new_id task_lists))
  /\ (fst (_get_or_create_task_list new_id task_lists) = task_lists
      \/ (fst (_get_or_create_task_list new_id task_lists)
          = (task_lists ++ [TaskList.mk new_id TASK_LIST_NAME])%list
          /\ snd (_get_or_create_task_list new_id task_lists) = new_id
          /\ Forall (fun task_list => TaskList.title task_list <> TASK_LIST_NAME)
                    task_lists)).
Proof.
  unfold _get_or_create_task_list, tasklists_insert.
  destruct (find_task_list task_lists) as [id|] eqn:E; cbn [fst snd TaskList.id].
  - split; [now apply find_task_list_named | now left].
  - split.
    + apply in_or_app. right. now left.
    + right. split; [reflexivity|]. split; [reflexivity|].
      now apply find_task_list_none.
Qed.

(** X14: the list is created once.  Called again on the lists that a first
    call left, whatever id the service would give to a new list,
    [_get_or_create_task_list] returns the same id and creates nothing. *)
Theorem task_list_created_once (new_id new_id' : string) (task_lists : list TaskList.t) :
  _get_or_create_task_list new_id'
    (fst (_get_or_create_task_list new_id task_lists))
  = _get_or_create_task_list new_id task_lists.
Proof.
  unfold _get_or_create_task_list, tasklists_insert.
  destruct (find_task_list task_lists) as [id|] eqn:E; cbn [fst snd TaskList.id].
  - now rewrite E.
  - rewrite find_task_list_app, E. cbn [find_task_list TaskList.title TaskList.id].
    now rewrite String.eqb_refl.
Qed.

(** ** The credentials *)

Section Token.

Variable from_authorized_user_file : string -> result Credentials.t.
Variable refresh : Credentials.t -> result Credentials.t.
Variable authorize : result Credentials.t.

Lemma flow_and_write_ok (creds : option Credentials.t) (w w' : AuthWorld)
      (c : Credentials.t) :
  flow_and_write authorize creds w = (w', Ok c) ->
  token_file w' = Some (Credentials.to_json c)
  /\ (exists events,
         auth_events w' = (auth_events w ++ events
                           ++ [TokenWritten (Credentials.to_json c)])%list
         /\ (events = [] \/ events = [Prompted]))
  /\ (Credentials.valid c = true /\ creds = Some c \/ authorize = Ok c).
Proof.
  unfold flow_and_write, run_flow, write_token, log_event.
  destruct creds as [c0|]; [destruct (Credentials.valid c0) eqn:V|].
  - intros H. injection H as <- <-. cbn [token_file auth_events].
    split; [reflexivity|]. split; [exists []; auto | left; auto].
  - destruct authorize as [c1|e]; [|discriminate].
    intros H. injection H as <- <-. cbn [token_file auth_events].
    split; [reflexivity|]. split; [|right; reflexivity].
    exists [Prompted]. split; [|now right]. now rewrite <- app_assoc.
  - destruct authorize as [c1|e]; [|discriminate].
    intros H. injection H as <- <-. cbn [token_file auth_events].
    split; [reflexivity|]. split; [|right; reflexivity].
    exists [Prompted]. split; [|now right]. now rewrite <- app_assoc.
Qed.

(** What [_refresh_or_get_new_credentials] returns, and where it leaves
    the token file. *)
Lemma refresh_or_new_returns (creds : option Credentials.t)
        (w w' : AuthWorld) (c : Credentials.t) :
  _refresh_or_get_new_credentials refresh authorize creds w = (w', Ok c) ->
  token_file w' = Some (Credentials.to_json c)
  /\ (exists events,
         auth_events w' = (auth_events w ++ events
                           ++ [TokenWritten (Credentials.to_json c)])%list)
  /\ (Credentials.valid c = true
      /\ (creds = Some c \/ exists c0, creds = Some c0 /\ refresh c0 = Ok c)
      \/ authorize = Ok c).
Proof.
  unfold _refresh_or_get_new_credentials.
  destruct creds as [c0|].
  - destruct (Credentials.expired c0
              && negb (String.eqb (Credentials.refresh_token c0) "")).
    + destruct (refresh c0) as [c1|e] eqn:R.
      * intros H. apply flow_and_write_ok in H.
        destruct H as (Hf & (events & He & _) & Hc).
        split; [exact Hf|]. split.
        -- exists (Refreshed :: events). rewrite He. unfold log_event.
           cbn [auth_events]. now rewrite <- app_assoc.
        -- destruct Hc as [[V E]|A]; [left|now right].
           split; [exact V|]. right. exists c0. split; [reflexivity|].
           injection E as ->. exact R.
      * unfold remove_token. destruct (token_file w) as [content|]; [|discriminate].
        intros H. apply flow_and_write_ok in H.
        destruct H as (Hf & (events & He & _) & Hc).
        split; [exact Hf|]. split.
        -- exists (TokenRemoved :: events). rewrite He.
           cbn [auth_events]. now rewrite <- app_assoc.
        -- destruct Hc as [[_ E]|A]; [discriminate | now right].
    + intros H. apply flow_and_write_ok in H.
      destruct H as (Hf & (events & He & _) & Hc).
      split; [exact Hf|]. split; [now exists events|].
      destruct Hc as [[V E]|A]; [left; auto | now right].
  - intros H. apply flow_and_write_ok in H.
    destruct H as (Hf & (events & He & _) & Hc).
    split; [exact Hf|]. split; [now exists events|].
    destruct Hc as [[_ E]|A]; [discriminate | now right].
Qed.

(** X15: the token file follows the credentials.  When
    [_refresh_or_get_new_credentials] returns, the token file holds the
    [to_json()] of the credentials returned, written last; and these
    credentials are valid ones obtained without the flow (the ones passed
    in, or their refreshed state), or the ones that the flow ended with. *)
Theorem token_file_follows_credentials (creds : option Credentials.t)
        (w w' : AuthWorld) (c : Credentials.t) :
  _refresh_or_get_new_credentials refresh authorize creds w = (w', Ok c) ->
  token_file w' = Some (Credentials.to_json c)
  /\ (exists events,
         auth_events w' = (auth_events w ++ events
                           ++ [TokenWritten (Credentials.to_json c)])%list)
  /\ (Credentials.valid c = true
      /\ (creds = Some c \/ exists c0, creds = Some c0 /\ refresh c0 = Ok c)
      \/ authorize = Ok c).
Proof. exact (refresh_or_new_returns creds w w' c). Qed.

(** X16: a refresh that fails costs the token.  With credentials that are
    expired and hold a refresh token, when [refresh] raises, the token file
    is removed and the user is asked to log in again; if that exchange
    fails too, the call raises and no token file is left. *)
Theorem failed_refresh_removes_token (c0 : Credentials.t) (content : string)
        (events : list AuthEvent) (e : exn) :
  Credentials.expired c0 = true ->
  Credentials.refresh_token c0 <> "" ->
  refresh c0 = Raise e ->
  let w := mkAuthWorld (Some content) events in
  let r := _refresh_or_get_new_credentials refresh authorize (Some c0) w in
  match authorize with
  | Ok c =>
      r = (mkAuthWorld (Some (Credentials.to_json c))
                       (events ++ [TokenRemoved; Prompted;
                                   TokenWritten (Credentials.to_json c)]),
           Ok c)
  | Raise e' =>
      r = (mkAuthWorld None (events ++ [TokenRemoved; Prompted]), Raise e')
  end.
Proof.
  intros He Ht Hr w r. unfold r, w, _refresh_or_get_new_credentials.
  rewrite He. apply String.eqb_neq in Ht. rewrite Ht. cbn [andb negb].
  rewrite Hr. unfold remove_token. cbn [token_file auth_events].
  unfold flow_and_write, run_flow, log_event, write_token.
  cbn [token_file auth_events].
  destruct authorize as [c|e']; cbn [token_file auth_events];
    rewrite <- !app_assoc; reflexivity.
Qed.

(** X17: without its two paths the program authenticates nothing.  When
    [GOOGLE_TOKEN_PATH] or [GOOGLE_CREDENTIALS_PATH] is unset or empty,
    [_get_google_tasks_service] raises [ValueError]; the token file is not
    read, nothing is refreshed, asked or written. *)
Theorem missing_paths_raise (token_path credentials_path : option string)
        (w : AuthWorld) :
  token_path = None \/ token_path = Some ""
  \/ credentials_path = None \/ credentials_path = Some "" ->
  _get_google_tasks_service from_authorized_user_file refresh authorize
                            token_path credentials_path w
  = (w, Raise ValueError).
Proof.
  unfold _get_google_tasks_service.
  intros [ -> | [ -> | [ -> | -> ] ] ]; try reflexivity;
    destruct token_path as [[|? ?]|]; reflexivity.
Qed.

(** X18: the service is built with valid credentials, if the flow gives
    valid ones.  Whatever the token file holds, the credentials that
    [_get_google_tasks_service] returns are valid; and either nothing was
    touched (the stored token was valid as it was), or the token file now
    holds their [to_json()]. *)
Theorem service_credentials_are_valid (token_path credentials_path : option string)
        (w w' : AuthWorld) (c : Credentials.t) :
  (forall c', authorize = Ok c' -> Credentials.valid c' = true) ->
  _get_google_tasks_service from_authorized_user_file refresh authorize
                            token_path credentials_path w
  = (w', Ok c) ->
  Credentials.valid c = true
  /\ (w' = w \/ token_file w' = Some (Credentials.to_json c)).
Proof.
  intros Hflow. unfold _get_google_tasks_service.
  destruct token_path as [[|? ?]|]; try discriminate.
  destruct credentials_path as [[|? ?]|]; try discriminate.
  destruct (token_file w) as [content|].
  - destruct (from_authorized_user_file content) as [c0|e]; [|discriminate].
    destruct (Credentials.valid c0) eqn:V.
    + intros H. injection H as <- <-. auto.
    + intros H. apply refresh_or_new_returns in H.
      destruct H as (Hf & _ & [[Hv _]|A]); auto.
  - intros H. apply refresh_or_new_returns in H.
    destruct H as (Hf & _ & [[Hv _]|A]); auto.
Qed.

End Token.

(** ** The report of a failure *)

Lemma take_length_le (n : nat) (s : string) :
  (String.length (PyStr.take n s) <= n)%nat.
Proof.
  unfold PyStr.take. revert s.
  induction n as [|n IH]; intros [|c s]; simpl; try lia.
  specialize (IH s). lia.
Qed.

(** X19: the report of a failure is never cut by the notifier.  The
    message built from a traceback holds at most 1908 characters, the
    first 1900 of the traceback between two fences; [send_discord_embed]
    sends it as its description, unchanged. *)
Theorem error_report_is_sent_whole (webhook_url : string) (t : Calendar.datetime)
        (title error_traceback : string) (color : Z) :
  webhook_url <> "" ->
  (String.length (error_message error_traceback) <= 1908)%nat
  /\ send_discord_embed (Some webhook_url) t title (error_message error_traceback) color
     = Some (mkEmbed title (error_message error_traceback) color (Calendar.isoformat t)).
Proof.
  intros Hurl.
  assert (String.length (error_message error_traceback) <= 1908)%nat as Hlen.
  { unfold error_message. rewrite !StrFacts.length_append.
    pose proof (take_length_le 1900 error_traceback).
    change (String.length "```") with 3%nat.
    change (String.length PyStr.newline) with 1%nat. lia. }
  split; [exact Hlen|].
  unfold send_discord_embed. destruct webhook_url as [|ch url]; [congruence|].
  unfold max_desc_length.
  replace (4096 <? String.length (error_message error_traceback))%nat with false
    by (symmetry; apply Nat.ltb_ge; lia).
  reflexivity.
Qed.

Lemma token_file_follows_credentials_witness :
  let r := _refresh_or_get_new_credentials Sample.refresh_ok Sample.logs_in
             (Some Sample.stale_creds) Sample.stored_token in
  snd r = Ok Sample.fresh_creds /\ token_file (fst r) = Some "{fresh}".
Proof.
  intros r. split; [reflexivity|].
  apply (token_file_follows_credentials Sample.refresh_ok Sample.logs_in
           (Some Sample.stale_creds) Sample.stored_token (fst r) Sample.fresh_creds).
  reflexivity.
Defined.

Lemma failed_refresh_removes_token_witness :
  _refresh_or_get_new_credentials Sample.refresh_refused Sample.login_fails
    (Some Sample.stale_creds) Sample.stored_token
  = (mkAuthWorld None [TokenRemoved; Prompted], Raise OtherError).
Proof.
  apply (failed_refresh_removes_token Sample.refresh_refused Sample.login_fails
           Sample.stale_creds "{stale}" [] OtherError).
  - reflexivity.
  - discriminate.
  - reflexivity.
Defined.

Lemma missing_paths_raise_witness :
  _get_google_tasks_service Sample.read_stale Sample.refresh_ok Sample.logs_in
                            None (Some "credentials.json") Sample.stored_token
  = (Sample.stored_token, Raise ValueError).
Proof.
  apply (missing_paths_raise Sample.read_stale Sample.refresh_ok Sample.logs_in
           None (Some "credentials.json") Sample.stored_token).
  left. reflexivity.
Defined.

Lemma service_credentials_are_valid_witness :
  let r := _get_google_tasks_service Sample.read_stale Sample.refresh_ok Sample.logs_in
             (Some "token.json") (Some "credentials.json") Sample.stored_token in
  snd r = Ok Sample.fresh_creds
  /\ Credentials.valid Sample.fresh_creds = true
  /\ (fst r = Sample.stored_token \/ token_file (fst r) = Some "{fresh}").
Proof.
  intros r. split; [reflexivity|].
  apply (service_credentials_are_valid Sample.read_stale Sample.refresh_ok
           Sample.logs_in (Some "token.json") (Some "credentials.json")
           Sample.stored_token (fst r) Sample.fresh_creds).
  - intros c' H. injection H as <-. reflexivity.
  - reflexivity.
Defined.

Lemma error_report_is_sent_whole_witness :
  let report := error_message (PyStr.zeros 5000) in
  (String.length report <= 1908)%nat
  /\ send_discord_embed (Some "https://discord.example/hook") Sample.jan5
                        "Blad" report 16711680
     = Some (mkEmbed "Blad" report 16711680 (Calendar.isoformat Sample.jan5)).
Proof.
  intros report.
  apply (error_report_is_sent_whole "https://discord.example/hook" Sample.jan5
           "Blad" (PyStr.zeros 5000) 16711680).
  discriminate.
Defined.

(** ** A run that returns *)

Section Returns.

Import Calendar FormatFacts CalendarFacts.

Variable clock : nat -> datetime.
Variable get_schedule : string -> string -> result (list (Z * list Event.t)).
Variable get_homework : string -> string -> result (list Homework.t).
Variable homework_detail : string -> result (list (string * string)).
Variable setup : Setup.

(** Every reading of the clock is a date of the years 1000 to 9998. *)
Hypothesis clock_ordinary :
  forall i, valid_date (dt_date (clock i)) = true
            /\ 1000 <= year (dt_date (clock i)) <= 9998.

Lemma day_events_return (t0 : datetime) (n : Z) (events : list Event.t) :
  1000 <= year (dt_date t0) ->
  valid_date (mkdate (year (dt_date t0)) (month (dt_date t0)) n) = true ->
  forall w,
  exists w',
    _process_day_events clock events n (strftime_m t0) (strftime_Y t0) w
    = (w', Ok tt).
Proof.
  intros Hlong Hv. pose proof (valid_date_bounds _ Hv) as (_ & _ & Hd).
  cbn [year month day] in Hd.
  pose proof (days_in_month_bounds (year (dt_date t0)) (month (dt_date t0))) as Hdim.
  assert (strptime (event_date_of (strftime_Y t0) (strftime_m t0) n)
          = Ok (midnight (mkdate (year (dt_date t0)) (month (dt_date t0)) n))) as P.
  { rewrite event_date_of_month by lia. now apply strptime_isoformat_date. }
  induction events as [|event rest IH]; intros w; [now exists w|].
  rewrite day_events_cons.
  destruct (truthy (Event.title event) && is_test_title (Event.title event)) eqn:E.
  - destruct (clock_ordinary (ticks w)) as [Hc Hy].
    pose proof (yesterday_of (clock (ticks w)) Hc ltac:(lia)) as Hlimit.
    destruct (datetime_ltb
                (midnight (mkdate (year (dt_date t0)) (month (dt_date t0)) n))
                (mkdatetime (pred_day (dt_date (clock (ticks w))))
                            (hour (clock (ticks w))) (minute (clock (ticks w)))
                            (second (clock (ticks w)))
                            (microsecond (clock (ticks w))))) eqn:L.
    + rewrite (day_event_old clock event n _ _ w _ _ E P Hlimit L). apply IH.
    + destruct (day_event_added clock event n _ _ w _ _ E P Hlimit L)
        as (c & _ & ->).
      apply IH.
  - rewrite (day_event_ignored clock event n _ _ w E). apply IH.
Qed.

Lemma process_homework_returns (w : World) :
  snd (process_homework clock get_homework homework_detail w) = Ok tt.
Proof.
  destruct (clock_ordinary (ticks w)) as [Hv Hy].
  rewrite (process_homework_window clock get_homework homework_detail w Hv
             ltac:(left; lia)).
  unfold try_except.
  destruct (bind _ _ (tick w)) as [w' [[]|e]]; reflexivity.
Qed.

(** X20: a run returns when the schedule is one of the month.  With a clock
    on ordinary dates, when the start goes well, the request for the
    schedule is answered with days of the month asked for, and every task
    listed has a due date, [main] returns a count, which is not negative:
    nothing that the homework phase meets, and no candidate collected, can
    make the run fail.  (The Tasks service is taken to answer every call
    of [add_task_if_not_exists].) *)
Theorem run_returns (w : World) (schedule : list (Z * list Event.t)) :
  let t1 := clock (S (ticks w)) in
  start_up setup = Ok tt ->
  get_schedule (strftime_m t1) (strftime_Y t1) = Ok schedule ->
  Forall (fun entry =>
            valid_date (mkdate (year (dt_date t1)) (month (dt_date t1)) (fst entry))
            = true) schedule ->
  all_due (listed w) ->
  exists w' added_count,
    main clock setup get_schedule get_homework homework_detail w
    = (w', Ok added_count)
    /\ 0 <= added_count.
Proof.
  intros t1 Hstart Hs Hdays Hdue. rewrite main_unfold, Hstart.
  set (w0 := mkWorld [] (remote w) (calls w) (S (ticks w))).
  pose proof (process_schedule_grows clock get_schedule w0 w0 (grows_from_refl w0))
    as G1.
  assert (collecting clock (ticks w) w0) as C0
      by (split; cbn [ticks all_tasks w0]; [lia | constructor]).
  pose proof (process_schedule_collecting clock get_schedule (ticks w) w0 C0) as C1.
  assert (exists wa, process_schedule clock get_schedule w0 = (wa, Ok tt))
    as (wa & Hsched).
  { unfold process_schedule, bind at 1, now. cbn [ticks w0]. fold t1. cbv zeta.
    unfold bind at 1, lift at 1. rewrite Hs. clear Hs.
    match goal with |- context [for_each schedule ?body ?w] => generalize w end.
    induction Hdays as [|[n events] rest Hday _ IH]; intros w'; [now exists w'|].
    rewrite for_each_cons. cbn [fst] in Hday.
    destruct events as [|event more]; [apply IH|].
    destruct (day_events_return t1 n (event :: more)
                ltac:(destruct (clock_ordinary (S (ticks w))); unfold t1; lia)
                Hday w') as (w'' & ->).
    apply IH. }
  rewrite Hsched in *. cbn [fst] in C1, G1.
  pose proof (process_homework_grows clock get_homework homework_detail w0 wa G1)
    as G2.
  pose proof (process_homework_collecting clock get_homework homework_detail
                (ticks w) wa C1) as C2.
  pose proof (process_homework_returns wa) as Hhw.
  destruct (process_homework clock get_homework homework_detail wa) as [wb rb].
  cbn [fst snd] in *. subst rb.
  rewrite process_collected_tasks_unfold.
  destruct C2 as [_ C2].
  assert (Forall parses (sort_desc (all_tasks wb))) as Hp.
  { apply SortFacts.sort_desc_Forall. eapply Forall_impl; [|exact C2].
    intros c (i & t & _ & P & _). now exists t. }
  destruct G2 as (_ & Hremote & _). cbn [remote w0] in Hremote.
  destruct (submit_loop_returns clock _ Hp 0
              (mkWorld (sort_desc (all_tasks wb)) (remote wb) (calls wb) (ticks wb)))
    as (w3 & n & -> & Hn & _).
  { unfold listed in *. cbn [remote]. now rewrite Hremote. }
  now exists w3, n.
Qed.

End Returns.

Lemma run_returns_witness :
  let get_schedule := Sample.schedule_of [(8, [Sample.test_event]); (31, [])] in
  let get_homework := Sample.homework_of [Sample.homework_blank] in
  exists w' added_count,
    main Sample.clock_jan5 Sample.setup_ok get_schedule get_homework Sample.details
         (Sample.world [] [Sample.remote_physics_jan6]) = (w', Ok added_count)
    /\ 0 <= added_count.
Proof.
  intros get_schedule get_homework.
  apply (run_returns Sample.clock_jan5 get_schedule get_homework Sample.details
           Sample.setup_ok)
    with (schedule := [(8, [Sample.test_event]); (31, [])]).
  - intros i. split; [reflexivity | cbn; lia].
  - reflexivity.
  - reflexivity.
  - repeat constructor.
  - repeat constructor. discriminate.
Defined.

(** ** Two runs on the same day *)

Section Uniform.

Context {A B : Type}.

Lemma uniform_ret (a : A) : uniform (ret a).
Proof. intros w w' H. split; [exact H | reflexivity]. Qed.

Lemma uniform_lift (r : result A) : uniform (lift r).
Proof. intros w w' H. split; [exact H | reflexivity]. Qed.

Lemma uniform_bind (m : M A) (k : A -> M B) :
  uniform m -> (forall a, uniform (k a)) -> uniform (bind m k).
Proof.
  intros Hm Hk w w' H. unfold bind.
  destruct (Hm w w' H) as [Ha Hs].
  destruct (m w) as [w1 r1], (m w') as [w1' r1']. cbn [fst snd] in *. subst r1'.
  destruct r1 as [a|e]; [now apply Hk | split; [exact Ha | reflexivity]].
Qed.

Lemma uniform_try_except (m : M A) (h : exn -> option (M A)) :
  uniform m ->
  (forall e handler, h e = Some handler -> uniform handler) ->
  uniform (try_except m h).
Proof.
  intros Hm Hh w w' H. unfold try_except.
  destruct (Hm w w' H) as [Ha Hs].
  destruct (m w) as [w1 r1], (m w') as [w1' r1']. cbn [fst snd] in *. subst r1'.
  destruct r1 as [a|e]; [split; [exact Ha | reflexivity]|].
  destruct (h e) as [handler|] eqn:E; [|split; [exact Ha | reflexivity]].
  now apply (Hh e handler E).
Qed.

End Uniform.

Lemma uniform_for_each {A} (items : list A) (body : A -> M unit) :
  (forall x, uniform (body x)) -> uniform (for_each items body).
Proof.
  intros Hbody. induction items as [|x rest IH]; cbn [for_each].
  - apply uniform_ret.
  - apply uniform_bind; [apply Hbody | intros _; exact IH].
Qed.

Lemma uniform_append (task : Task.t) : uniform (append_task task).
Proof.
  intros w w' H. unfold append_task, alike in *. cbn [fst snd all_tasks].
  now rewrite H.
Qed.

Section TwoRuns.

Import Calendar FormatFacts CalendarFacts.

Variable clock : nat -> datetime.
Variable get_schedule : string -> string -> result (list (Z * list Event.t)).
Variable get_homework : string -> string -> result (list Homework.t).
Variable homework_detail : string -> result (list (string * string)).

(** The clock stands still during the two runs. *)
Variable t : datetime.
Hypothesis clock_stands : forall i, clock i = t.

Lemma uniform_now : uniform (now clock).
Proof.
  intros w w' H. unfold now, alike in *. cbn [fst snd all_tasks].
  split; [exact H | now rewrite !clock_stands].
Qed.

Ltac uniformly :=
  repeat first
    [ apply uniform_ret
    | apply uniform_lift
    | apply uniform_now
    | apply uniform_append
    | apply uniform_for_each; intros ?
    | apply uniform_bind; [|intros ?]
    | apply uniform_try_except; [|intros ? ? ?]
    | match goal with
      | |- uniform (let _ := _ in _) => cbv zeta
      | |- uniform (if ?b then _ else _) => destruct b
      | |- uniform (match ?x with _ => _ end) => destruct x
      | H : match ?e with _ => _ end = Some _ |- _ => destruct e
      | H : Some _ = Some _ |- _ => injection H as <-
      | H : None = Some _ |- _ => discriminate H
      end ].

Lemma process_schedule_uniform : uniform (process_schedule clock get_schedule).
Proof. unfold process_schedule, _process_day_events, _add_event_task. uniformly. Qed.

Lemma process_homework_uniform :
  uniform (process_homework clock get_homework homework_detail).
Proof. unfold process_homework, _process_single_homework. uniformly. Qed.

(** *** Homework rows with padded dates *)

Lemma homework_well_dated (homework : Homework.t) :
  padded_row homework ->
  preserves (fun w => Forall well_dated (all_tasks w))
            (_process_single_homework clock homework_detail homework).
Proof.
  unfold padded_row, _process_single_homework. intros Hrow w Hw.
  unfold bind at 1, lift at 1.
  destruct (PyStr.split (Homework.completion_date homework)) as [|word rest];
    [exact Hw|].
  cbv beta.
  refine (preserves_bind (fun w => Forall well_dated (all_tasks w)) _ _ _ _ w Hw);
    clear w Hw.
  - apply preserves_try_except.
    + apply preserves_bind; [apply preserves_lift|]. intros homework_date.
      apply preserves_bind; [intros w Hw; exact Hw|]. intros t'. cbv zeta.
      destruct (date_eqb _ _); [apply preserves_ret|].
      destruct (date_ltb _ _); apply preserves_ret.
    + intros e handler H. destruct e; try discriminate.
      injection H as <-. apply preserves_ret.
  - intros [|]; [|apply preserves_ret].
    apply preserves_bind; [apply preserves_lift|]. intros details. cbv zeta.
    intros w Hw. unfold append_task. cbn [fst all_tasks].
    apply Forall_app. split; [exact Hw|]. constructor; [exact Hrow | constructor].
Qed.

Hypothesis padded_rows :
  forall date_from date_to rows,
    get_homework date_from date_to = Ok rows -> Forall padded_row rows.

Lemma process_homework_well_dated :
  preserves (fun w => Forall well_dated (all_tasks w))
            (process_homework clock get_homework homework_detail).
Proof.
  unfold process_homework.
  apply preserves_bind; [intros w Hw; exact Hw|]. intros today.
  apply preserves_bind; [apply preserves_lift|]. intros first_day. cbv zeta.
  apply preserves_bind; [apply preserves_lift|]. intros day28.
  apply preserves_bind; [apply preserves_lift|]. intros next_month.
  apply preserves_bind; [apply preserves_lift|]. intros next_first.
  apply preserves_bind; [apply preserves_lift|]. intros last_day.
  apply preserves_try_except.
  - intros w Hw. unfold bind, lift.
    destruct (get_homework _ _) as [rows|e] eqn:E; [|exact Hw].
    pose proof (padded_rows _ _ _ E) as Hrows. rewrite Forall_forall in Hrows.
    apply for_each_In; [|exact Hw].
    intros homework Hin. apply homework_well_dated. now apply Hrows.
  - intros e handler H. injection H as <-. apply preserves_ret.
Qed.

Hypothesis two_digit_days :
  forall month year schedule,
    get_schedule month year = Ok schedule ->
    Forall (fun entry => 0 <= fst entry <= 99) schedule.

Hypothesis clock_valid : valid_date (dt_date t) = true.

(** What a run collects is in the padded form. *)
Lemma collection_well_dated (w0 : World) :
  all_tasks w0 = [] ->
  Forall well_dated
         (all_tasks (fst (process_homework clock get_homework homework_detail
                            (fst (process_schedule clock get_schedule w0))))).
Proof.
  intros Hempty. apply process_homework_well_dated.
  destruct (process_schedule_in_month clock get_schedule w0) as (added & Ha & Hp).
  - now rewrite clock_stands.
  - intros schedule Hs. exact (two_digit_days _ _ _ Hs).
  - rewrite Ha, Hempty. cbn [app].
    eapply Forall_impl; [|exact Hp].
    intros c (d & Hd & Hdate). unfold well_dated. apply canonical_spec. eauto.
Qed.

(** With a clock that stands still: when a run of [main] has returned,
    the next run, if it starts well, returns 0 and leaves the remote list
    as it is. *)
Lemma second_run_still (setup setup' : Setup) (w w1 : World) (added_count : Z) :
  main clock setup get_schedule get_homework homework_detail w
  = (w1, Ok added_count) ->
  start_up setup' = Ok tt ->
  exists w2,
    main clock setup' get_schedule get_homework homework_detail w1 = (w2, Ok 0)
    /\ remote w2 = remote w1.
Proof.
  assert (forall i, dt_date (clock i) = dt_date t) as Hday
      by (intros i; now rewrite clock_stands).
  intros Hfirst Hstart. revert Hfirst.
  rewrite !main_unfold, Hstart.
  destruct (start_up setup) as [[]|e]; [|discriminate].
  set (w0 := mkWorld [] (remote w) (calls w) (S (ticks w))).
  set (w0' := mkWorld [] (remote w1) (calls w1) (S (ticks w1))).
  pose proof (collection_well_dated w0 eq_refl) as Hwd.
  (* the second run collects what the first collected *)
  destruct (process_schedule_uniform w0 w0' eq_refl) as [Hs1 Hs2].
  pose proof (process_schedule_grows clock get_schedule w0' w0'
                (grows_from_refl w0')) as Gs.
  destruct (process_schedule clock get_schedule w0) as [wa [[]|e]]; [|discriminate].
  destruct (process_schedule clock get_schedule w0') as [wa' ra'].
  cbn [fst snd] in *. subst ra'.
  destruct (process_homework_uniform wa wa' Hs1) as [Hh1 Hh2].
  pose proof (process_homework_grows clock get_homework homework_detail w0' wa' Gs)
    as Gh.
  destruct (process_homework clock get_homework homework_detail wa)
    as [wb [[]|e]]; [|discriminate].
  destruct (process_homework clock get_homework homework_detail wa') as [wb' rb'].
  cbn [fst snd] in *. subst rb'.
  destruct Gh as (_ & Hremote & _). cbn [remote w0'] in Hremote.
  unfold alike in Hh1.
  (* the first submission leaves every candidate under rule A or rule B *)
  rewrite !process_collected_tasks_unfold. rewrite <- Hh1.
  pose proof (SortFacts.sort_desc_Forall _ _ Hwd) as Hsorted.
  intros Hrun.
  destruct (first_pass clock (dt_date t) Hday _ Hsorted _ _ _ _ Hrun)
    as (_ & _ & _ & Hall).
  (* so the second submission adds nothing *)
  assert (Forall parses (sort_desc (all_tasks wb))) as Hp.
  { eapply Forall_impl; [|exact Hsorted]. apply well_dated_parses. }
  destruct (second_pass clock (dt_date t) Hday _ Hp 0
              (mkWorld (sort_desc (all_tasks wb)) (remote wb') (calls wb') (ticks wb')))
    as (w2 & Hrun2 & Hrem & _).
  { cbn [remote]. now rewrite Hremote. }
  exists w2. split; [exact Hrun2|]. now rewrite Hrem.
Qed.

End TwoRuns.

(** ** What the program sees of the clock *)

Lemma bind_ext {A B} (m m' : M A) (k k' : A -> M B) (w : World) :
  m w = m' w -> (forall a w', k a w' = k' a w') -> bind m k w = bind m' k' w.
Proof.
  intros Hm Hk. unfold bind. rewrite Hm.
  destruct (m' w) as [w1 [a|e]]; [apply Hk | reflexivity].
Qed.

Lemma try_except_ext {A} (m m' : M A) (h : exn -> option (M A)) (w : World) :
  m w = m' w -> try_except m h w = try_except m' h w.
Proof. intros Hm. unfold try_except. now rewrite Hm. Qed.

Lemma for_each_ext {A} (items : list A) (body body' : A -> M unit) :
  (forall x w, body x w = body' x w) ->
  forall w, for_each items body w = for_each items body' w.
Proof.
  intros Hbody. induction items as [|x rest IH]; intros w; [reflexivity|].
  cbn [for_each]. apply bind_ext; [apply Hbody | intros _ w'; apply IH].
Qed.

Section ClockExt.

Import Calendar FormatFacts CalendarFacts.

Variables clock clock' : nat -> datetime.
Variable get_schedule : string -> string -> result (list (Z * list Event.t)).
Variable get_homework : string -> string -> result (list Homework.t).
Variable homework_detail : string -> result (list (string * string)).
Variable setup : Setup.

Hypothesis same_readings : forall i, same_reading (clock i) (clock' i).

Lemma same_date (i : nat) : dt_date (clock i) = dt_date (clock' i).
Proof. exact (proj1 (same_readings i)). Qed.

Lemma add_task_clock (event_title event_date notes : string) (w : World) :
  add_task_if_not_exists clock event_title event_date notes w
  = add_task_if_not_exists clock' event_title event_date notes w.
Proof.
  unfold add_task_if_not_exists, bind, lift, now.
  destruct (strptime event_date) as [event_datetime|e]; [|reflexivity].
  cbn [ticks]. now rewrite same_date.
Qed.

Lemma submit_loop_clock (tasks : list Task.t) :
  forall (k : Z) (w : World),
    submit_loop clock tasks k w = submit_loop clock' tasks k w.
Proof.
  induction tasks as [|task rest IH]; intros k w; [reflexivity|].
  cbn [submit_loop]. apply bind_ext; [apply add_task_clock|].
  intros added w'. apply IH.
Qed.

Lemma process_collected_tasks_clock (w : World) :
  process_collected_tasks clock w = process_collected_tasks clock' w.
Proof. rewrite !process_collected_tasks_unfold. apply submit_loop_clock. Qed.

Lemma single_homework_clock (homework : Homework.t) (w : World) :
  _process_single_homework clock homework_detail homework w
  = _process_single_homework clock' homework_detail homework w.
Proof.
  unfold _process_single_homework.
  apply bind_ext; [reflexivity|]. intros completion_date w1.
  apply bind_ext; [|reflexivity].
  apply try_except_ext. apply bind_ext; [reflexivity|]. intros homework_date w2.
  unfold bind, now. cbn [ticks]. now rewrite same_date.
Qed.

Lemma bind_now_clock {B} (k k' : datetime -> M B) (w : World) :
  k (clock (ticks w)) (tick w) = k' (clock' (ticks w)) (tick w) ->
  bind (now clock) k w = bind (now clock') k' w.
Proof. intros H. unfold bind, now. exact H. Qed.

Lemma process_homework_clock (w : World) :
  process_homework clock get_homework homework_detail w
  = process_homework clock' get_homework homework_detail w.
Proof.
  unfold process_homework. apply bind_now_clock.
  generalize (same_date (ticks w)).
  generalize (clock (ticks w)), (clock' (ticks w)), (tick w).
  intros t t' w1 Hdate.
  unfold replace_day, datetime_add_days, add_days, strftime_Ymd, bind, lift.
  cbn [dt_date hour minute second microsecond].
  rewrite <- Hdate.
  repeat match goal with
         | |- context [if ?b then _ else _] => destruct b; cbn [dt_date]
         end;
    try reflexivity.
  apply try_except_ext.
  match goal with
  | |- context [get_homework ?a ?b] => destruct (get_homework a b) as [rows|e]
  end; [|reflexivity].
  apply for_each_ext. intros homework w'. apply single_homework_clock.
Qed.

Lemma limit_clock (d : date) (t t' limit : datetime) :
  same_reading t t' ->
  datetime_add_days t (-1) = Ok limit ->
  exists limit',
    datetime_add_days t' (-1) = Ok limit'
    /\ datetime_ltb (midnight d) limit = datetime_ltb (midnight d) limit'.
Proof.
  intros [Hdate Hpast]. unfold datetime_add_days. rewrite <- Hdate.
  destruct (add_days (dt_date t) (-1)) as [yesterday|e]; [|discriminate].
  intros H. injection H as <-. eexists. split; [reflexivity|].
  unfold datetime_ltb. cbn [dt_date].
  change (time_of_day (midnight d)) with 0.
  change (0 <? time_of_day (mkdatetime yesterday (hour t) (minute t) (second t)
                                       (microsecond t)))
    with (past_midnight t).
  change (0 <? time_of_day (mkdatetime yesterday (hour t') (minute t') (second t')
                                       (microsecond t')))
    with (past_midnight t').
  now rewrite Hpast.
Qed.

Lemma limit_raises_clock (t t' : datetime) (e : exn) :
  same_reading t t' ->
  datetime_add_days t (-1) = Raise e -> datetime_add_days t' (-1) = Raise e.
Proof.
  intros [Hdate _]. unfold datetime_add_days. rewrite <- Hdate.
  destruct (add_days (dt_date t) (-1)); [discriminate | auto].
Qed.

Lemma day_events_clock (events : list Event.t) (n : Z) (month year : string)
      (w : World) :
  _process_day_events clock events n month year w
  = _process_day_events clock' events n month year w.
Proof.
  unfold _process_day_events. apply for_each_ext. clear w. intros event w.
  destruct (negb (truthy (Event.title event))); [reflexivity|].
  destruct (negb (is_test_title (Event.title event))); [reflexivity|].
  cbv zeta. unfold bind at 1 3, lift at 1 3.
  destruct (strptime _) as [event_datetime|e] eqn:P; [|reflexivity].
  apply strptime_ok in P. destruct P as [_ ->].
  apply bind_now_clock. unfold bind, lift.
  pose proof (same_readings (ticks w)) as Hsame.
  destruct (datetime_add_days (clock (ticks w)) (-1)) as [limit|e] eqn:L.
  - destruct (limit_clock (dt_date event_datetime) _ _ _ Hsame L)
      as (limit' & -> & ->).
    reflexivity.
  - now rewrite (limit_raises_clock _ _ _ Hsame L).
Qed.

Lemma process_schedule_clock (w : World) :
  process_schedule clock get_schedule w = process_schedule clock' get_schedule w.
Proof.
  unfold process_schedule. apply bind_now_clock. cbv zeta.
  unfold strftime_m, strftime_Y. rewrite <- (same_date (ticks w)).
  apply bind_ext; [reflexivity|]. intros schedule w1.
  apply for_each_ext. intros [n events] w2.
  destruct events; [reflexivity | apply day_events_clock].
Qed.

(** A run depends on the clock through the date of each reading, and
    through whether the reading is on midnight. *)
Lemma main_clock (w : World) :
  main clock setup get_schedule get_homework homework_detail w
  = main clock' setup get_schedule get_homework homework_detail w.
Proof.
  rewrite !main_unfold.
  destruct (start_up setup) as [[]|e]; [|reflexivity].
  rewrite process_schedule_clock.
  destruct (process_schedule clock' get_schedule _) as [w1 [[]|e]]; [|reflexivity].
  rewrite process_homework_clock.
  destruct (process_homework clock' get_homework homework_detail w1)
    as [w2 [[]|e]]; [|reflexivity].
  apply process_collected_tasks_clock.
Qed.

End ClockExt.

Section SameDay.

Import Calendar FormatFacts CalendarFacts.

Variable clock : nat -> datetime.
Variable get_schedule : string -> string -> result (list (Z * list Event.t)).
Variable get_homework : string -> string -> result (list Homework.t).
Variable homework_detail : string -> result (list (string * string)).

(** The readings of the two runs cannot be told apart: one valid date,
    and all on midnight or all after it. *)
Hypothesis one_reading : forall i, same_reading (clock i) (clock 0%nat).
Hypothesis clock_valid : valid_date (dt_date (clock 0%nat)) = true.

Hypothesis two_digit_days :
  forall month year schedule,
    get_schedule month year = Ok schedule ->
    Forall (fun entry => 0 <= fst entry <= 99) schedule.

Hypothesis padded_rows :
  forall date_from date_to rows,
    get_homework date_from date_to = Ok rows -> Forall padded_row rows.


End SameDay.

